(** * Payroll disbursement: ledger model, gateway client, queue worker,
      notification receiver and reconciler

    A shallow embedding of the TypeScript modules
      - models/payroll            (PayrollModel, PayrollItemModel)
      - jobs/payroll.processor    (processBulkPayroll, updatePayrollStats)
      - routes/monnify.webhook    (verifySignature, the webhook handler)
      - controllers/payroll.controller (reconcilePayroll, updatePayrollStats)
      - config/monnify            (MonnifyClient.initiateBulkTransfer,
                                   authorizeBulkTransfer, getBatchDetails,
                                   getTransactionStatus)
      - controllers/payroll.controller (processPayroll, getPayrollStatus,
                                   authorizeBulkTransfer)
      - models/employee           (EmployeeModel.generateEmployeeId)

    Conventions.
      - The relational store is passed explicitly.  The [payroll_items] table
        is the list of its rows in [created_at] order (the order in which
        [findByPayrollId] returns them); an UPDATE maps over the rows that
        match its WHERE clause.  [payrolls] and [employees] are finite maps
        keyed by their primary key.  Where a property needs the primary key
        of [payroll_items] it assumes [unique_ids].
      - SQL [NOW()] and [Date.now()] are an explicit argument [now]; one
        invocation of a handler uses one value of it.
      - A JavaScript exception is a [None] or [Threw] result; the database
        itself never fails in this model.
      - An optional or nullable string is an [option string]; JavaScript
        truthiness of such a value is [truthy].
      - Row ids are integers and amounts are rationals; [NaN] is the [None]
        of a conversion, and amounts are never [NaN].
      - The external gateway is an oracle: a record of functions for the
        client ([MonnifyClient.Network]) and a function from transaction
        reference to answer for the reconciler
        ([PayrollController.Gateway]).
      - [PayrollController.reconcilePayroll] is the static method called on
        its class, so that [this.updatePayrollStats] is the helper of that
        name; [ReconcileHandler] and [BulkAuthorization] take the receiver
        as an argument. *)

From Stdlib Require Import ZArith QArith Qcanon Ascii.
From stdpp Require Import base option strings list gmap pretty numbers.

Local Open Scope Z_scope.

(** ** JavaScript helpers *)

(** [!!v] for a value that is [undefined]/[null] or a string. *)
Definition truthy (v : option string) : bool :=
  match v with
  | Some s => negb (bool_decide (s = ""))
  | None => false
  end.

(** [a || b] on such values. *)
Definition or_else (a b : option string) : option string :=
  if truthy a then a else b.

(** [s.split(sep)] for a one-character separator. *)
Fixpoint split_on (sep : Ascii.ascii) (s : string) : list string :=
  match s with
  | EmptyString => [EmptyString]
  | String c rest =>
      if bool_decide (c = sep) then EmptyString :: split_on sep rest
      else match split_on sep rest with
           | [] => [String c EmptyString]
           | w :: ws => String c w :: ws
           end
  end.

(** A [Number(...)] conversion restricted to unsigned decimal literals; it
    agrees with JavaScript on every string made of decimal digits only and is
    used to run the handlers on concrete events.  The handlers themselves are
    parametric in the conversion. *)
Definition digit_value (c : Ascii.ascii) : option Z :=
  let n := Z.of_nat (Ascii.nat_of_ascii c) in
  if bool_decide (48 <= n <= 57) then Some (n - 48) else None.

Fixpoint decimal_from (acc : Z) (s : string) : option Z :=
  match s with
  | EmptyString => Some acc
  | String c rest =>
      match digit_value c with
      | Some d => decimal_from (10 * acc + d) rest
      | None => None
      end
  end.

Definition decimalNumber (s : string) : option Z := decimal_from 0 s.

(** ** models/payroll.ts *)

Inductive PayrollStatus :=
  | PENDING
  | PROCESSING
  | COMPLETED
  | FAILED
  | PARTIALLY_COMPLETED.

#[global] Instance PayrollStatus_eq_dec : EqDecision PayrollStatus.
Proof. solve_decision. Defined.

Module Payroll.
Record t := mk {
  id : Z;
  payroll_period : string;
  total_amount : Qc;
  total_employees : nat;
  status : PayrollStatus;
  processed_count : nat;
  failed_count : nat;
  created_at : Z;
  updated_at : Z;
  processed_at : option Z
}.
End Payroll.

Module PayrollItem.
Record t := mk {
  id : Z;
  payroll_id : Z;
  employee_id : Z;
  amount : Qc;
  status : PayrollStatus;
  transaction_reference : option string;
  error_message : option string;
  processed_at : option Z;
  created_at : Z;
  updated_at : Z
}.
End PayrollItem.

#[global] Instance PayrollItem_eq_dec : EqDecision PayrollItem.t.
Proof. solve_decision. Defined.

(** The columns of an employee row that the payroll code reads. *)
Module Employee.
Record t := mk {
  id : Z;
  name : string;
  account_number : string;
  bank_code : string
}.
End Employee.

Record Store := mkStore {
  employees : gmap Z Employee.t;
  payrolls : gmap Z Payroll.t;
  payroll_items : list PayrollItem.t
}.

Definition with_items (s : Store) (rows : list PayrollItem.t) : Store :=
  mkStore (employees s) (payrolls s) rows.

Definition with_payrolls (s : Store) (m : gmap Z Payroll.t) : Store :=
  mkStore (employees s) m (payroll_items s).

(** The item is COMPLETED or FAILED. *)
Definition terminal (st : PayrollStatus) : bool :=
  bool_decide (st = COMPLETED) || bool_decide (st = FAILED).

Module EmployeeModel.
Definition findById (s : Store) (i : Z) : option Employee.t :=
  employees s !! i.
End EmployeeModel.

Module PayrollModel.
Definition findById (s : Store) (i : Z) : option Payroll.t :=
  payrolls s !! i.

(** The row produced by the UPDATE of [updateStatus]. *)
Definition updated (now : Z) (status : PayrollStatus)
    (processedCount failedCount : option nat) (p : Payroll.t) : Payroll.t :=
  Payroll.mk (Payroll.id p) (Payroll.payroll_period p)
    (Payroll.total_amount p) (Payroll.total_employees p)
    status
    (match processedCount with
     | Some c => c
     | None => Payroll.processed_count p
     end)
    (match failedCount with
     | Some c => c
     | None => Payroll.failed_count p
     end)
    (Payroll.created_at p)
    now
    (if bool_decide (status = COMPLETED)
        || bool_decide (status = PARTIALLY_COMPLETED)
     then Some now
     else Payroll.processed_at p).

Definition updateStatus (s : Store) (now : Z) (i : Z)
    (status : PayrollStatus) (processedCount failedCount : option nat)
    : Store :=
  with_payrolls s
    (alter (updated now status processedCount failedCount) i (payrolls s)).
End PayrollModel.

Module PayrollItemModel.
(** The JOIN with [employees] drops an item whose employee row is gone. *)
Definition joined (s : Store) (it : PayrollItem.t) : Prop :=
  is_Some (employees s !! PayrollItem.employee_id it).

#[global] Instance joined_dec s it : Decision (joined s it).
Proof. unfold joined. apply _. Defined.

Definition findByPayrollId (s : Store) (payrollId : Z)
    : list PayrollItem.t :=
  filter (λ it, PayrollItem.payroll_id it = payrollId ∧ joined s it)
         (payroll_items s).

Definition findById (s : Store) (i : Z) : option PayrollItem.t :=
  head (filter (λ it, PayrollItem.id it = i ∧ joined s it)
               (payroll_items s)).

(** The row produced by the UPDATE of [updateStatus]. *)
Definition updated (now : Z) (status : PayrollStatus)
    (transactionReference errorMessage : option string)
    (it : PayrollItem.t) : PayrollItem.t :=
  PayrollItem.mk (PayrollItem.id it) (PayrollItem.payroll_id it)
    (PayrollItem.employee_id it) (PayrollItem.amount it)
    status
    (if truthy transactionReference then transactionReference
     else PayrollItem.transaction_reference it)
    (if truthy errorMessage then errorMessage
     else PayrollItem.error_message it)
    (if bool_decide (status = COMPLETED) || bool_decide (status = FAILED)
     then Some now
     else PayrollItem.processed_at it)
    (PayrollItem.created_at it)
    now.

Definition updateStatus (s : Store) (now : Z) (i : Z)
    (status : PayrollStatus)
    (transactionReference errorMessage : option string) : Store :=
  with_items s
    ((λ it, if bool_decide (PayrollItem.id it = i)
            then updated now status transactionReference errorMessage it
            else it) <$> payroll_items s).
End PayrollItemModel.

(** ** Aggregate recompute

    [updatePayrollStats] exists in three copies: in the queue worker, in the
    notification receiver and in the controller. *)

Definition count_status (st : PayrollStatus) (items : list PayrollItem.t)
    : nat :=
  length (filter (λ i, PayrollItem.status i = st) items).


(** ** config/monnify.ts *)

(** A value returned by a call, or the message of the [Error] it threw. *)
Inductive result (A : Type) :=
  | Ok (a : A)
  | Threw (msg : string).
Arguments Ok {A} a.
Arguments Threw {A} msg.

Module MonnifyClient.
Record Transfer := mkTransfer {
  amount : Qc;
  recipientAccountNumber : string;
  recipientBankCode : string;
  recipientName : string;
  narration : string;
  reference : string
}.

(** One element of [requestBody.transactionList]. *)
Record BatchEntry := mkBatchEntry {
  e_amount : Qc;
  e_reference : string;
  e_narration : string;
  destinationBankCode : string;
  destinationAccountNumber : string;
  currency : string
}.

Record BatchRequest := mkBatchRequest {
  title : string;
  batchReference : string;
  b_narration : string;
  sourceAccountNumber : string;
  onValidationFailure : string;
  notificationInterval : Z;
  transactionList : list BatchEntry
}.

(** One element of [response.responseBody.transactionList]. *)
Record TxEntry := mkTxEntry {
  r_reference : option string;
  r_transactionReference : option string
}.

(** [response.data] of the batch endpoint; a missing [responseBody] or
    [transactionList] is the empty list. *)
Record BulkResponse := mkBulkResponse {
  requestSuccessful : bool;
  r_transactionList : list TxEntry
}.

(** The gateway as seen by the client: the outcome of the login request
    ([None]: the request failed, [Some tok]: the token of the response) and
    of the batch request ([Ok None] is an empty response body). *)
Record Network := mkNetwork {
  login : option (option string);
  postBatch : BatchRequest → result (option BulkResponse)
}.

Inductive NetCall :=
  | Login
  | PostBatch (body : BatchRequest).

Record t := mk {
  contractCode : string;
  accessToken : option string;
  tokenExpiry : Z
}.

Definition authenticate (net : Network) (now : Z) (c : t)
    : t * list NetCall * result unit :=
  match login net with
  | Some tok =>
      (mk (contractCode c) tok (now + 23 * 60 * 60 * 1000), [Login], Ok ())
  | None => (c, [Login], Threw "Failed to authenticate with Monnify")
  end.

Definition ensureAuthenticated (net : Network) (now : Z) (c : t)
    : t * list NetCall * result unit :=
  if negb (truthy (accessToken c)) || bool_decide (tokenExpiry c <= now)
  then authenticate net now c
  else (c, [], Ok ()).

(** The checks of one iteration of the validation loop. *)
Definition validateTransfer (tr : Transfer) : option string :=
  if bool_decide (amount tr = 0%Qc) || bool_decide (amount tr <= 0)%Qc
  then Some ("Invalid amount for transfer: " +:+ reference tr)
  else if bool_decide (recipientAccountNumber tr = "")
  then Some ("Missing account number for transfer: " +:+ reference tr)
  else if bool_decide (recipientBankCode tr = "")
  then Some ("Missing bank code for transfer: " +:+ reference tr)
  else if bool_decide (recipientName tr = "")
  then Some ("Missing recipient name for transfer: " +:+ reference tr)
  else None.

Fixpoint validateTransfers (transfers : list Transfer) : option string :=
  match transfers with
  | [] => None
  | tr :: rest =>
      match validateTransfer tr with
      | Some msg => Some msg
      | None => validateTransfers rest
      end
  end.

Definition requestBody (now : Z) (c : t) (transfers : list Transfer)
    : BatchRequest :=
  mkBatchRequest "Bulk Payroll Transfers" ("BATCH_" +:+ pretty now)
    "Payroll batch disbursement" (contractCode c) "CONTINUE" 50
    ((λ tr, mkBatchEntry (amount tr) (reference tr) (narration tr)
              (recipientBankCode tr) (recipientAccountNumber tr) "NGN")
       <$> transfers).

(** [this.client.post('/api/v2/disbursements/batch', body)]: the request
    interceptor runs [ensureAuthenticated] before the request is sent. *)
Definition clientPost (net : Network) (now : Z) (c : t)
    (body : BatchRequest)
    : t * list NetCall * result (option BulkResponse) :=
  match ensureAuthenticated net now c with
  | (c1, calls, Ok _) => (c1, calls ++ [PostBatch body], postBatch net body)
  | (c1, calls, Threw msg) => (c1, calls, Threw msg)
  end.

Definition initiateBulkTransfer (net : Network) (now : Z) (c : t)
    (transfers : list Transfer)
    : t * list NetCall * result (option BulkResponse) :=
  match ensureAuthenticated net now c with
  | (c1, calls, Threw msg) => (c1, calls, Threw msg)
  | (c1, calls, Ok _) =>
      if bool_decide (transfers = []) then
        (c1, calls, Threw "No transfers provided")
      else if bool_decide (contractCode c1 = "") then
        (c1, calls, Threw "Monnify contract code is not configured")
      else
        match validateTransfers transfers with
        | Some msg => (c1, calls, Threw msg)
        | None =>
            match clientPost net now c1 (requestBody now c1 transfers) with
            | (c2, calls2, r) => (c2, calls ++ calls2, r)
            end
        end
  end.
End MonnifyClient.

(** ** jobs/payroll.processor.ts: the queue worker *)

(** The template literal [`PAYROLL_${payrollId}_${item.id}`]. *)
Definition payrollReference (payrollId itemId : Z) : string :=
  "PAYROLL_" +:+ pretty payrollId +:+ "_" +:+ pretty itemId.

Module PayrollProcessor.
(** What one invocation leaves behind: the store, the client, the network
    calls it made, and whether it returned or threw. *)
Record Run := mkRun {
  store : Store;
  client : MonnifyClient.t;
  calls : list MonnifyClient.NetCall;
  outcome : result unit
}.

Definition eligible (i : PayrollItem.t) : bool :=
  bool_decide (PayrollItem.status i = PENDING)
  || (bool_decide (PayrollItem.status i = PROCESSING)
      && negb (truthy (PayrollItem.transaction_reference i))).

Definition payable (items : list PayrollItem.t) : list PayrollItem.t :=
  filter (λ i, eligible i = true) items.

(** The first loop: look the employee up, mark the item PROCESSING, push
    its transfer.  It stops at the first item whose employee is missing. *)
Fixpoint buildTransfers (s : Store) (now : Z) (payrollId : Z)
    (items : list PayrollItem.t) (transfers : list MonnifyClient.Transfer)
    : Store * result (list MonnifyClient.Transfer) :=
  match items with
  | [] => (s, Ok transfers)
  | item :: rest =>
      match EmployeeModel.findById s (PayrollItem.employee_id item) with
      | None => (s, Threw "Employee not found")
      | Some employee =>
          let reference := payrollReference payrollId (PayrollItem.id item) in
          let s1 :=
            PayrollItemModel.updateStatus s now (PayrollItem.id item)
              PROCESSING None None in
          buildTransfers s1 now payrollId rest
            (transfers ++
               [MonnifyClient.mkTransfer (PayrollItem.amount item)
                  (Employee.account_number employee)
                  (Employee.bank_code employee)
                  (Employee.name employee)
                  "Payroll payment" reference])
      end
  end.

(** The second loop: store the gateway reference of each matched item. *)
Definition backfill (results : list MonnifyClient.TxEntry) (now : Z)
    (payrollId : Z) (s : Store) (item : PayrollItem.t) : Store :=
  let ref := payrollReference payrollId (PayrollItem.id item) in
  match
    List.find (λ r, bool_decide (MonnifyClient.r_reference r = Some ref))
              results
  with
  | Some m =>
      if truthy (MonnifyClient.r_transactionReference m)
      then PayrollItemModel.updateStatus s now (PayrollItem.id item)
             PROCESSING (MonnifyClient.r_transactionReference m) None
      else s
  | None => s
  end.

Definition updatePayrollStats (s : Store) (now : Z) (payrollId : Z)
    : Store :=
  let items := PayrollItemModel.findByPayrollId s payrollId in
  let completed := count_status COMPLETED items in
  let failed := count_status FAILED items in
  let status := PROCESSING in
  let status :=
    if bool_decide (completed = length items) then COMPLETED
    else if bool_decide (failed = length items) then FAILED
    else if bool_decide (0 < completed)%nat then PARTIALLY_COMPLETED
    else status in
  PayrollModel.updateStatus s now payrollId status
    (Some completed) (Some failed).

Definition processBulkPayroll (net : MonnifyClient.Network) (now : Z)
    (c : MonnifyClient.t) (s : Store) (payrollId : Z) : Run :=
  let items := PayrollItemModel.findByPayrollId s payrollId in
  let payable := payable items in
  if bool_decide (payable = []) then mkRun s c [] (Ok ())
  else
    let s1 := PayrollModel.updateStatus s now payrollId PROCESSING None None in
    match buildTransfers s1 now payrollId payable [] with
    | (s2, Threw msg) => mkRun s2 c [] (Threw msg)
    | (s2, Ok transfers) =>
        match MonnifyClient.initiateBulkTransfer net now c transfers with
        | (c1, calls, Threw msg) => mkRun s2 c1 calls (Threw msg)
        | (c1, calls, Ok response) =>
            match response with
            | Some resp =>
                if MonnifyClient.requestSuccessful resp then
                  let s3 :=
                    foldl (backfill (MonnifyClient.r_transactionList resp)
                             now payrollId) s2 payable in
                  mkRun (updatePayrollStats s3 now payrollId)
                    c1 calls (Ok ())
                else
                  mkRun s2 c1 calls (Threw "Bulk transfer initiation failed")
            | None =>
                mkRun s2 c1 calls (Threw "Bulk transfer initiation failed")
            end
        end
    end.
End PayrollProcessor.

(** ** routes/monnify.webhook.ts: the notification receiver *)

Module MonnifyWebhook.
Record EventData := mkEventData {
  reference : option string;
  transactionReference : option string;
  transactionDescription : option string;
  status : option string
}.

Record Body := mkBody {
  eventType : option string;
  eventData : option EventData
}.

(** [req.headers['monnify-signature']] and [req.body]. *)
Record Request := mkRequest {
  signature : option string;
  body : Body
}.

(** [res.status(code).send(text)]. *)
Record Response := mkResponse {
  code : nat;
  text : string
}.

Section Crypto.
(** [crypto.createHmac('sha512', secret).update(data).digest('hex')] and
    [JSON.stringify] are library code: parameters of the model. *)
Variable hmac_sha512_hex : string → string → string.
Variable stringify : Body → string.

Definition verifySignature (secret : string) (req : Request) : bool :=
  if negb (truthy (signature req)) then false
  else bool_decide
         (Some (hmac_sha512_hex secret (stringify (body req)))
          = signature req).
End Crypto.

Definition updatePayrollStats (s : Store) (now : Z) (payrollId : Z)
    : Store :=
  let items := PayrollItemModel.findByPayrollId s payrollId in
  let completed := count_status COMPLETED items in
  let failed := count_status FAILED items in
  let status := PROCESSING in
  let status :=
    if bool_decide (completed = length items) then COMPLETED
    else if bool_decide (failed = length items) then FAILED
    else if bool_decide (0 < completed)%nat then PARTIALLY_COMPLETED
    else status in
  PayrollModel.updateStatus s now payrollId status
    (Some completed) (Some failed).

Section Handler.
(** JavaScript's [Number(string)], with [None] for [NaN].  Identifiers are
    integers, so a conversion whose result is not an integer is outside
    this model; so is an id that does not fit the INTEGER type of the id
    columns, for which the database rejects the query and the handler's
    [catch] answers "OK" ([fits_integer]). *)
Variable Number : string → option Z.

(** The part of the handler after the item has been found and has passed
    the idempotency check. *)
Definition applyEvent (s : Store) (now : Z) (eventType : option string)
    (data : EventData) (payrollId itemId : Z) : Store * Response :=
  let transactionReference := transactionReference data in
  let description :=
    or_else (transactionDescription data) (Some "") in
  let s1 :=
    if bool_decide (eventType = Some "SUCCESSFUL_DISBURSEMENT")
       || bool_decide (status data = Some "SUCCESS")
    then PayrollItemModel.updateStatus s now itemId COMPLETED
           transactionReference None
    else if bool_decide (eventType = Some "FAILED_DISBURSEMENT")
            || bool_decide (eventType = Some "REVERSED_DISBURSEMENT")
            || bool_decide (status data = Some "FAILED")
    then PayrollItemModel.updateStatus s now itemId FAILED
           transactionReference description
    else s in
  (updatePayrollStats s1 now payrollId, mkResponse 200 "OK").

Definition handler (s : Store) (now : Z) (req : Request)
    : Store * Response :=
  let eventType := eventType (body req) in
  match eventData (body req) with
  | None => (s, mkResponse 200 "Ignored")
  | Some data =>
      if negb (truthy (reference data)) then (s, mkResponse 200 "Ignored")
      else
        let paymentReference := default "" (reference data) in
        let parts := split_on "_"%char paymentReference in
        let prefix := parts !! 0%nat in
        let payrollIdStr := parts !! 1%nat in
        let itemIdStr := parts !! 2%nat in
        if negb (bool_decide (prefix = Some "PAYROLL"))
        then (s, mkResponse 200 "Ignored")
        else
          match payrollIdStr ≫= Number, itemIdStr ≫= Number with
          | Some payrollId, Some itemId =>
              match PayrollItemModel.findById s itemId with
              | None => (s, mkResponse 200 "Ignored")
              | Some item =>
                  if bool_decide (PayrollItem.status item = COMPLETED)
                     || bool_decide (PayrollItem.status item = FAILED)
                  then (s, mkResponse 200 "Already processed")
                  else applyEvent s now eventType data payrollId itemId
              end
          | _, _ => (s, mkResponse 200 "Ignored")
          end
  end.
End Handler.
End MonnifyWebhook.

(** ** controllers/payroll.controller.ts: reconciliation *)

Module PayrollController.
(** The fields of a status response that the reconciler reads. *)
Record TxBody := mkTxBody {
  paymentStatus : option string;
  status : option string;
  paymentDescription : option string;
  failureReason : option string
}.

(** The value returned by [getTransactionStatus]: its own fields and its
    [responseBody], when it has one. *)
Record TxStatus := mkTxStatus {
  responseBody : option TxBody;
  top : TxBody
}.

(** [monnifyClient.getTransactionStatus(reference)]; [None] when the call
    throws. *)
Definition Gateway := string → option TxStatus.

(** [res.status(404).json(..)] and the two [res.json(..)] bodies. *)
Inductive Response :=
  | NotFound (error : string)
  | NoItems (message : string) (reconciled : nat)
  | Summary (message : string) (reconciled errors total : nat).

Definition updatePayrollStats (s : Store) (now : Z) (payrollId : Z)
    : Store :=
  let items := PayrollItemModel.findByPayrollId s payrollId in
  let completed := count_status COMPLETED items in
  let failed := count_status FAILED items in
  let total := length items in
  let status :=
    if bool_decide (completed = total) then COMPLETED
    else if bool_decide (failed = total) then FAILED
    else if bool_decide (0 < completed)%nat then PARTIALLY_COMPLETED
    else PROCESSING in
  PayrollModel.updateStatus s now payrollId status
    (Some completed) (Some failed).

(** The loop state: the store and the counters [updated] and [errors]. *)
Record Sweep := mkSweep {
  store : Store;
  updated : nat;
  errors : nat
}.

(** One iteration of the loop of [reconcilePayroll]. *)
Definition reconcileItem (gateway : Gateway) (now : Z) (w : Sweep)
    (item : PayrollItem.t) : Sweep :=
  match gateway (default "" (PayrollItem.transaction_reference item)) with
  | None => mkSweep (store w) (updated w) (S (errors w))
  | Some txStatus =>
      let responseBody :=
        match responseBody txStatus with
        | Some b => b
        | None => top txStatus
        end in
      let paymentStatus :=
        or_else (paymentStatus responseBody) (status responseBody) in
      if bool_decide (paymentStatus = Some "PAID")
         && negb (bool_decide (PayrollItem.status item = COMPLETED))
      then
        mkSweep
          (PayrollItemModel.updateStatus (store w) now (PayrollItem.id item)
             COMPLETED (PayrollItem.transaction_reference item) None)
          (S (updated w)) (errors w)
      else if bool_decide (paymentStatus = Some "FAILED")
              && negb (bool_decide (PayrollItem.status item = FAILED))
      then
        let errorMessage :=
          or_else (paymentDescription responseBody)
            (or_else (failureReason responseBody)
               (Some "Transaction failed")) in
        mkSweep
          (PayrollItemModel.updateStatus (store w) now (PayrollItem.id item)
             FAILED (PayrollItem.transaction_reference item) errorMessage)
          (S (updated w)) (errors w)
      else w
  end.

Definition itemsToReconcile (items : list PayrollItem.t)
    : list PayrollItem.t :=
  filter (λ item, truthy (PayrollItem.transaction_reference item) = true)
         items.

(** [reconcilePayroll] as a method called on its class, where
    [this.updatePayrollStats] is the helper above.  The router calls the
    function without a receiver: [ReconcileHandler.reconcilePayroll] has the
    receiver as an argument and the 500 answer of the [catch]; the item
    writes are the same for both. *)
Definition reconcilePayroll (gateway : Gateway) (now : Z) (s : Store)
    (id : Z) : Store * Response :=
  match PayrollModel.findById s id with
  | None => (s, NotFound "Payroll not found")
  | Some payroll =>
      let items := PayrollItemModel.findByPayrollId s id in
      let itemsToReconcile := itemsToReconcile items in
      if bool_decide (itemsToReconcile = []) then
        (s, NoItems
              "No items to reconcile (no transaction references found)" 0)
      else
        let w :=
          foldl (reconcileItem gateway now) (mkSweep s 0 0)
                itemsToReconcile in
        (updatePayrollStats (store w) now id,
         Summary "Payroll reconciled successfully"
           (updated w) (errors w) (length itemsToReconcile))
  end.
End PayrollController.

(** ** The aggregate status as the specification words it *)

(** Section 4.3 of the specification, on the counts of COMPLETED and FAILED
    items and the number of items. *)
Definition spec_aggregate (completed failed total : nat) : PayrollStatus :=
  if bool_decide (completed = total) then COMPLETED
  else if bool_decide (failed = total) then FAILED
  else if bool_decide ((0 < completed ∧ completed + failed < total)
                       ∨ (0 < completed ∧ 0 < failed))%nat
  then PARTIALLY_COMPLETED
  else PROCESSING.

(** ** A small ledger to run the code on *)

Module Sample.
Definition staff : gmap Z Employee.t :=
  {[ 1 := Employee.mk 1 "Ada" "0123456789" "058";
     2 := Employee.mk 2 "Bola" "0987654321" "044";
     3 := Employee.mk 3 "Chidi" "0011223344" "011" ]}.

Definition payroll (i : Z) (st : PayrollStatus) : Payroll.t :=
  Payroll.mk i "2025-01" (Qc_of_Z 600) 3 st 0 0 10 10 None.

Definition item (i pid emp : Z) (st : PayrollStatus)
    (ref : option string) : PayrollItem.t :=
  PayrollItem.mk i pid emp (Qc_of_Z 200) st ref None None 10 10.

(** Batch 27 with three items in flight, and an unrelated batch 99. *)
Definition ledger : Store :=
  mkStore staff
    {[ 27 := payroll 27 PROCESSING; 99 := payroll 99 PENDING ]}
    [ item 51 27 1 PROCESSING (Some "MNFY51");
      item 52 27 2 PROCESSING (Some "MNFY52");
      item 53 27 3 PROCESSING None ].

(** Batch 27 with item 51 COMPLETED and item 52 FAILED. *)
Definition settled : Store :=
  with_items ledger
    [ item 51 27 1 COMPLETED (Some "MNFY51");
      item 52 27 2 FAILED (Some "MNFY52");
      item 53 27 3 PROCESSING None ].

(** Batch 99 with one PENDING item that has no gateway reference. *)
Definition fresh : Store :=
  with_items ledger [ item 61 99 1 PENDING None ].

(** A SUCCESSFUL_DISBURSEMENT event for the given correlation reference. *)
Definition paid_body (reference : string) : MonnifyWebhook.Body :=
  MonnifyWebhook.mkBody (Some "SUCCESSFUL_DISBURSEMENT")
    (Some (MonnifyWebhook.mkEventData (Some reference) (Some "MNFY51")
             None None)).

(** The same event, sent without a signature header. *)
Definition paid (reference : string) : MonnifyWebhook.Request :=
  MonnifyWebhook.mkRequest None (paid_body reference).

(** A client that has not authenticated yet, and a gateway that grants a
    token and accepts every batch, echoing one reference per transfer. *)
Definition client : MonnifyClient.t :=
  MonnifyClient.mk "7700112233" None 0.

Definition network : MonnifyClient.Network :=
  MonnifyClient.mkNetwork (Some (Some "token"))
    (λ body,
       Ok (Some (MonnifyClient.mkBulkResponse true
                   ((λ e, MonnifyClient.mkTxEntry
                            (Some (MonnifyClient.e_reference e))
                            (Some ("MNFY_" +:+ MonnifyClient.e_reference e)))
                      <$> MonnifyClient.transactionList body)))).

(** The same gateway with the login endpoint down. *)
Definition offline : MonnifyClient.Network :=
  MonnifyClient.mkNetwork None (MonnifyClient.postBatch network).

Definition transfer (amount : Z) (reference : string)
    : MonnifyClient.Transfer :=
  MonnifyClient.mkTransfer (Qc_of_Z amount) "0123456789" "058" "Ada"
    "Payroll payment" reference.

Definition no_fields : PayrollController.TxBody :=
  PayrollController.mkTxBody None None None None.

(** A gateway that reports every transaction as PAID. *)
Definition all_paid : PayrollController.Gateway :=
  λ _, Some (PayrollController.mkTxStatus
               (Some (PayrollController.mkTxBody (Some "PAID") None
                        None None))
               no_fields).

(** A gateway that knows MNFY51 as PAID and fails on every other lookup. *)
Definition only_51_paid : PayrollController.Gateway :=
  λ reference, if bool_decide (reference = "MNFY51")
               then all_paid reference else None.
End Sample.

(** ** Vocabulary for the properties

    The definitions below name fragments of the handlers so that properties
    can speak about them; each is tied to the code by a lemma
    ([handler_correlation], [applyEvent_classify], [reconcileItem_action]). *)

(** The primary key of [payroll_items]. *)
Definition unique_ids (s : Store) : Prop :=
  NoDup (PayrollItem.id <$> payroll_items s).

(** Going from [s] to [s'], no row loses its gateway reference. *)
Definition keeps_references (s s' : Store) : Prop :=
  ∀ k it,
    payroll_items s !! k = Some it →
    is_Some (PayrollItem.transaction_reference it) →
    ∃ it', payroll_items s' !! k = Some it'
           ∧ is_Some (PayrollItem.transaction_reference it').


(** The reference column as the code writes it.  The INSERT of
    [PayrollModel.create] stores a PENDING item without a reference, no
    caller passes PENDING to [PayrollItemModel.updateStatus], and
    [updateStatus] stores a reference only when it is not empty: a PENDING
    item has no reference, and a stored reference is never the empty
    string. *)
Definition reference_invariant (it : PayrollItem.t) : Prop :=
  (PayrollItem.status it = PENDING →
   PayrollItem.transaction_reference it = None)
  ∧ PayrollItem.transaction_reference it ≠ Some "".

Definition references_sound (s : Store) : Prop :=
  Forall reference_invariant (payroll_items s).

Module Notification.
Import MonnifyWebhook.

(** The batch id and item id that the handler reads off the event's
    reference, when it gets as far as looking the item up. *)
Definition correlation (Number : string → option Z) (req : Request)
    : option (Z * Z) :=
  match eventData (body req) with
  | None => None
  | Some data =>
      if negb (truthy (reference data)) then None
      else
        let parts := split_on "_"%char (default "" (reference data)) in
        if negb (bool_decide (parts !! 0%nat = Some "PAYROLL")) then None
        else
          match parts !! 1%nat ≫= Number, parts !! 2%nat ≫= Number with
          | Some payrollId, Some itemId => Some (payrollId, itemId)
          | _, _ => None
          end
  end.

(** The terminal status the handler maps an event to, if any. *)
Definition classify (eventType : option string) (data : EventData)
    : option PayrollStatus :=
  if bool_decide (eventType = Some "SUCCESSFUL_DISBURSEMENT")
     || bool_decide (status data = Some "SUCCESS")
  then Some COMPLETED
  else if bool_decide (eventType = Some "FAILED_DISBURSEMENT")
          || bool_decide (eventType = Some "REVERSED_DISBURSEMENT")
          || bool_decide (status data = Some "FAILED")
  then Some FAILED
  else None.

(** The error message argument that goes with each classification. *)
Definition message (st : PayrollStatus) (data : EventData)
    : option string :=
  if bool_decide (st = FAILED)
  then or_else (transactionDescription data) (Some "")
  else None.
End Notification.

Module Submission.
Import MonnifyClient.

(** A transfer that the specification calls invalid: non-positive amount,
    empty account number or empty bank code. *)
Definition offending (tr : Transfer) : Prop :=
  (amount tr ≤ 0)%Qc
  ∨ recipientAccountNumber tr = ""
  ∨ recipientBankCode tr = "".

(** The four texts that precede the reference in a validation error. *)
Definition labels : list string :=
  [ "Invalid amount for transfer: ";
    "Missing account number for transfer: ";
    "Missing bank code for transfer: ";
    "Missing recipient name for transfer: " ].

Definition is_post (call : NetCall) : bool :=
  match call with PostBatch _ => true | Login => false end.

(** The transfer that the first loop of the worker builds for an item. *)
Definition built (s : Store) (payrollId : Z) (item : PayrollItem.t)
    (tr : Transfer) : Prop :=
  ∃ e, employees s !! PayrollItem.employee_id item = Some e
       ∧ tr = mkTransfer (PayrollItem.amount item)
                (Employee.account_number e) (Employee.bank_code e)
                (Employee.name e) "Payroll payment"
                (payrollReference payrollId (PayrollItem.id item)).

(** A gateway that accepts every batch request and whose answer has, for
    each entry of the request, a first result with that reference and a
    non-empty transaction reference. *)
Definition answers_every_entry (net : Network) : Prop :=
  ∀ body,
    ∃ resp,
      postBatch net body = Ok (Some resp)
      ∧ requestSuccessful resp = true
      ∧ ∀ e, e ∈ transactionList body →
             ∃ m, List.find
                    (λ r, bool_decide (r_reference r = Some (e_reference e)))
                    (r_transactionList resp) = Some m
                  ∧ truthy (r_transactionReference m) = true.
End Submission.

Module Reconciliation.
Import PayrollController.

(** What one iteration of the sweep decides for an item. *)
Inductive Action :=
  | LookupFailed
  | Finalize (st : PayrollStatus) (errorMessage : option string)
  | Leave.

Definition reported (tx : TxStatus) : TxBody :=
  match responseBody tx with
  | Some b => b
  | None => top tx
  end.

Definition action (gateway : Gateway) (item : PayrollItem.t) : Action :=
  match gateway (default "" (PayrollItem.transaction_reference item)) with
  | None => LookupFailed
  | Some tx =>
      let paymentStatus :=
        or_else (paymentStatus (reported tx)) (status (reported tx)) in
      if bool_decide (paymentStatus = Some "PAID")
         && negb (bool_decide (PayrollItem.status item = COMPLETED))
      then Finalize COMPLETED None
      else if bool_decide (paymentStatus = Some "FAILED")
              && negb (bool_decide (PayrollItem.status item = FAILED))
      then Finalize FAILED
             (or_else (paymentDescription (reported tx))
                (or_else (failureReason (reported tx))
                   (Some "Transaction failed")))
      else Leave
  end.

Definition is_finalize (a : Action) : bool :=
  match a with Finalize _ _ => true | _ => false end.

Definition is_failure (a : Action) : bool :=
  match a with LookupFailed => true | _ => false end.

(** The effect of an action on the row of the item it was decided for. *)
Definition apply (now : Z) (a : Action) (row : PayrollItem.t)
    : PayrollItem.t :=
  match a with
  | Finalize st msg =>
      PayrollItemModel.updated now st
        (PayrollItem.transaction_reference row) msg row
  | _ => row
  end.

(** The effect of the iteration for [item] on an arbitrary row, and of the
    iterations for a list of items. *)
Definition touch (gateway : Gateway) (now : Z) (item row : PayrollItem.t)
    : PayrollItem.t :=
  if bool_decide (PayrollItem.id row = PayrollItem.id item)
  then match action gateway item with
       | Finalize st msg =>
           PayrollItemModel.updated now st
             (PayrollItem.transaction_reference item) msg row
       | _ => row
       end
  else row.

Definition sweep_row (gateway : Gateway) (now : Z)
    (items : list PayrollItem.t) (row : PayrollItem.t) : PayrollItem.t :=
  foldl (λ r item, touch gateway now item r) row items.
End Reconciliation.

(** ** Vocabulary for the effect of a loop on the rows

    The loops of the worker and of the controller call
    [PayrollItemModel.updateStatus] with the id of the item at hand; on the
    table, each call rewrites the rows with that id. *)

Module Rows.
(** The effect on [row] of a write [f item] addressed at the id of [item]. *)
Definition on_row (f : PayrollItem.t → PayrollItem.t → PayrollItem.t)
    (item row : PayrollItem.t) : PayrollItem.t :=
  if bool_decide (PayrollItem.id row = PayrollItem.id item)
  then f item row
  else row.

(** The same for the items of a list, in order. *)
Definition row_fold (f : PayrollItem.t → PayrollItem.t → PayrollItem.t)
    (items : list PayrollItem.t) (row : PayrollItem.t) : PayrollItem.t :=
  foldl (λ r item, on_row f item r) row items.

(** The write of the first loop of the worker. *)
Definition marked (now : Z) (item row : PayrollItem.t) : PayrollItem.t :=
  PayrollItemModel.updated now PROCESSING None None row.

(** The write of the second loop of the worker, for the gateway's list of
    results. *)
Definition filled (results : list MonnifyClient.TxEntry) (now : Z)
    (payrollId : Z) (item row : PayrollItem.t) : PayrollItem.t :=
  match
    List.find
      (λ r, bool_decide
              (MonnifyClient.r_reference r
               = Some (payrollReference payrollId (PayrollItem.id item))))
      results
  with
  | Some m =>
      if truthy (MonnifyClient.r_transactionReference m)
      then PayrollItemModel.updated now PROCESSING
             (MonnifyClient.r_transactionReference m) None row
      else row
  | None => row
  end.
End Rows.

(** ** config/monnify.ts: the other gateway calls

    [Data] stands for the JSON body of a gateway response, which these
    methods return as it is. *)

Module MonnifyApi.
Import MonnifyClient.

Section Api.
Variable Data : Type.

(** The gateway endpoints behind [authorizeBulkTransfer], [getBatchDetails]
    and [getTransactionStatus]; [Threw] is the error that the method ends up
    throwing when the request fails. *)
Record Endpoints := mkEndpoints {
  network : Network;
  validateOtp : string → string → result Data;
  batchDetails : string → result Data;
  transactionStatus : string → result Data
}.

Inductive ApiCall :=
  | Auth (call : NetCall)
  | ValidateOtp (reference authorizationCode : string)
  | GetBatch (batchReference : string)
  | GetStatus (transactionReference : string).

(** A request sent through [this.client]: the interceptor authenticates
    first. *)
Definition viaClient (api : Endpoints) (now : Z) (c : t) (call : ApiCall)
    (answer : result Data) : t * list ApiCall * result Data :=
  match ensureAuthenticated (network api) now c with
  | (c1, calls, Ok _) => (c1, (Auth <$> calls) ++ [call], answer)
  | (c1, calls, Threw msg) => (c1, Auth <$> calls, Threw msg)
  end.

Definition authorizeBulkTransfer (api : Endpoints) (now : Z) (c : t)
    (reference authorizationCode : string)
    : t * list ApiCall * result Data :=
  match ensureAuthenticated (network api) now c with
  | (c1, calls, Threw msg) => (c1, Auth <$> calls, Threw msg)
  | (c1, calls, Ok _) =>
      if bool_decide (reference = "") then
        (c1, Auth <$> calls, Threw "Batch reference is required")
      else if bool_decide (authorizationCode = "") then
        (c1, Auth <$> calls, Threw "Authorization code (OTP) is required")
      else
        match viaClient api now c1 (ValidateOtp reference authorizationCode)
                (validateOtp api reference authorizationCode) with
        | (c2, calls2, r) => (c2, (Auth <$> calls) ++ calls2, r)
        end
  end.

Definition getBatchDetails (api : Endpoints) (now : Z) (c : t)
    (batchReference : string) : t * list ApiCall * result Data :=
  match ensureAuthenticated (network api) now c with
  | (c1, calls, Threw msg) => (c1, Auth <$> calls, Threw msg)
  | (c1, calls, Ok _) =>
      if bool_decide (batchReference = "") then
        (c1, Auth <$> calls, Threw "Batch reference is required")
      else
        match viaClient api now c1 (GetBatch batchReference)
                (batchDetails api batchReference) with
        | (c2, calls2, r) => (c2, (Auth <$> calls) ++ calls2, r)
        end
  end.

Definition getTransactionStatus (api : Endpoints) (now : Z) (c : t)
    (transactionReference : string) : t * list ApiCall * result Data :=
  match ensureAuthenticated (network api) now c with
  | (c1, calls, Threw msg) => (c1, Auth <$> calls, Threw msg)
  | (c1, calls, Ok _) =>
      match viaClient api now c1 (GetStatus transactionReference)
              (transactionStatus api transactionReference) with
      | (c2, calls2, r) => (c2, (Auth <$> calls) ++ calls2, r)
      end
  end.

(** The calls other than logins. *)
Definition is_request (call : ApiCall) : bool :=
  match call with Auth _ => false | _ => true end.

Definition requests (calls : list ApiCall) : list ApiCall :=
  filter (λ call, is_request call = true) calls.
End Api.

Arguments mkEndpoints {Data}.
Arguments network {Data}.
Arguments validateOtp {Data}.
Arguments batchDetails {Data}.
Arguments transactionStatus {Data}.
Arguments viaClient {Data}.
Arguments authorizeBulkTransfer {Data}.
Arguments getBatchDetails {Data}.
Arguments getTransactionStatus {Data}.
End MonnifyApi.

(** A gateway for the three requests above: it accepts one code, and
    answers the two lookups by naming what was asked. *)
Module SampleApi.
Definition endpoints : MonnifyApi.Endpoints string :=
  MonnifyApi.mkEndpoints Sample.network
    (λ reference authorizationCode,
       if bool_decide (authorizationCode = "123456")
       then Ok ("authorized " +:+ reference)
       else Threw "Invalid OTP")
    (λ batchReference, Ok ("batch " +:+ batchReference))
    (λ transactionReference, Ok ("status " +:+ transactionReference)).
End SampleApi.

(** ** The receiver of a static method

    [this] in a static method of the controller is the class when the
    method is called on it, and [undefined] when the function is called on
    its own, which is how a router calls a handler it was given as
    [PayrollController.method].  With [this] undefined, evaluating
    [this.updatePayrollStats] throws a [TypeError] before the helper
    runs. *)
Inductive Receiver :=
  | OnClass
  | Undefined.

(** ** controllers/payroll.controller.ts: starting a batch, reading its
    status *)

Module PayrollApi.
(** The string value of a member of the [PayrollStatus] enum. *)
Definition PayrollStatus_value (st : PayrollStatus) : string :=
  match st with
  | PENDING => "pending"
  | PROCESSING => "processing"
  | COMPLETED => "completed"
  | FAILED => "failed"
  | PARTIALLY_COMPLETED => "partially_completed"
  end.

(** The data of a job on the queue. *)
Record Job := mkJob {
  payrollId : Z;
  type : string
}.

(** [processPayrollItems] of the worker module: [payrollQueue.add]. *)
Definition processPayrollItems (queue : list Job) (payrollId : Z)
    : list Job :=
  queue ++ [mkJob payrollId "bulk"].

Inductive ProcessResponse :=
  | ProcessError (code : nat) (error : string)
  | Queued (message : string) (payroll_id : Z) (processing_mode : string).

Definition processPayroll (s : Store) (queue : list Job) (id : Z)
    : list Job * ProcessResponse :=
  match PayrollModel.findById s id with
  | None => (queue, ProcessError 404 "Payroll not found")
  | Some payroll =>
      if bool_decide (Payroll.status payroll = COMPLETED)
         || bool_decide (Payroll.status payroll = PROCESSING)
      then
        (queue,
         ProcessError 400
           ("Payroll already "
            +:+ PayrollStatus_value (Payroll.status payroll)))
      else
        (processPayrollItems queue (Payroll.id payroll),
         Queued "Payroll queued for bulk processing"
           (Payroll.id payroll) "bulk")
  end.

Record StatusSummary := mkStatusSummary {
  total : nat;
  completed : nat;
  failed : nat;
  pending : nat;
  processing : nat
}.

Inductive StatusResponse :=
  | StatusNotFound (error : string)
  | StatusData (payroll : Payroll.t) (items : list PayrollItem.t)
      (summary : StatusSummary).

Definition getPayrollStatus (s : Store) (id : Z) : StatusResponse :=
  match PayrollModel.findById s id with
  | None => StatusNotFound "Payroll not found"
  | Some payroll =>
      let items := PayrollItemModel.findByPayrollId s (Payroll.id payroll) in
      StatusData payroll items
        (mkStatusSummary (length items)
           (count_status COMPLETED items)
           (count_status FAILED items)
           (count_status PENDING items)
           (count_status PROCESSING items))
  end.
End PayrollApi.

(** ** controllers/payroll.controller.ts: authorizing a batch

    [Data] stands for the JSON body that the gateway returns for the
    authorization.  The three fields of the request body are strings and an
    integer, when present. *)

Module BulkAuthorization.
Import PayrollController.

(** [req.body]. *)
Record Body := mkBody {
  reference : option string;
  authorizationCode : option string;
  payrollId : option Z
}.

(** The fields of a batch-details response that the controller reads. *)
Record BatchBody := mkBatchBody {
  transactionList : option (list MonnifyClient.TxEntry);
  transactions : option (list MonnifyClient.TxEntry)
}.

(** The value returned by [getBatchDetails]: its own fields and its
    [responseBody], when it has one. *)
Record BatchDetails := mkBatchDetails {
  responseBody : option BatchBody;
  top : BatchBody
}.

(** [batchUpdateResult]. *)
Record BatchUpdate := mkBatchUpdate {
  updatedReferences : nat;
  totalTransactions : nat
}.

Section Controller.
Variable Data : Type.

(** [monnifyClient] as the controller uses it: [authorizeBulkTransfer],
    [getBatchDetails] ([None] when the call throws) and
    [getTransactionStatus]. *)
Record Client := mkClient {
  authorize : string → string → result Data;
  getBatchDetails : string → option BatchDetails;
  getTransactionStatus : Gateway
}.

(** [res.status(code).json({ error })] and the [res.json(..)] body. *)
Inductive Response :=
  | Failure (code : nat) (error : string)
  | Authorized (message : string) (data : Data)
      (batchUpdate : option BatchUpdate) (reconciliation : option nat).

(** One iteration of the first loop; the state is the store and
    [updatedReferences]. *)
Definition attachReference (transactionList : list MonnifyClient.TxEntry)
    (now : Z) (payrollId : Z) (acc : Store * nat) (item : PayrollItem.t)
    : Store * nat :=
  let ourReference := payrollReference payrollId (PayrollItem.id item) in
  match
    List.find
      (λ tx, bool_decide (MonnifyClient.r_reference tx = Some ourReference))
      transactionList
  with
  | Some matchedTransaction =>
      if truthy (MonnifyClient.r_transactionReference matchedTransaction)
      then
        if negb (truthy (PayrollItem.transaction_reference item))
        then
          (PayrollItemModel.updateStatus acc.1 now (PayrollItem.id item)
             PROCESSING
             (MonnifyClient.r_transactionReference matchedTransaction) None,
           S acc.2)
        else acc
      else acc
  | None => acc
  end.

(** One iteration of the second loop; the state is the store and
    [reconciled]. *)
Definition reconcileAuthorized (gateway : Gateway) (now : Z)
    (acc : Store * nat) (item : PayrollItem.t) : Store * nat :=
  match gateway (default "" (PayrollItem.transaction_reference item)) with
  | None => acc
  | Some txStatus =>
      let responseBody :=
        match PayrollController.responseBody txStatus with
        | Some b => b
        | None => PayrollController.top txStatus
        end in
      let paymentStatus :=
        or_else (paymentStatus responseBody) (status responseBody) in
      if bool_decide (paymentStatus = Some "PAID")
         && negb (bool_decide (PayrollItem.status item = COMPLETED))
      then
        (PayrollItemModel.updateStatus acc.1 now (PayrollItem.id item)
           COMPLETED (PayrollItem.transaction_reference item) None,
         S acc.2)
      else if bool_decide (paymentStatus = Some "FAILED")
              && negb (bool_decide (PayrollItem.status item = FAILED))
      then
        let errorMessage :=
          or_else (paymentDescription responseBody)
            (or_else (failureReason responseBody)
               (Some "Transaction failed")) in
        (PayrollItemModel.updateStatus acc.1 now (PayrollItem.id item)
           FAILED (PayrollItem.transaction_reference item) errorMessage,
         S acc.2)
      else acc
  end.

(** The block guarded by [if (payrollId)], once the batch details have
    been fetched: the new store, [batchUpdateResult] and
    [reconciliationResult].  The [TypeError] of an undefined [this] is
    caught by the block's own [catch], after [batchUpdateResult] has been
    assigned. *)
Definition followUp (this : Receiver) (client : Client) (now : Z)
    (s : Store) (payrollId : Z) (batchDetails : BatchDetails)
    : Store * BatchUpdate * option nat :=
  let batchResponseBody :=
    match responseBody batchDetails with
    | Some b => b
    | None => top batchDetails
    end in
  let transactionList :=
    match transactionList batchResponseBody with
    | Some l => l
    | None =>
        match transactions batchResponseBody with
        | Some l => l
        | None => []
        end
    end in
  let items := PayrollItemModel.findByPayrollId s payrollId in
  let '(s1, updatedReferences) :=
    foldl (attachReference transactionList now payrollId) (s, 0%nat) items in
  let batchUpdateResult :=
    mkBatchUpdate updatedReferences (length transactionList) in
  let itemsToReconcile := itemsToReconcile items in
  let '(s2, reconciled) :=
    foldl (reconcileAuthorized (getTransactionStatus client) now)
          (s1, 0%nat) itemsToReconcile in
  match this with
  | OnClass =>
      (updatePayrollStats s2 now payrollId, batchUpdateResult,
       Some reconciled)
  | Undefined => (s2, batchUpdateResult, None)
  end.

Definition authorizeBulkTransfer (this : Receiver) (client : Client)
    (now : Z) (s : Store) (body : Body) : Store * Response :=
  if negb (truthy (reference body))
  then (s, Failure 400 "Batch reference is required")
  else if negb (truthy (authorizationCode body))
  then (s, Failure 400 "Authorization code (OTP) is required")
  else
    match
      authorize client (default "" (reference body))
        (default "" (authorizationCode body))
    with
    | Threw msg =>
        (s, Failure 500
              (if bool_decide (msg = "")
               then "Failed to authorize bulk transfer"
               else msg))
    | Ok result =>
        let message := "Bulk transfer authorized successfully" in
        match payrollId body with
        | None => (s, Authorized message result None None)
        | Some payrollId =>
            if bool_decide (payrollId = 0)
            then (s, Authorized message result None None)
            else
              match getBatchDetails client (default "" (reference body)) with
              | None => (s, Authorized message result None None)
              | Some batchDetails =>
                  let '(s', batchUpdateResult, reconciliationResult) :=
                    followUp this client now s payrollId batchDetails in
                  (s', Authorized message result (Some batchUpdateResult)
                         reconciliationResult)
              end
        end
    end.
End Controller.

Arguments mkClient {Data}.
Arguments authorize {Data}.
Arguments getBatchDetails {Data}.
Arguments getTransactionStatus {Data}.
Arguments Failure {Data}.
Arguments Authorized {Data}.
Arguments followUp {Data}.
Arguments authorizeBulkTransfer {Data}.

(** The transaction list that [followUp] reads off the batch details. *)
Definition listed (batchDetails : BatchDetails)
    : list MonnifyClient.TxEntry :=
  let b :=
    match responseBody batchDetails with
    | Some b => b
    | None => top batchDetails
    end in
  match transactionList b with
  | Some l => l
  | None => default [] (transactions b)
  end.

(** The gateway reference that the first loop stores for an item, if any:
    that of the first listed transaction carrying the item's correlation
    reference, when the item has none yet. *)
Definition newReference (results : list MonnifyClient.TxEntry)
    (payrollId : Z) (item : PayrollItem.t) : option string :=
  match
    List.find
      (λ tx, bool_decide
               (MonnifyClient.r_reference tx
                = Some (payrollReference payrollId (PayrollItem.id item))))
      results
  with
  | Some m =>
      if truthy (MonnifyClient.r_transactionReference m)
         && negb (truthy (PayrollItem.transaction_reference item))
      then MonnifyClient.r_transactionReference m
      else None
  | None => None
  end.

(** The write of the first loop, made for [item], on a row with its id. *)
Definition attached (results : list MonnifyClient.TxEntry) (now : Z)
    (payrollId : Z) (item row : PayrollItem.t) : PayrollItem.t :=
  match newReference results payrollId item with
  | Some ref => PayrollItemModel.updated now PROCESSING (Some ref) None row
  | None => row
  end.
End BulkAuthorization.

(** ** controllers/payroll.controller.ts: reconcilePayroll and its receiver

    [PayrollController.reconcilePayroll] above is the method called on its
    class.  Here the receiver is an argument; [typeError] is the message of
    the [TypeError] that an undefined receiver raises, which the handler's
    [catch] turns into a 500. *)

Module ReconcileHandler.
Import PayrollController.

(** [res.json(..)] or [res.status(404).json(..)] with one of the bodies of
    [PayrollController.Response], or [res.status(500).json({ error })]. *)
Inductive Answer :=
  | Json (body : Response)
  | ServerError (error : string).

Definition reconcilePayroll (this : Receiver) (typeError : string)
    (gateway : Gateway) (now : Z) (s : Store) (id : Z) : Store * Answer :=
  match PayrollModel.findById s id with
  | None => (s, Json (NotFound "Payroll not found"))
  | Some payroll =>
      let items := PayrollItemModel.findByPayrollId s id in
      let itemsToReconcile := itemsToReconcile items in
      if bool_decide (itemsToReconcile = []) then
        (s, Json (NoItems
                    "No items to reconcile (no transaction references found)"
                    0))
      else
        let w :=
          foldl (reconcileItem gateway now) (mkSweep s 0 0)
                itemsToReconcile in
        match this with
        | OnClass =>
            (updatePayrollStats (store w) now id,
             Json (Summary "Payroll reconciled successfully"
                     (updated w) (errors w) (length itemsToReconcile)))
        | Undefined =>
            (store w,
             ServerError (if bool_decide (typeError = "")
                          then "Failed to reconcile payroll"
                          else typeError))
        end
  end.
End ReconcileHandler.

(** ** What the item writes leave alone *)

Module Ledger.
(** [row'] is [row] with, at most, its status, gateway reference, error
    message, [processed_at] and [updated_at] rewritten; a rewritten status
    is PROCESSING, COMPLETED or FAILED. *)
Definition rewritten (row row' : PayrollItem.t) : Prop :=
  PayrollItem.id row' = PayrollItem.id row
  ∧ PayrollItem.payroll_id row' = PayrollItem.payroll_id row
  ∧ PayrollItem.employee_id row' = PayrollItem.employee_id row
  ∧ PayrollItem.amount row' = PayrollItem.amount row
  ∧ PayrollItem.created_at row' = PayrollItem.created_at row
  ∧ (PayrollItem.status row' = PayrollItem.status row
     ∨ PayrollItem.status row' ∈ [PROCESSING; COMPLETED; FAILED]).

(** [p'] is [p] with, at most, its status, counters, [processed_at] and
    [updated_at] rewritten. *)
Definition recounted (p p' : Payroll.t) : Prop :=
  Payroll.id p' = Payroll.id p
  ∧ Payroll.payroll_period p' = Payroll.payroll_period p
  ∧ Payroll.total_amount p' = Payroll.total_amount p
  ∧ Payroll.total_employees p' = Payroll.total_employees p
  ∧ Payroll.created_at p' = Payroll.created_at p.

(** Going from [s] to [s']: the same employees, the same batches and the
    same items in the same order, each rewritten as above. *)
Definition evolves (s s' : Store) : Prop :=
  employees s' = employees s
  ∧ Forall2 rewritten (payroll_items s) (payroll_items s')
  ∧ ∀ i, option_Forall2 recounted (payrolls s !! i) (payrolls s' !! i).
End Ledger.

(** A gateway for the authorization of a batch: it accepts one code, lists
    the items 51 and 53 of batch 27, and reports every transfer as paid. *)
Module SampleAuthorization.
Definition client : BulkAuthorization.Client string :=
  BulkAuthorization.mkClient
    (λ reference authorizationCode,
       if bool_decide (authorizationCode = "123456")
       then Ok ("authorized " +:+ reference)
       else Threw "Invalid OTP")
    (λ batchReference,
       Some (BulkAuthorization.mkBatchDetails
               (Some (BulkAuthorization.mkBatchBody
                        (Some [ MonnifyClient.mkTxEntry
                                  (Some "PAYROLL_27_51") (Some "MNFY_51");
                                MonnifyClient.mkTxEntry
                                  (Some "PAYROLL_27_53") (Some "MNFY_53") ])
                        None))
               (BulkAuthorization.mkBatchBody None None)))
    Sample.all_paid.

Definition body : BulkAuthorization.Body :=
  BulkAuthorization.mkBody (Some "BATCH_1000") (Some "123456") (Some 27).
End SampleAuthorization.

(** ** Notifications for the items of a batch *)

Module Delivery.
Import MonnifyWebhook.

(** The store after the handler has served the given requests, in order,
    each at its own time. *)
Definition deliver (Number : string → option Z) (s : Store)
    (deliveries : list (Z * Request)) : Store :=
  foldl (λ s d, (handler Number s d.1 d.2).1) s deliveries.

(** [req] is a success or failure event whose reference is the one that
    the worker gives to the transfer of [item] in batch [payrollId]. *)
Definition notifies (payrollId : Z) (item : PayrollItem.t) (req : Request)
    : Prop :=
  ∃ data,
    eventData (body req) = Some data
    ∧ reference data
      = Some (payrollReference payrollId (PayrollItem.id item))
    ∧ is_Some (Notification.classify (eventType (body req)) data).

(** The terminal status that [req] reports, if any. *)
Definition outcome (req : Request) : option PayrollStatus :=
  eventData (body req) ≫= Notification.classify (eventType (body req)).

(** The row of an item once its event, [(event row).2] received at time
    [(event row).1], has been applied. *)
Definition settled (event : PayrollItem.t → Z * Request)
    (row : PayrollItem.t) : PayrollItem.t :=
  match eventData (body (event row).2) with
  | Some data =>
      match Notification.classify (eventType (body (event row).2)) data with
      | Some st =>
          PayrollItemModel.updated (event row).1 st
            (transactionReference data) (Notification.message st data) row
      | None => row
      end
  | None => row
  end.
End Delivery.

(** ** models/employee.ts: generated employee ids

    The [employee_id] column of the [employees] table is the list of its
    values.  The query fails when a number it has to cast does not fit the
    INTEGER type, which is the [None] result of [generateEmployeeId]. *)

Module EmployeeCode.
(** [s ~ '^[0-9]+$'], for a non-empty [s]. *)
Fixpoint all_digits (s : string) : bool :=
  match s with
  | EmptyString => true
  | String c rest => bool_decide (is_Some (digit_value c)) && all_digits rest
  end.

(** [s.substring(n)], and SQL's [SUBSTRING(s FROM n + 1)]. *)
Fixpoint substring_from (n : nat) (s : string) : string :=
  match n, s with
  | O, _ => s
  | S k, EmptyString => EmptyString
  | S k, String _ rest => substring_from k rest
  end.

(** The WHERE clause of the query. *)
Definition selected (employee_id : string) : bool :=
  String.prefix "EMP" employee_id
  && bool_decide (4 ≤ String.length employee_id)%nat
  && negb (bool_decide (substring_from 3 employee_id = ""))
  && all_digits (substring_from 3 employee_id).

(** [CAST(SUBSTRING(employee_id FROM 4) AS INTEGER)]; [None] when the
    number is out of range. *)
Definition as_integer (employee_id : string) : option Z :=
  match decimalNumber (substring_from 3 employee_id) with
  | Some v => if bool_decide (v <= 2147483647) then Some v else None
  | None => None
  end.

(** [ORDER BY .. DESC LIMIT 1]: a row with the greatest number. *)
Fixpoint top (rows : list string) : option string :=
  match rows with
  | [] => None
  | employee_id :: rest =>
      match top rest with
      | Some best =>
          if bool_decide (default 0 (as_integer best)
                          <= default 0 (as_integer employee_id))
          then Some employee_id
          else Some best
      | None => Some employee_id
      end
  end.

Fixpoint repeat_char (n : nat) (c : Ascii.ascii) : string :=
  match n with
  | O => EmptyString
  | S k => String c (repeat_char k c)
  end.

(** [s.padStart(n, c)] for a one-character filler. *)
Definition padStart (n : nat) (c : Ascii.ascii) (s : string) : string :=
  repeat_char (n - String.length s) c +:+ s.

Definition generateEmployeeId (employee_ids : list string) : option string :=
  let rows := filter (λ employee_id, selected employee_id = true)
                     employee_ids in
  if bool_decide (Forall (λ employee_id, is_Some (as_integer employee_id))
                         rows)
  then
    match top rows with
    | None => Some "EMP001"
    | Some lastId =>
        let numberPart := substring_from 3 lastId in
        match decimalNumber numberPart with
        | None => Some "EMP001"
        | Some lastNumber =>
            let nextNumber := lastNumber + 1 in
            Some ("EMP" +:+ padStart 3 "0" (pretty nextNumber))
        end
    end
  else None.
End EmployeeCode.

(** * Properties *)

(** ** Basic facts about the two tables *)

Lemma count_completed_failed (items : list PayrollItem.t) :
  (count_status COMPLETED items + count_status FAILED items
   ≤ length items)%nat.
Proof.
  unfold count_status.
  induction items as [|it items IH]; [done|].
  rewrite !filter_cons. simpl.
  destruct (PayrollItem.status it); repeat case_decide; simpl; try done; lia.
Qed.

(** The inline status computation of the code agrees with the specification
    whenever the two counts fit in the total. *)
Lemma aggregate_rule (completed failed total : nat) :
  (completed + failed ≤ total)%nat →
  (if bool_decide (completed = total) then COMPLETED
   else if bool_decide (failed = total) then FAILED
   else if bool_decide (0 < completed)%nat then PARTIALLY_COMPLETED
   else PROCESSING)
  = spec_aggregate completed failed total.
Proof.
  intros Hle. unfold spec_aggregate.
  repeat case_bool_decide; try done; lia.
Qed.

Lemma payroll_lookup_updateStatus s now i st pc fc j :
  payrolls (PayrollModel.updateStatus s now i st pc fc) !! j
  = if decide (i = j)
    then PayrollModel.updated now st pc fc <$> payrolls s !! j
    else payrolls s !! j.
Proof.
  unfold PayrollModel.updateStatus. simpl. rewrite lookup_alter.
  case_decide; by subst.
Qed.


(** The three copies of [updatePayrollStats] are the same function. *)
Lemma updatePayrollStats_webhook s now pid :
  MonnifyWebhook.updatePayrollStats s now pid
  = PayrollProcessor.updatePayrollStats s now pid.
Proof. done. Qed.

Lemma updatePayrollStats_controller s now pid :
  PayrollController.updatePayrollStats s now pid
  = PayrollProcessor.updatePayrollStats s now pid.
Proof. done. Qed.

Lemma updatePayrollStats_spec s now pid :
  let items := PayrollItemModel.findByPayrollId s pid in
  let completed := count_status COMPLETED items in
  let failed := count_status FAILED items in
  PayrollProcessor.updatePayrollStats s now pid
  = PayrollModel.updateStatus s now pid
      (spec_aggregate completed failed (length items))
      (Some completed) (Some failed).
Proof.
  intros items completed failed.
  unfold PayrollProcessor.updatePayrollStats.
  fold items. fold completed. fold failed. simpl.
  by rewrite aggregate_rule by apply count_completed_failed.
Qed.

(** ** Aggregate recompute *)

(** C3.  At each of the three call sites the recompute writes, for the items
    currently loaded for the batch, the status that Section 4.3 of the
    specification assigns to their counts, and stores the number of COMPLETED
    and of FAILED items as [processed_count] and [failed_count]; the two
    counts never exceed the number of items. *)
Theorem aggregate_recompute_is_spec (s : Store) (now pid : Z)
    (p : Payroll.t) :
  payrolls s !! pid = Some p →
  let items := PayrollItemModel.findByPayrollId s pid in
  let completed := count_status COMPLETED items in
  let failed := count_status FAILED items in
  (completed + failed ≤ length items)%nat ∧
  ∀ recompute,
    recompute ∈ [PayrollProcessor.updatePayrollStats;
                 MonnifyWebhook.updatePayrollStats;
                 PayrollController.updatePayrollStats] →
    ∃ p', payrolls (recompute s now pid) !! pid = Some p'
          ∧ Payroll.status p' = spec_aggregate completed failed (length items)
          ∧ Payroll.processed_count p' = completed
          ∧ Payroll.failed_count p' = failed.
Proof.
  intros Hp items completed failed.
  split; [apply count_completed_failed|].
  intros recompute Hin.
  assert (recompute s now pid
          = PayrollProcessor.updatePayrollStats s now pid) as ->.
  { rewrite !elem_of_cons in Hin.
    destruct Hin as [-> | [-> | [-> | Hin]]]; try done.
    by apply elem_of_nil in Hin. }
  rewrite updatePayrollStats_spec, payroll_lookup_updateStatus.
  rewrite decide_True by done. rewrite Hp. simpl. eauto.
Qed.

Lemma aggregate_recompute_is_spec_witness :
  ∃ p', payrolls (PayrollController.updatePayrollStats
                    (PayrollItemModel.updateStatus Sample.ledger 20 51
                       COMPLETED None None) 30 27) !! 27 = Some p'
        ∧ Payroll.status p' = PARTIALLY_COMPLETED
        ∧ Payroll.processed_count p' = 1%nat
        ∧ Payroll.failed_count p' = 0%nat.
Proof.
  pose proof (aggregate_recompute_is_spec
                (PayrollItemModel.updateStatus Sample.ledger 20 51
                   COMPLETED None None) 30 27
                (Sample.payroll 27 PROCESSING) eq_refl) as [_ H].
  apply (H PayrollController.updatePayrollStats).
  do 2 apply list_elem_of_further. apply list_elem_of_here.
Defined.

(** ** [processed_at] of a batch *)

(** C5, as stated, fails: a redundant recompute of a batch that is already
    COMPLETED overwrites [processed_at].  All three items of batch 27 are
    COMPLETED; the recompute at time 100 stamps the batch with 100, the same
    recompute at time 200 stamps it again with 200. *)
Lemma processed_at_overwritten :
  let s0 :=
    with_items Sample.ledger
      [ Sample.item 51 27 1 COMPLETED (Some "MNFY51");
        Sample.item 52 27 2 COMPLETED (Some "MNFY52");
        Sample.item 53 27 3 COMPLETED (Some "MNFY53") ] in
  let s1 := PayrollProcessor.updatePayrollStats s0 100 27 in
  let s2 := PayrollProcessor.updatePayrollStats s1 200 27 in
  (Payroll.status <$> payrolls s1 !! 27) = Some COMPLETED
  ∧ (Payroll.processed_at <$> payrolls s1 !! 27) = Some (Some 100)
  ∧ (Payroll.status <$> payrolls s2 !! 27) = Some COMPLETED
  ∧ (Payroll.processed_at <$> payrolls s2 !! 27) = Some (Some 200).
Proof. by vm_compute. Qed.

(** C5, amended.  Every status update of a batch whose new status is
    COMPLETED or PARTIALLY_COMPLETED sets [processed_at] to the time of that
    update, whether or not it was set before; an update to any other status
    leaves [processed_at] as it was. *)
Theorem processed_at_follows_status (s : Store) (now i : Z)
    (status : PayrollStatus) (processedCount failedCount : option nat)
    (p : Payroll.t) :
  payrolls s !! i = Some p →
  ∃ p',
    payrolls (PayrollModel.updateStatus s now i status
                processedCount failedCount) !! i = Some p'
    ∧ Payroll.status p' = status
    ∧ Payroll.processed_at p'
      = if bool_decide (status = COMPLETED ∨ status = PARTIALLY_COMPLETED)
        then Some now
        else Payroll.processed_at p.
Proof.
  intros Hp. rewrite payroll_lookup_updateStatus, decide_True by done.
  rewrite Hp. simpl. eexists. split; [done|]. split; [done|].
  simpl. destruct status; simpl; repeat case_bool_decide; naive_solver.
Qed.

Lemma processed_at_follows_status_witness :
  ∃ p',
    payrolls (PayrollModel.updateStatus Sample.ledger 100 27
                PARTIALLY_COMPLETED (Some 1%nat) (Some 1%nat)) !! 27 = Some p'
    ∧ Payroll.status p' = PARTIALLY_COMPLETED
    ∧ Payroll.processed_at p' = Some 100.
Proof.
  apply (processed_at_follows_status Sample.ledger 100 27
           PARTIALLY_COMPLETED (Some 1%nat) (Some 1%nat)
           (Sample.payroll 27 PROCESSING)).
  reflexivity.
Defined.

(** ** The item writer *)

Lemma items_lookup_updateStatus s now i st ref err k :
  payroll_items (PayrollItemModel.updateStatus s now i st ref err) !! k
  = (λ it, if bool_decide (PayrollItem.id it = i)
           then PayrollItemModel.updated now st ref err it
           else it) <$> payroll_items s !! k.
Proof. unfold PayrollItemModel.updateStatus. simpl. apply list_lookup_fmap. Qed.

Lemma employees_item_updateStatus s now i st ref err :
  employees (PayrollItemModel.updateStatus s now i st ref err) = employees s.
Proof. done. Qed.

Lemma payrolls_item_updateStatus s now i st ref err :
  payrolls (PayrollItemModel.updateStatus s now i st ref err) = payrolls s.
Proof. done. Qed.

Lemma truthy_is_Some (v : option string) : truthy v = true → is_Some v.
Proof. destruct v; [eauto | done]. Qed.

(** *** Every operation keeps the gateway references *)

Lemma keeps_references_refl s : keeps_references s s.
Proof. intros k it Hk Href. eauto. Qed.

Lemma keeps_references_trans s1 s2 s3 :
  keeps_references s1 s2 → keeps_references s2 s3 → keeps_references s1 s3.
Proof.
  intros H12 H23 k it Hk Href.
  destruct (H12 k it Hk Href) as (it2 & Hk2 & Href2). eauto.
Qed.

Lemma keeps_references_item_update s now i st ref err :
  keeps_references s (PayrollItemModel.updateStatus s now i st ref err).
Proof.
  intros k it Hk Href. rewrite items_lookup_updateStatus, Hk. simpl.
  eexists. split; [done|].
  case_bool_decide; [|done]. simpl.
  destruct (truthy ref) eqn:Hr; [by apply truthy_is_Some | done].
Qed.

Lemma keeps_references_payroll_update s now i st pc fc :
  keeps_references s (PayrollModel.updateStatus s now i st pc fc).
Proof. intros k it Hk Href. by exists it. Qed.

Lemma keeps_references_foldl {A} (f : Store → A → Store) (l : list A) s :
  (∀ s x, keeps_references s (f s x)) →
  keeps_references s (foldl f s l).
Proof.
  intros Hf. revert s. induction l as [|x l IH]; intros s; simpl.
  - apply keeps_references_refl.
  - eapply keeps_references_trans; [apply Hf | apply IH].
Qed.

Lemma keeps_references_handler Number s now req :
  keeps_references s (MonnifyWebhook.handler Number s now req).1.
Proof.
  unfold MonnifyWebhook.handler.
  repeat (case_match; try apply keeps_references_refl).
  unfold MonnifyWebhook.applyEvent. cbn [fst].
  eapply keeps_references_trans;
    [|apply keeps_references_payroll_update].
  repeat (case_match; try apply keeps_references_refl);
    apply keeps_references_item_update.
Qed.

Lemma keeps_references_reconcile gateway now s pid :
  keeps_references s
    (PayrollController.reconcilePayroll gateway now s pid).1.
Proof.
  unfold PayrollController.reconcilePayroll.
  repeat (case_match; try apply keeps_references_refl).
  cbn [fst].
  eapply keeps_references_trans;
    [|apply keeps_references_payroll_update].
  generalize (PayrollController.itemsToReconcile
                (PayrollItemModel.findByPayrollId s pid)).
  intros l.
  change s with (PayrollController.store (PayrollController.mkSweep s 0 0))
    at 1.
  generalize (PayrollController.mkSweep s 0 0).
  induction l as [|item l IH]; intros w; simpl.
  - apply keeps_references_refl.
  - eapply keeps_references_trans; [|apply IH].
    unfold PayrollController.reconcileItem.
    repeat (case_match; try apply keeps_references_refl);
      apply keeps_references_item_update.
Qed.

Lemma keeps_references_buildTransfers s now pid items acc :
  keeps_references s
    (PayrollProcessor.buildTransfers s now pid items acc).1.
Proof.
  revert s acc. induction items as [|item items IH]; intros s acc; simpl.
  - apply keeps_references_refl.
  - case_match; [|apply keeps_references_refl].
    eapply keeps_references_trans;
      [apply keeps_references_item_update | apply IH].
Qed.

Lemma keeps_references_process net now c s pid :
  keeps_references s
    (PayrollProcessor.store
       (PayrollProcessor.processBulkPayroll net now c s pid)).
Proof.
  unfold PayrollProcessor.processBulkPayroll.
  case_match; [apply keeps_references_refl|].
  pose proof (keeps_references_buildTransfers
                (PayrollModel.updateStatus s now pid PROCESSING None None)
                now pid
                (PayrollProcessor.payable
                   (PayrollItemModel.findByPayrollId s pid)) []) as Hbuild.
  destruct (PayrollProcessor.buildTransfers _ _ _ _ _) as [s2 r].
  simpl in Hbuild.
  assert (keeps_references s s2) as Hs2.
  { eapply keeps_references_trans;
      [apply keeps_references_payroll_update | exact Hbuild]. }
  repeat (case_match; try exact Hs2).
  simpl. eapply keeps_references_trans; [exact Hs2|].
  eapply keeps_references_trans;
    [|apply keeps_references_payroll_update].
  apply keeps_references_foldl. intros s' item.
  unfold PayrollProcessor.backfill.
  repeat (case_match; try apply keeps_references_refl).
  apply keeps_references_item_update.
Qed.

(** C10.  [PayrollItemModel.updateStatus] writes [transaction_reference] and
    [error_message] of the rows it updates only when the corresponding
    argument is a non-empty string; with an omitted or empty argument the
    stored value stays.  Hence a FAILED transition with an empty description
    leaves a null [error_message] null, and a stored gateway reference is
    never cleared: not by the writer, and so not by a webhook notification, a
    reconciliation sweep or a batch-processing invocation, which write items
    through it only. *)
Theorem item_update_writes_only_supplied_fields (s : Store) (now i : Z)
    (status : PayrollStatus) (transactionReference errorMessage : option string)
    (k : nat) (it : PayrollItem.t) :
  payroll_items s !! k = Some it →
  (∃ it',
     payroll_items (PayrollItemModel.updateStatus s now i status
                      transactionReference errorMessage) !! k = Some it'
     ∧ PayrollItem.transaction_reference it'
       = (if bool_decide (PayrollItem.id it = i)
             && truthy transactionReference
          then transactionReference
          else PayrollItem.transaction_reference it)
     ∧ PayrollItem.error_message it'
       = (if bool_decide (PayrollItem.id it = i) && truthy errorMessage
          then errorMessage
          else PayrollItem.error_message it)
     ∧ (is_Some (PayrollItem.transaction_reference it) →
        is_Some (PayrollItem.transaction_reference it'))
     ∧ (status = FAILED → truthy errorMessage = false →
        PayrollItem.error_message it = None →
        PayrollItem.error_message it' = None))
  ∧ (∀ Number req,
       keeps_references s (MonnifyWebhook.handler Number s now req).1)
  ∧ (∀ gateway pid,
       keeps_references s
         (PayrollController.reconcilePayroll gateway now s pid).1)
  ∧ (∀ net c pid,
       keeps_references s
         (PayrollProcessor.store
            (PayrollProcessor.processBulkPayroll net now c s pid))).
Proof.
  intros Hk. split.
  - rewrite items_lookup_updateStatus, Hk. simpl.
    eexists. split; [done|].
    case_bool_decide as Hid; simpl.
    + destruct (truthy transactionReference) eqn:Hr,
               (truthy errorMessage) eqn:He; simpl;
        repeat split; try done; auto using truthy_is_Some.
    + repeat split; done.
  - auto using keeps_references_handler, keeps_references_reconcile,
      keeps_references_process.
Qed.

Lemma item_update_writes_only_supplied_fields_witness :
  ∃ it',
    payroll_items (PayrollItemModel.updateStatus Sample.ledger 100 51 FAILED
                     None (Some "")) !! 0%nat = Some it'
    ∧ PayrollItem.transaction_reference it' = Some "MNFY51"
    ∧ PayrollItem.error_message it' = None
    ∧ (is_Some (Some "MNFY51") →
       is_Some (PayrollItem.transaction_reference it'))
    ∧ (FAILED = FAILED → truthy (Some "") = false →
       @None string = None → PayrollItem.error_message it' = None).
Proof.
  apply (item_update_writes_only_supplied_fields Sample.ledger 100 51 FAILED
           None (Some "") 0
           (Sample.item 51 27 1 PROCESSING (Some "MNFY51")) eq_refl).
Defined.

(** ** The notification receiver *)

Section Receiver.
Import MonnifyWebhook Notification.
Variable Number : string → option Z.

Lemma applyEvent_classify s now et data payrollId itemId :
  applyEvent s now et data payrollId itemId
  = (MonnifyWebhook.updatePayrollStats
       (match classify et data with
        | Some st =>
            PayrollItemModel.updateStatus s now itemId st
              (transactionReference data) (message st data)
        | None => s
        end) now payrollId,
     mkResponse 200 "OK").
Proof.
  unfold applyEvent, classify, message.
  destruct (bool_decide (et = Some "SUCCESSFUL_DISBURSEMENT")
            || bool_decide (status data = Some "SUCCESS")); [done|].
  by destruct (bool_decide (et = Some "FAILED_DISBURSEMENT")
               || bool_decide (et = Some "REVERSED_DISBURSEMENT")
               || bool_decide (status data = Some "FAILED")).
Qed.

Lemma handler_correlation s now req :
  handler Number s now req
  = match correlation Number req, eventData (body req) with
    | Some (payrollId, itemId), Some data =>
        match PayrollItemModel.findById s itemId with
        | None => (s, mkResponse 200 "Ignored")
        | Some item =>
            if terminal (PayrollItem.status item)
            then (s, mkResponse 200 "Already processed")
            else applyEvent s now (eventType (body req)) data
                   payrollId itemId
        end
    | _, _ => (s, mkResponse 200 "Ignored")
    end.
Proof.
  unfold handler, correlation, terminal.
  destruct (eventData (body req)) as [data|]; [|done].
  destruct (negb (truthy (reference data))); [done|].
  destruct (negb (bool_decide (_ = Some "PAYROLL"))); [done|].
  destruct (_ ≫= Number) as [payrollId|]; [|done].
  by destruct (_ ≫= Number) as [itemId|].
Qed.

(** The handler never reads the signature header. *)
Lemma handler_ignores_signature s now sig sig' b :
  handler Number s now (mkRequest sig b)
  = handler Number s now (mkRequest sig' b).
Proof. done. Qed.

(** It always answers 200. *)
Lemma handler_acknowledges s now req :
  code (handler Number s now req).2 = 200%nat.
Proof.
  rewrite handler_correlation.
  destruct (correlation Number req) as [[payrollId itemId]|]; [|done].
  destruct (eventData (body req)) as [data|]; [|done].
  destruct (PayrollItemModel.findById s itemId) as [item|]; [|done].
  destruct (terminal (PayrollItem.status item)); [done|].
  by rewrite applyEvent_classify.
Qed.
End Receiver.

(** Looking an item up after an update of some rows. *)
Lemma filter_fmap_stable {A} (P : A → Prop) `{!∀ x, Decision (P x)}
    (f : A → A) (l : list A) :
  (∀ x, P (f x) ↔ P x) → filter P (f <$> l) = f <$> filter P l.
Proof.
  intros Hf. induction l as [|x l IH]; [done|].
  rewrite fmap_cons, !filter_cons.
  destruct (decide (P (f x))) as [Hfx|Hfx], (decide (P x)) as [Hx|Hx];
    rewrite ?IH; try done; exfalso;
    first [by apply Hx, Hf | by apply Hfx, Hf].
Qed.

Lemma findById_updateStatus s now i st ref err j :
  PayrollItemModel.findById
    (PayrollItemModel.updateStatus s now i st ref err) j
  = (λ it, if bool_decide (PayrollItem.id it = i)
           then PayrollItemModel.updated now st ref err it
           else it) <$> PayrollItemModel.findById s j.
Proof.
  unfold PayrollItemModel.findById, PayrollItemModel.updateStatus. simpl.
  rewrite filter_fmap_stable.
  - by destruct (filter _ (payroll_items s)).
  - intros it. unfold PayrollItemModel.joined. simpl.
    by case_bool_decide.
Qed.

Lemma findByPayrollId_updateStatus s now i st ref err pid :
  PayrollItemModel.findByPayrollId
    (PayrollItemModel.updateStatus s now i st ref err) pid
  = (λ it, if bool_decide (PayrollItem.id it = i)
           then PayrollItemModel.updated now st ref err it
           else it) <$> PayrollItemModel.findByPayrollId s pid.
Proof.
  unfold PayrollItemModel.findByPayrollId, PayrollItemModel.updateStatus.
  simpl. apply filter_fmap_stable.
  intros it. unfold PayrollItemModel.joined. simpl.
  by case_bool_decide.
Qed.

Lemma findById_payroll_updateStatus s now i st pc fc j :
  PayrollItemModel.findById (PayrollModel.updateStatus s now i st pc fc) j
  = PayrollItemModel.findById s j.
Proof. done. Qed.

Lemma findById_Some s i item :
  PayrollItemModel.findById s i = Some item →
  item ∈ payroll_items s ∧ PayrollItem.id item = i.
Proof.
  unfold PayrollItemModel.findById. intros H.
  apply head_Some_elem_of, list_elem_of_filter in H. tauto.
Qed.

Lemma unique_ids_inj s x y :
  unique_ids s → x ∈ payroll_items s → y ∈ payroll_items s →
  PayrollItem.id x = PayrollItem.id y → x = y.
Proof.
  intros Hnd [a Ha]%list_elem_of_lookup [b Hb]%list_elem_of_lookup Hid.
  assert (a = b) as ->.
  { eapply NoDup_lookup; [exact Hnd| |].
    - by rewrite list_lookup_fmap, Ha.
    - rewrite list_lookup_fmap, Hb. simpl. by rewrite Hid. }
  congruence.
Qed.

Lemma findById_updatePayrollStats s now pid j :
  PayrollItemModel.findById (MonnifyWebhook.updatePayrollStats s now pid) j
  = PayrollItemModel.findById s j.
Proof. done. Qed.

Lemma classify_terminal et data st :
  Notification.classify et data = Some st → terminal st = true.
Proof.
  unfold Notification.classify. intros H.
  repeat (destruct (_ || _) in H); by simplify_eq.
Qed.

Section Redelivery.
Import MonnifyWebhook Notification.
Variable Number : string → option Z.

(** C7.  A terminal notification that correlates to an existing item is
    delivered twice.  After the first delivery the item is COMPLETED or
    FAILED (if it was not finalized before, the first delivery performs the
    transition and stamps [processed_at]); the second delivery is answered
    "Already processed" and returns the store as it found it, so the item
    and its [processed_at] are unchanged. *)
Theorem duplicate_notification_is_noop (s : Store) (now1 now2 : Z)
    (req : Request) (data : EventData) (st : PayrollStatus)
    (payrollId itemId : Z) (item0 : PayrollItem.t) :
  eventData (body req) = Some data →
  classify (eventType (body req)) data = Some st →
  correlation Number req = Some (payrollId, itemId) →
  PayrollItemModel.findById s itemId = Some item0 →
  let s1 := (handler Number s now1 req).1 in
  ∃ item1,
    PayrollItemModel.findById s1 itemId = Some item1
    ∧ terminal (PayrollItem.status item1) = true
    ∧ (terminal (PayrollItem.status item0) = false →
       PayrollItem.status item1 = st
       ∧ PayrollItem.processed_at item1 = Some now1)
    ∧ (terminal (PayrollItem.status item0) = true → s1 = s)
    ∧ handler Number s1 now2 req = (s1, mkResponse 200 "Already processed").
Proof.
  intros Hdata Hcl Hcor Hfind s1.
  assert (∃ item1,
    PayrollItemModel.findById s1 itemId = Some item1
    ∧ terminal (PayrollItem.status item1) = true
    ∧ (terminal (PayrollItem.status item0) = false →
       PayrollItem.status item1 = st
       ∧ PayrollItem.processed_at item1 = Some now1)
    ∧ (terminal (PayrollItem.status item0) = true → s1 = s))
    as (item1 & Hfind1 & Hterm1 & Hfirst & Hsame).
  { subst s1. rewrite handler_correlation, Hcor, Hdata, Hfind.
    destruct (terminal (PayrollItem.status item0)) eqn:Hterm0.
    - exists item0. simpl. by rewrite Hfind.
    - rewrite applyEvent_classify, Hcl. cbn [fst].
      rewrite findById_updatePayrollStats, findById_updateStatus, Hfind.
      simpl. apply findById_Some in Hfind as [_ Hid].
      rewrite bool_decide_eq_true_2 by done.
      eexists. split; [done|]. simpl.
      pose proof (classify_terminal _ _ _ Hcl) as Hst.
      split; [done|]. split; [|done]. intros _. split; [done|].
      unfold terminal in Hst. by rewrite Hst. }
  exists item1. do 4 (split; [done|]).
  by rewrite handler_correlation, Hcor, Hdata, Hfind1, Hterm1.
Qed.
End Redelivery.

Lemma duplicate_notification_is_noop_witness :
  let s1 :=
    (MonnifyWebhook.handler decimalNumber Sample.ledger 100
       (Sample.paid "PAYROLL_27_51")).1 in
  ∃ item1,
    PayrollItemModel.findById s1 51 = Some item1
    ∧ terminal (PayrollItem.status item1) = true
    ∧ (terminal PROCESSING = false →
       PayrollItem.status item1 = COMPLETED
       ∧ PayrollItem.processed_at item1 = Some 100)
    ∧ (terminal PROCESSING = true → s1 = Sample.ledger)
    ∧ MonnifyWebhook.handler decimalNumber s1 200
        (Sample.paid "PAYROLL_27_51")
      = (s1, MonnifyWebhook.mkResponse 200 "Already processed").
Proof.
  apply (duplicate_notification_is_noop decimalNumber Sample.ledger 100 200
           (Sample.paid "PAYROLL_27_51")
           (MonnifyWebhook.mkEventData (Some "PAYROLL_27_51") (Some "MNFY51")
              None None)
           COMPLETED 27 51
           (Sample.item 51 27 1 PROCESSING (Some "MNFY51")));
    reflexivity.
Defined.

(** A FAILED (or REVERSED) notification without a description finalizes the
    item and leaves its [error_message] as it was. *)
Lemma failed_event_without_description Number (s : Store) (now : Z)
    (req : MonnifyWebhook.Request) (data : MonnifyWebhook.EventData)
    (payrollId itemId : Z) (item : PayrollItem.t) :
  MonnifyWebhook.eventData (MonnifyWebhook.body req) = Some data →
  Notification.classify (MonnifyWebhook.eventType (MonnifyWebhook.body req))
    data = Some FAILED →
  truthy (MonnifyWebhook.transactionDescription data) = false →
  Notification.correlation Number req = Some (payrollId, itemId) →
  PayrollItemModel.findById s itemId = Some item →
  terminal (PayrollItem.status item) = false →
  ∃ item',
    PayrollItemModel.findById (MonnifyWebhook.handler Number s now req).1
      itemId = Some item'
    ∧ PayrollItem.status item' = FAILED
    ∧ PayrollItem.error_message item' = PayrollItem.error_message item.
Proof.
  intros Hdata Hcl Hdesc Hcor Hfind Hterm.
  rewrite handler_correlation, Hcor, Hdata, Hfind, Hterm.
  rewrite applyEvent_classify, Hcl. cbn [fst].
  rewrite findById_updatePayrollStats, findById_updateStatus, Hfind.
  simpl. apply findById_Some in Hfind as [_ Hid].
  rewrite bool_decide_eq_true_2 by done.
  eexists. split; [done|]. split; [done|]. simpl.
  unfold Notification.message, or_else. simpl. by rewrite Hdesc.
Qed.

(** C2.  The handler does not verify the signature: the event below carries
    no signature header, so [verifySignature] rejects it whatever the secret,
    and the same body sent with any header at all is applied all the same:
    item 51 goes from PROCESSING to COMPLETED and the answer is 200 "OK". *)
Theorem unsigned_notification_is_applied
    (hmac_sha512_hex : string → string → string)
    (stringify : MonnifyWebhook.Body → string)
    (secret : string) (header : option string) :
  let body := Sample.paid_body "PAYROLL_27_51" in
  let run :=
    MonnifyWebhook.handler decimalNumber Sample.ledger 100
      (MonnifyWebhook.mkRequest header body) in
  MonnifyWebhook.verifySignature hmac_sha512_hex stringify secret
    (MonnifyWebhook.mkRequest None body) = false
  ∧ (PayrollItem.status <$> PayrollItemModel.findById Sample.ledger 51)
    = Some PROCESSING
  ∧ (PayrollItem.status <$> PayrollItemModel.findById run.1 51)
    = Some COMPLETED
  ∧ run.2 = MonnifyWebhook.mkResponse 200 "OK".
Proof.
  intros body run. split; [done|]. split; [done|].
  subst run.
  rewrite (handler_ignores_signature decimalNumber _ _ header None).
  by vm_compute.
Qed.

(** ** The batch that a notification recomputes *)

(** C6, as stated, fails.  Item 51 belongs to batch 27; the event names it
    through the reference PAYROLL_99_51.  The handler finalizes item 51 and
    then recomputes batch 99: the row of the owning batch 27 is left as it
    was, although a recompute of batch 27 would have changed it. *)
Lemma recompute_misses_owning_batch :
  let s1 :=
    (MonnifyWebhook.handler decimalNumber Sample.ledger 100
       (Sample.paid "PAYROLL_99_51")).1 in
  (PayrollItem.payroll_id <$> PayrollItemModel.findById Sample.ledger 51)
  = Some 27
  ∧ (PayrollItem.status <$> PayrollItemModel.findById Sample.ledger 51)
    = Some PROCESSING
  ∧ (PayrollItem.status <$> PayrollItemModel.findById s1 51) = Some COMPLETED
  ∧ payrolls s1 !! 27 = payrolls Sample.ledger !! 27
  ∧ (Payroll.status <$> payrolls s1 !! 27) = Some PROCESSING
  ∧ (Payroll.status
       <$> payrolls (MonnifyWebhook.updatePayrollStats s1 100 27) !! 27)
    = Some PARTIALLY_COMPLETED
  ∧ (Payroll.status <$> payrolls Sample.ledger !! 99) = Some PENDING
  ∧ (Payroll.status <$> payrolls s1 !! 99) = Some COMPLETED.
Proof. by vm_compute. Qed.

Section Recompute.
Import MonnifyWebhook Notification.
Variable Number : string → option Z.

(** C6, amended.  When a notification mutates an item, the recompute that
    follows runs on the batch whose id was read from the event's
    correlation reference.  That is the owning batch when the reference
    names the item's own [payroll_id]; when it names another batch, the row
    of the owning batch is not touched. *)
Theorem recompute_targets_referenced_batch (s : Store) (now : Z)
    (req : Request) (data : EventData) (st : PayrollStatus)
    (payrollId itemId : Z) (item : PayrollItem.t) :
  eventData (body req) = Some data →
  classify (eventType (body req)) data = Some st →
  correlation Number req = Some (payrollId, itemId) →
  PayrollItemModel.findById s itemId = Some item →
  terminal (PayrollItem.status item) = false →
  let s1 := (handler Number s now req).1 in
  s1 = MonnifyWebhook.updatePayrollStats
         (PayrollItemModel.updateStatus s now itemId st
            (transactionReference data) (message st data))
         now payrollId
  ∧ (payrollId ≠ PayrollItem.payroll_id item →
     payrolls s1 !! PayrollItem.payroll_id item
     = payrolls s !! PayrollItem.payroll_id item).
Proof.
  intros Hdata Hcl Hcor Hfind Hterm s1.
  assert (s1 = MonnifyWebhook.updatePayrollStats
                 (PayrollItemModel.updateStatus s now itemId st
                    (transactionReference data) (message st data))
                 now payrollId) as ->.
  { subst s1. rewrite handler_correlation, Hcor, Hdata, Hfind, Hterm.
    by rewrite applyEvent_classify, Hcl. }
  split; [done|]. intros Hne.
  rewrite updatePayrollStats_webhook, updatePayrollStats_spec.
  rewrite payroll_lookup_updateStatus, decide_False by done.
  done.
Qed.
End Recompute.

Lemma recompute_targets_referenced_batch_witness :
  let s1 :=
    (MonnifyWebhook.handler decimalNumber Sample.ledger 100
       (Sample.paid "PAYROLL_99_51")).1 in
  s1 = MonnifyWebhook.updatePayrollStats
         (PayrollItemModel.updateStatus Sample.ledger 100 51 COMPLETED
            (Some "MNFY51") None)
         100 99
  ∧ (99 ≠ 27 → payrolls s1 !! 27 = payrolls Sample.ledger !! 27).
Proof.
  apply (recompute_targets_referenced_batch decimalNumber Sample.ledger 100
           (Sample.paid "PAYROLL_99_51")
           (MonnifyWebhook.mkEventData (Some "PAYROLL_99_51") (Some "MNFY51")
              None None)
           COMPLETED 99 51
           (Sample.item 51 27 1 PROCESSING (Some "MNFY51")));
    reflexivity.
Defined.

(** ** The reconciliation sweep *)

Section Sweep.
Import PayrollController Reconciliation.
Variable gateway : Gateway.
Variable now : Z.

Lemma reconcileItem_action w item :
  reconcileItem gateway now w item
  = match action gateway item with
    | LookupFailed => mkSweep (store w) (updated w) (S (errors w))
    | Finalize st msg =>
        mkSweep
          (PayrollItemModel.updateStatus (store w) now (PayrollItem.id item)
             st (PayrollItem.transaction_reference item) msg)
          (S (updated w)) (errors w)
    | Leave => w
    end.
Proof.
  unfold reconcileItem, action, reported.
  destruct (gateway _) as [tx|]; [|done].
  destruct (bool_decide (_ = Some "PAID") && _); [done|].
  by destruct (bool_decide (_ = Some "FAILED") && _).
Qed.

Lemma touch_id item row :
  PayrollItem.id (touch gateway now item row) = PayrollItem.id row.
Proof.
  unfold touch. case_bool_decide; [|done].
  by destruct (action gateway item).
Qed.

(** One iteration maps [touch] over the rows and moves one counter. *)
Lemma reconcileItem_effect w item :
  let w' := reconcileItem gateway now w item in
  employees (store w') = employees (store w)
  ∧ payrolls (store w') = payrolls (store w)
  ∧ payroll_items (store w')
    = touch gateway now item <$> payroll_items (store w)
  ∧ updated w'
    = (updated w + if is_finalize (action gateway item) then 1 else 0)%nat
  ∧ errors w'
    = (errors w + if is_failure (action gateway item) then 1 else 0)%nat.
Proof.
  simpl. rewrite reconcileItem_action. unfold touch.
  destruct (action gateway item) as [|st msg|]; simpl;
    repeat split; try lia; try done.
  - symmetry. etrans; [|apply list_fmap_id].
    apply list_fmap_ext. intros ???. by case_bool_decide.
  - symmetry. etrans; [|apply list_fmap_id].
    apply list_fmap_ext. intros ???. by case_bool_decide.
Qed.

(** The whole loop: every item of the list is examined, whatever the
    outcome of the iterations before it. *)
Lemma sweep_effect items w :
  let w' := foldl (reconcileItem gateway now) w items in
  employees (store w') = employees (store w)
  ∧ payrolls (store w') = payrolls (store w)
  ∧ payroll_items (store w')
    = sweep_row gateway now items <$> payroll_items (store w)
  ∧ updated w'
    = (updated w
       + length (filter (λ i, is_finalize (action gateway i) = true) items))
      %nat
  ∧ errors w'
    = (errors w
       + length (filter (λ i, is_failure (action gateway i) = true) items))
      %nat.
Proof.
  revert w. induction items as [|item items IH]; intros w; simpl.
  { repeat split; try lia.
    symmetry. etrans; [|apply list_fmap_id]. by apply list_fmap_ext. }
  destruct (IH (reconcileItem gateway now w item))
    as (He & Hp & Hi & Hu & Herr).
  destruct (reconcileItem_effect w item) as (He1 & Hp1 & Hi1 & Hu1 & Herr1).
  simpl in *.
  rewrite He, Hp, Hi, Hu, Herr, He1, Hp1, Hi1, Hu1, Herr1.
  rewrite !filter_cons.
  repeat split; try done.
  - rewrite <-list_fmap_compose. by apply list_fmap_ext.
  - destruct (action gateway item); simpl; repeat case_decide; simpl;
      try done; lia.
  - destruct (action gateway item); simpl; repeat case_decide; simpl;
      try done; lia.
Qed.

Lemma sweep_row_id items row :
  PayrollItem.id (sweep_row gateway now items row) = PayrollItem.id row.
Proof.
  revert row. induction items as [|item items IH]; intros row; [done|].
  unfold sweep_row in *. simpl. by rewrite IH, touch_id.
Qed.

Lemma sweep_row_other items row :
  (∀ item, item ∈ items → PayrollItem.id item ≠ PayrollItem.id row) →
  sweep_row gateway now items row = row.
Proof.
  revert row. induction items as [|item items IH]; intros row Hne; [done|].
  unfold sweep_row in *. simpl.
  assert (touch gateway now item row = row) as ->.
  { unfold touch. rewrite bool_decide_eq_false_2; [done|].
    intros Heq. by apply (Hne item); [left|]. }
  apply IH. intros item' Hin. apply Hne. by right.
Qed.

(** With unique ids the row of an item is written by its own iteration
    only. *)
Lemma sweep_row_own items it :
  NoDup items →
  (∀ item, item ∈ items →
           PayrollItem.id item = PayrollItem.id it → item = it) →
  sweep_row gateway now items it
  = if decide (it ∈ items) then apply now (action gateway it) it else it.
Proof.
  induction items as [|item items IH]; intros Hnd Hown.
  { by rewrite decide_False by apply not_elem_of_nil. }
  pose proof (NoDup_cons_1_1 _ _ Hnd) as Hnotin.
  apply NoDup_cons_1_2 in Hnd.
  change (sweep_row gateway now (item :: items) it)
    with (sweep_row gateway now items (touch gateway now item it)).
  destruct (decide (item = it)) as [->|Hne].
  - rewrite decide_True by left.
    assert (touch gateway now it it = apply now (action gateway it) it)
      as ->.
    { unfold touch, apply. by rewrite bool_decide_eq_true_2. }
    apply sweep_row_other. intros item' Hin Hid.
    assert (item' = it) as ->; [|done].
    apply Hown; [by right|].
    rewrite Hid. unfold apply. by destruct (action gateway it).
  - assert (touch gateway now item it = it) as ->.
    { unfold touch. rewrite bool_decide_eq_false_2; [done|].
      intros Heq. apply Hne. symmetry in Heq. apply Hown; [left|done]. }
    rewrite IH; [|done|].
    + destruct (decide (it ∈ items)) as [Hin|Hin].
      * rewrite decide_True; [done | by right].
      * rewrite decide_False; [done|].
        intros [?|?]%elem_of_cons; congruence.
    + intros item' Hin. apply Hown. by right.
Qed.
End Sweep.

Section Reconcile.
Import PayrollController Reconciliation.
Variable gateway : Gateway.
Variable now : Z.

Lemma action_finalize item st msg :
  action gateway item = Finalize st msg →
  (st = COMPLETED ∧ PayrollItem.status item ≠ COMPLETED)
  ∨ (st = FAILED ∧ PayrollItem.status item ≠ FAILED).
Proof.
  unfold action. destruct (gateway _) as [tx|]; [|done].
  destruct (bool_decide (_ = Some "PAID")); simpl.
  - case_bool_decide; simpl; [|intros [= <- <-]; by left].
    destruct (bool_decide (_ = Some "FAILED")); simpl; [|done].
    case_bool_decide; simpl; [done|]. intros [= <- <-]. by right.
  - destruct (bool_decide (_ = Some "FAILED")); simpl; [|done].
    case_bool_decide; simpl; [done|]. intros [= <- <-]. by right.
Qed.

Lemma apply_status a it :
  PayrollItem.status (apply now a it)
  = match a with
    | Finalize st _ => st
    | _ => PayrollItem.status it
    end.
Proof. by destruct a. Qed.

(** A swept item changes status exactly when its iteration finalizes it. *)
Lemma finalize_changes_status it :
  is_finalize (action gateway it) = true
  ↔ PayrollItem.status (apply now (action gateway it) it)
    ≠ PayrollItem.status it.
Proof.
  rewrite apply_status.
  destruct (action gateway it) as [|st msg|] eqn:Ha; simpl.
  - split; [done | congruence].
  - split; [|done]. intros _.
    apply action_finalize in Ha as [[-> Hne]|[-> Hne]]; congruence.
  - split; [done | congruence].
Qed.

Lemma swept_items_of_store s pid item :
  item ∈ itemsToReconcile (PayrollItemModel.findByPayrollId s pid) →
  item ∈ payroll_items s.
Proof.
  unfold itemsToReconcile, PayrollItemModel.findByPayrollId.
  rewrite !list_elem_of_filter. tauto.
Qed.

Lemma swept_items_NoDup s pid :
  unique_ids s →
  NoDup (itemsToReconcile (PayrollItemModel.findByPayrollId s pid)).
Proof.
  intros Hpk. do 2 apply list.NoDup_filter.
  by eapply NoDup_fmap_1.
Qed.

(** The store after [reconcilePayroll], table by table. *)
Lemma reconcile_store s pid :
  let items :=
    itemsToReconcile (PayrollItemModel.findByPayrollId s pid) in
  let s' := (reconcilePayroll gateway now s pid).1 in
  employees s' = employees s
  ∧ payroll_items s'
    = (if bool_decide (is_Some (payrolls s !! pid))
       then sweep_row gateway now items <$> payroll_items s
       else payroll_items s).
Proof.
  simpl. unfold reconcilePayroll, PayrollModel.findById.
  destruct (payrolls s !! pid) as [p|] eqn:Hp; simpl.
  - case_bool_decide as Hnil; simpl.
    + rewrite Hnil. split; [done|].
      symmetry. etrans; [|apply list_fmap_id]. by apply list_fmap_ext.
    + pose proof (sweep_effect gateway now
        (itemsToReconcile (PayrollItemModel.findByPayrollId s pid))
        (mkSweep s 0 0)) as (He & _ & Hi & _). simpl in *.
      by rewrite He, Hi.
  - done.
Qed.

Lemma reconcile_row s pid k it :
  unique_ids s →
  payroll_items s !! k = Some it →
  payroll_items (reconcilePayroll gateway now s pid).1 !! k
  = Some (if decide (is_Some (payrolls s !! pid)
                     ∧ it ∈ itemsToReconcile
                              (PayrollItemModel.findByPayrollId s pid))
          then apply now (action gateway it) it
          else it).
Proof.
  intros Hpk Hk.
  destruct (reconcile_store s pid) as [_ ->].
  case_bool_decide as Hp.
  - rewrite list_lookup_fmap, Hk. simpl. f_equal.
    rewrite sweep_row_own.
    + destruct (decide (it ∈ _)) as [Hin|Hin].
      * by rewrite decide_True.
      * rewrite decide_False; [done | tauto].
    + by apply swept_items_NoDup.
    + intros item Hin Hid.
      apply (unique_ids_inj s); [done| |by eapply list_elem_of_lookup_2|done].
      by eapply swept_items_of_store.
  - rewrite Hk. rewrite decide_False; [done | tauto].
Qed.
End Reconcile.

(** ** Terminal items *)




(** ** The summary of a sweep *)

(** C8, as stated, fails when no item of the batch holds a transaction
    reference: whatever its receiver, the handler returns early with a body
    that has neither an [errors] nor a [total] field, and the aggregate
    recompute does not run (here it would have moved batch 99 from PENDING
    to PROCESSING). *)
Lemma sweep_without_references_returns_early :
  ReconcileHandler.reconcilePayroll OnClass
    "Cannot read properties of undefined" Sample.all_paid 100 Sample.fresh 99
  = (Sample.fresh,
     ReconcileHandler.Json
       (PayrollController.NoItems
          "No items to reconcile (no transaction references found)" 0))
  ∧ ReconcileHandler.reconcilePayroll Undefined
      "Cannot read properties of undefined" Sample.all_paid 100
      Sample.fresh 99
    = (Sample.fresh,
       ReconcileHandler.Json
         (PayrollController.NoItems
            "No items to reconcile (no transaction references found)" 0))
  ∧ (Payroll.status <$> payrolls Sample.fresh !! 99) = Some PENDING
  ∧ (Payroll.status
       <$> payrolls (PayrollController.updatePayrollStats
                       Sample.fresh 100 99) !! 99)
    = Some PROCESSING.
Proof. by vm_compute. Qed.

Section Summary.
Import PayrollController Reconciliation ReconcileHandler.

(** C8, amended.  For a sweep over an existing batch in which at least one
    item holds a transaction reference, whatever the receiver of the
    handler: a failed status lookup does not stop the loop, and every item
    holding a reference is examined and written as its own iteration
    decides (with unique ids, whatever happened to the items before it).
    Whenever the handler answers with a body rather than with a 500, the
    aggregate recompute has run once, on the swept store, and the body is
    the summary with reconciled = number of examined items whose status was
    changed, errors = number of examined items whose lookup failed, total =
    number of examined items.  Whether the summary is returned is left
    open. *)
Theorem reconcile_sweep_summary (this : Receiver) (typeError : string)
    (gateway : Gateway) (now : Z) (s : Store) (pid : Z) (p : Payroll.t) :
  payrolls s !! pid = Some p →
  let items := itemsToReconcile (PayrollItemModel.findByPayrollId s pid) in
  items ≠ [] →
  let run :=
    ReconcileHandler.reconcilePayroll this typeError gateway now s pid in
  (∃ swept,
     employees swept = employees s
     ∧ payrolls swept = payrolls s
     ∧ payroll_items swept = sweep_row gateway now items <$> payroll_items s
     ∧ payroll_items run.1 = payroll_items swept
     ∧ (∀ body,
          run.2 = Json body →
          run.1 = updatePayrollStats swept now pid
          ∧ body
            = Summary "Payroll reconciled successfully"
                (length (filter (λ i, PayrollItem.status
                                        (apply now (action gateway i) i)
                                      ≠ PayrollItem.status i) items))
                (length (filter (λ i, gateway
                                        (default ""
                                           (PayrollItem.transaction_reference
                                              i)) = None) items))
                (length items)))
  ∧ (unique_ids s →
     ∀ k it,
       payroll_items s !! k = Some it →
       payroll_items run.1 !! k
       = Some (if decide (it ∈ items)
               then apply now (action gateway it) it
               else it)).
Proof.
  intros Hp items Hne run.
  pose proof (sweep_effect gateway now items (mkSweep s 0 0))
    as (He & Hpay & Hi & Hu & Herr). simpl in *.
  set (w := foldl (reconcileItem gateway now) (mkSweep s 0 0) items) in *.
  assert (run
          = match this with
            | OnClass =>
                (updatePayrollStats (store w) now pid,
                 Json (Summary "Payroll reconciled successfully"
                         (updated w) (errors w) (length items)))
            | Undefined =>
                (store w,
                 ServerError (if bool_decide (typeError = "")
                              then "Failed to reconcile payroll"
                              else typeError))
            end) as Hrun.
  { subst run. unfold ReconcileHandler.reconcilePayroll, PayrollModel.findById.
    rewrite Hp. fold items. by rewrite bool_decide_eq_false_2. }
  assert (payroll_items run.1 = payroll_items (store w)) as Hitems.
  { rewrite Hrun. by destruct this. }
  split.
  - exists (store w). split; [done|]. split; [done|]. split; [done|].
    split; [done|]. intros body Hbody. rewrite Hrun in Hbody |- *.
    destruct this; [|done]. cbn [fst snd] in *. split; [done|].
    injection Hbody as <-. rewrite Hu, Herr. f_equal.
    + f_equal. apply list_filter_iff. intros it.
      apply finalize_changes_status.
    + f_equal. apply list_filter_iff. intros it.
      unfold action. destruct (gateway _); [|done].
      split; [|done].
      destruct (_ && _); [done|]. by destruct (_ && _).
  - intros Hpk k it Hk.
    rewrite Hitems, Hi, list_lookup_fmap, Hk. simpl. f_equal.
    apply sweep_row_own.
    + by apply swept_items_NoDup.
    + intros item Hin Hid.
      apply (unique_ids_inj s);
        [done| |by eapply list_elem_of_lookup_2|done].
      by eapply swept_items_of_store.
Qed.
End Summary.

Lemma reconcile_sweep_summary_witness :
  let run :=
    ReconcileHandler.reconcilePayroll OnClass
      "Cannot read properties of undefined" Sample.only_51_paid 100
      Sample.ledger 27 in
  run.2
  = ReconcileHandler.Json
      (PayrollController.Summary "Payroll reconciled successfully" 1 1 2)
  ∧ (PayrollItem.status <$> payroll_items run.1 !! 0%nat) = Some COMPLETED
  ∧ (PayrollItem.status <$> payroll_items run.1 !! 1%nat) = Some PROCESSING
  ∧ (Payroll.status <$> payrolls run.1 !! 27) = Some PARTIALLY_COMPLETED.
Proof.
  pose proof (reconcile_sweep_summary OnClass
                "Cannot read properties of undefined" Sample.only_51_paid 100
                Sample.ledger 27 (Sample.payroll 27 PROCESSING) eq_refl) as H.
  simpl in H. destruct H as ((swept & _ & _ & _ & _ & Hsum) & _); [done|].
  destruct (Hsum _ eq_refl) as [_ Hbody].
  split; [by f_equal|]. by vm_compute.
Defined.

(** ** Validation in the gateway client *)

Section Validation.
Import MonnifyClient Submission.

Lemma validateTransfer_label tr msg :
  validateTransfer tr = Some msg →
  ∃ label, label ∈ labels ∧ msg = label +:+ reference tr.
Proof.
  unfold validateTransfer, labels.
  repeat (destruct (bool_decide _ || bool_decide _)
          || destruct (bool_decide _));
    intros [= <-]; eexists; (split; [|done]);
    rewrite !elem_of_cons; tauto.
Qed.

Lemma validateTransfer_offending tr :
  offending tr → is_Some (validateTransfer tr).
Proof.
  unfold offending, validateTransfer. intros Hbad.
  case_bool_decide as Hzero; simpl; [by eexists|].
  case_bool_decide as Hle; [by eexists|].
  case_bool_decide as Hacc; [by eexists|].
  case_bool_decide as Hbank; [by eexists|].
  by destruct Hbad as [?|[?|?]].
Qed.

(** The validation loop reports the first transfer that fails a check. *)
Lemma validateTransfers_first transfers bad :
  bad ∈ transfers → is_Some (validateTransfer bad) →
  ∃ pre tr post msg,
    transfers = pre ++ tr :: post
    ∧ Forall (λ x, validateTransfer x = None) pre
    ∧ validateTransfer tr = Some msg
    ∧ validateTransfers transfers = Some msg.
Proof.
  induction transfers as [|x transfers IH]; intros Hin Hbad.
  { by apply elem_of_nil in Hin. }
  simpl. destruct (validateTransfer x) as [msg|] eqn:Hx.
  - exists [], x, transfers, msg. by repeat split.
  - apply elem_of_cons in Hin as [->|Hin].
    { rewrite Hx in Hbad. by destruct Hbad. }
    destruct (IH Hin Hbad) as (pre & tr & post & msg & -> & Hpre & Htr & Hv).
    exists (x :: pre), tr, post, msg. repeat split; try done.
    by constructor.
Qed.

Lemma ensureAuthenticated_calls net now c :
  let '(c1, calls, r) := ensureAuthenticated net now c in
  contractCode c1 = contractCode c
  ∧ (calls = [] ∨ calls = [Login])
  ∧ (truthy (accessToken c) = true → now < tokenExpiry c →
     calls = [] ∧ r = Ok () ∧ c1 = c)
  ∧ (r = Ok () ∨ r = Threw "Failed to authenticate with Monnify").
Proof.
  unfold ensureAuthenticated, authenticate.
  destruct (truthy (accessToken c)) eqn:Htok; simpl.
  - case_bool_decide as Hexp.
    + destruct (login net); repeat split; auto; intros; try lia.
    + repeat split; auto.
  - destruct (login net); repeat split; auto; intros; done.
Qed.
End Validation.

(** C9, as stated, fails: validation comes after [ensureAuthenticated].  A
    client without a token, given a transfer of amount 0, first calls the
    login endpoint and only then raises the validation error; when the login
    fails, the error raised does not mention the transfer at all. *)
Lemma validation_comes_after_login :
  MonnifyClient.initiateBulkTransfer Sample.network 1000 Sample.client
    [Sample.transfer 0 "PAYROLL_27_51"]
  = (MonnifyClient.mk "7700112233" (Some "token") 82801000,
     [MonnifyClient.Login],
     Threw "Invalid amount for transfer: PAYROLL_27_51")
  ∧ MonnifyClient.initiateBulkTransfer Sample.offline 1000 Sample.client
      [Sample.transfer 0 "PAYROLL_27_51"]
    = (Sample.client, [MonnifyClient.Login],
       Threw "Failed to authenticate with Monnify").
Proof. by vm_compute. Qed.

Section BulkValidation.
Import MonnifyClient Submission.

(** C9, amended.  When some transfer has a non-positive amount, an empty
    account number or an empty bank code, [initiateBulkTransfer] throws
    without sending the batch request: the only network call it can have
    made is the token login of [ensureAuthenticated], and it makes none
    when the client holds an unexpired token.  When authentication
    succeeds and the contract code is configured, the error is the
    validation error of the first transfer that fails a check, and its
    message ends with that transfer's reference. *)
Theorem invalid_transfer_blocks_batch_request (net : Network) (now : Z)
    (c : t) (transfers : list Transfer) (bad : Transfer) :
  bad ∈ transfers →
  offending bad →
  let run := initiateBulkTransfer net now c transfers in
  (run.1.2 = [] ∨ run.1.2 = [Login])
  ∧ (∃ msg, run.2 = Threw msg)
  ∧ (truthy (accessToken c) = true → now < tokenExpiry c → run.1.2 = [])
  ∧ ((ensureAuthenticated net now c).2 = Ok () →
     contractCode c ≠ "" →
     ∃ pre tr post label,
       transfers = pre ++ tr :: post
       ∧ Forall (λ x, validateTransfer x = None) pre
       ∧ label ∈ labels
       ∧ validateTransfer tr = Some (label +:+ reference tr)
       ∧ run.2 = Threw (label +:+ reference tr)).
Proof.
  intros Hin Hbad run. subst run. unfold initiateBulkTransfer.
  pose proof (ensureAuthenticated_calls net now c) as Hauth.
  destruct (ensureAuthenticated net now c) as [[c1 calls] r].
  destruct Hauth as (Hcode & Hcalls & Hvalid & Hr).
  destruct (validateTransfers_first transfers bad Hin
              (validateTransfer_offending bad Hbad))
    as (pre & tr & post & msg & Hsplit & Hpre & Htr & Hmsg).
  destruct (validateTransfer_label tr msg Htr) as (label & Hlabel & ->).
  destruct r as [[]|failure]; simpl.
  - rewrite bool_decide_eq_false_2
      by (intros ->; by apply elem_of_nil in Hin).
    rewrite Hcode, Hmsg.
    case_bool_decide as Hcc; simpl.
    + split; [done|]. split; [by eexists|].
      split; [intros; by apply Hvalid | done].
    + split; [done|]. split; [by eexists|].
      split; [intros; by apply Hvalid|].
      intros _ _. by exists pre, tr, post, label.
  - split; [done|]. split; [by eexists|].
    split; [intros; by apply Hvalid | done].
Qed.
End BulkValidation.

Lemma invalid_transfer_blocks_batch_request_witness :
  let run :=
    MonnifyClient.initiateBulkTransfer Sample.network 1000
      (MonnifyClient.mk "7700112233" (Some "token") 5000)
      [Sample.transfer 200 "PAYROLL_27_51";
       Sample.transfer 0 "PAYROLL_27_52"] in
  run.1.2 = [] ∧ run.2 = Threw "Invalid amount for transfer: PAYROLL_27_52".
Proof.
  pose proof (invalid_transfer_blocks_batch_request Sample.network 1000
                (MonnifyClient.mk "7700112233" (Some "token") 5000)
                [Sample.transfer 200 "PAYROLL_27_51";
                 Sample.transfer 0 "PAYROLL_27_52"]
                (Sample.transfer 0 "PAYROLL_27_52")) as H.
  destruct H as (_ & _ & Hcalls & _).
  - apply list_elem_of_further, list_elem_of_here.
  - left. by vm_compute.
  - split; [apply Hcalls; [reflexivity | reflexivity] | reflexivity].
Defined.

(** ** The queue worker *)

Section Worker.
Import MonnifyClient PayrollProcessor Submission.

(** The items returned by [findByPayrollId] have an employee row, so the
    first loop never throws on them. *)
Lemma buildTransfers_joined s now payrollId items acc :
  Forall (PayrollItemModel.joined s) items →
  ∃ s' new,
    buildTransfers s now payrollId items acc = (s', Ok (acc ++ new))
    ∧ employees s' = employees s
    ∧ Forall2 (built s payrollId) items new.
Proof.
  revert s acc. induction items as [|item items IH]; intros s acc Hj.
  { exists s, []. simpl. by rewrite app_nil_r. }
  apply list.Forall_cons in Hj as [[e He] Hj]. simpl.
  unfold EmployeeModel.findById. rewrite He.
  set (s1 := PayrollItemModel.updateStatus s now (PayrollItem.id item)
               PROCESSING None None).
  destruct (IH s1 (acc ++ [mkTransfer (PayrollItem.amount item)
                             (Employee.account_number e)
                             (Employee.bank_code e) (Employee.name e)
                             "Payroll payment"
                             (payrollReference payrollId
                                (PayrollItem.id item))]) Hj)
    as (s' & new & Hb & Hemp & Hnew).
  exists s', (mkTransfer (PayrollItem.amount item)
                (Employee.account_number e) (Employee.bank_code e)
                (Employee.name e) "Payroll payment"
                (payrollReference payrollId (PayrollItem.id item)) :: new).
  rewrite Hb, <-app_assoc. split; [done|]. split; [done|].
  constructor; [by exists e | done].
Qed.

Lemma built_references s payrollId items new :
  Forall2 (built s payrollId) items new →
  reference <$> new
  = (λ i, payrollReference payrollId (PayrollItem.id i)) <$> items.
Proof.
  induction 1 as [|item tr items new (e & _ & ->) _ IH]; [done|].
  rewrite !fmap_cons, IH. done.
Qed.

Lemma ensureAuthenticated_again net now c c1 calls :
  ensureAuthenticated net now c = (c1, calls, Ok ()) →
  ∃ c2 calls2, ensureAuthenticated net now c1 = (c2, calls2, Ok ()).
Proof.
  unfold ensureAuthenticated, authenticate.
  destruct (negb (truthy (accessToken c)) || bool_decide (tokenExpiry c <= now))
    eqn:Hc.
  - destruct (login net) as [tok|] eqn:Hlogin; [|done].
    intros [= <- <-]. simpl.
    destruct (negb (truthy tok) || _); eauto.
  - intros [= <- <-]. rewrite Hc. eauto.
Qed.

Lemma built_valid s payrollId items new :
  Forall2 (built s payrollId) items new →
  (∀ i e, i ∈ items →
          employees s !! PayrollItem.employee_id i = Some e →
          (0 < PayrollItem.amount i)%Qc
          ∧ Employee.account_number e ≠ ""
          ∧ Employee.bank_code e ≠ ""
          ∧ Employee.name e ≠ "") →
  validateTransfers new = None.
Proof.
  induction 1 as [|i tr items new (e & He & ->) _ IH]; intros Hvalid;
    [done|].
  simpl.
  destruct (Hvalid i e) as (Hamt & Hacc & Hbank & Hname); [left|done|].
  unfold validateTransfer. simpl.
  rewrite (bool_decide_eq_false_2 (PayrollItem.amount i = 0%Qc)).
  2:{ intros Hz. by apply Qclt_not_eq in Hamt. }
  rewrite (bool_decide_eq_false_2 (PayrollItem.amount i <= 0)%Qc)
    by (by apply Qclt_not_le).
  rewrite !bool_decide_eq_false_2 by done. simpl.
  apply IH. intros i' e' Hin. apply Hvalid. by right.
Qed.

(** The network calls of [initiateBulkTransfer]: at most one batch request,
    sent only for a list that passed validation, and carrying one entry per
    transfer, in order. *)
Lemma initiateBulkTransfer_calls net now c transfers :
  let run := initiateBulkTransfer net now c transfers in
  (length (filter (λ call, is_post call = true) run.1.2) ≤ 1)%nat
  ∧ (∀ body,
       PostBatch body ∈ run.1.2 →
       validateTransfers transfers = None
       ∧ e_reference <$> transactionList body = reference <$> transfers)
  ∧ ((ensureAuthenticated net now c).2 = Ok () →
     transfers ≠ [] → contractCode c ≠ "" →
     validateTransfers transfers = None →
     ∃ body, PostBatch body ∈ run.1.2).
Proof.
  simpl. unfold initiateBulkTransfer.
  pose proof (ensureAuthenticated_calls net now c) as Hauth.
  destruct (ensureAuthenticated net now c) as [[c1 calls] r] eqn:Hens.
  destruct Hauth as (Hcode & Hcalls & _ & _).
  assert (∀ body, PostBatch body ∉ calls) as Hnopost.
  { intros body Hin. destruct Hcalls as [->| ->].
    - by apply elem_of_nil in Hin.
    - apply list_elem_of_singleton in Hin. done. }
  assert (filter (λ call, is_post call = true) calls = []) as Hfilter.
  { by destruct Hcalls as [->| ->]. }
  destruct r as [[]|failure]; simpl.
  2:{ rewrite Hfilter. split; [simpl; lia|].
      split; [intros body Hin; by apply Hnopost in Hin | done]. }
  case_bool_decide as Hnil; simpl.
  { rewrite Hfilter. split; [simpl; lia|].
    split; [intros body Hin; by apply Hnopost in Hin | done]. }
  rewrite Hcode.
  case_bool_decide as Hcc; simpl.
  { rewrite Hfilter. split; [simpl; lia|].
    split; [intros body Hin; by apply Hnopost in Hin | done]. }
  destruct (validateTransfers transfers) as [msg|] eqn:Hv; simpl.
  { rewrite Hfilter. split; [simpl; lia|].
    split; [intros body Hin; by apply Hnopost in Hin | done]. }
  unfold clientPost.
  destruct (ensureAuthenticated_again net now c c1 calls Hens)
    as (c2 & calls2 & Hens2).
  pose proof (ensureAuthenticated_calls net now c1) as Hauth2.
  rewrite Hens2 in Hauth2. rewrite Hens2. simpl.
  destruct Hauth2 as (_ & Hcalls2 & _ & _).
  split; [|split].
  - rewrite !list.filter_app, Hfilter.
    destruct Hcalls2 as [->| ->]; simpl; lia.
  - intros body Hin. split; [done|].
    rewrite !elem_of_app in Hin.
    destruct Hin as [Hin|[Hin|Hin]].
    + by apply Hnopost in Hin.
    + destruct Hcalls2 as [->| ->].
      * by apply elem_of_nil in Hin.
      * by apply list_elem_of_singleton in Hin.
    + apply list_elem_of_singleton in Hin. injection Hin as ->.
      unfold requestBody. simpl.
      rewrite <-list_fmap_compose. by apply list_fmap_ext.
  - intros _ _ _ _. eexists.
    rewrite !elem_of_app. right. right. apply list_elem_of_here.
Qed.
End Worker.

Section Eligibility.
Import MonnifyClient PayrollProcessor Submission.

Lemma eligible_spec i :
  eligible i = true
  ↔ PayrollItem.status i = PENDING
    ∨ (PayrollItem.status i = PROCESSING
       ∧ (PayrollItem.transaction_reference i = None
          ∨ PayrollItem.transaction_reference i = Some "")).
Proof.
  unfold eligible, truthy.
  destruct (PayrollItem.status i), (PayrollItem.transaction_reference i)
    as [ref|]; simpl; try case_bool_decide; simpl;
    (split;
     [ intros Hel;
       first [ discriminate
             | by left
             | right; split; [done|]; first [by left | right; congruence] ]
     | intros [Hel|[Hel [Hr|Hr]]]; simplify_eq; done ]).
Qed.

(** On an item whose reference column is as the code writes it, the
    eligibility test is the one of the specification, and an item that holds
    a reference is never eligible. *)
Lemma eligible_under_invariants (i : PayrollItem.t) :
  reference_invariant i →
  (eligible i = true
   ↔ PayrollItem.status i = PENDING
     ∨ (PayrollItem.status i = PROCESSING
        ∧ PayrollItem.transaction_reference i = None))
  ∧ (PayrollItem.transaction_reference i ≠ None → eligible i = false).
Proof.
  intros [Hpending Hempty]. split.
  - rewrite eligible_spec. tauto.
  - intros Href. apply not_true_is_false. rewrite eligible_spec.
    intros [Hp|[_ [Hn|He]]]; [|done|done]. by apply Href, Hpending.
Qed.

Lemma loaded_item_invariant s pid i :
  references_sound s →
  i ∈ PayrollItemModel.findByPayrollId s pid →
  reference_invariant i.
Proof.
  intros Hsound Hin. unfold references_sound in Hsound.
  rewrite list.Forall_forall in Hsound. apply Hsound.
  unfold PayrollItemModel.findByPayrollId in Hin.
  apply list_elem_of_filter in Hin. tauto.
Qed.

(** C4.  On a store whose reference column is as the code writes it (a
    PENDING item has no reference and a stored reference is never the empty
    string; [references_sound_kept] shows that the operations keep it so), a
    batch-processing invocation treats as eligible exactly the loaded items
    whose status is PENDING, or PROCESSING with a null gateway reference; an
    item that holds a reference is never eligible, even if its status is
    still PROCESSING.  The invocation sends at most one batch request; a
    request it sends carries exactly the references of the eligible items,
    in order; and it does send one when some item is eligible,
    authentication succeeds, the contract code is configured and every
    eligible item has a positive amount and complete bank details. *)
Theorem submission_is_eligible_items (net : Network) (now : Z) (c : t)
    (s : Store) (pid : Z) :
  references_sound s →
  let items := PayrollItemModel.findByPayrollId s pid in
  let run := processBulkPayroll net now c s pid in
  (∀ i, i ∈ payable items
        ↔ i ∈ items
          ∧ (PayrollItem.status i = PENDING
             ∨ (PayrollItem.status i = PROCESSING
                ∧ PayrollItem.transaction_reference i = None)))
  ∧ (∀ i, i ∈ items → PayrollItem.transaction_reference i ≠ None →
          i ∉ payable items)
  ∧ (length (filter (λ call, is_post call = true) (calls run)) ≤ 1)%nat
  ∧ (∀ body,
       PostBatch body ∈ calls run →
       e_reference <$> transactionList body
       = (λ i, payrollReference pid (PayrollItem.id i)) <$> payable items)
  ∧ (payable items ≠ [] →
     (ensureAuthenticated net now c).2 = Ok () →
     contractCode c ≠ "" →
     (∀ i e, i ∈ payable items →
             employees s !! PayrollItem.employee_id i = Some e →
             (0 < PayrollItem.amount i)%Qc
             ∧ Employee.account_number e ≠ ""
             ∧ Employee.bank_code e ≠ ""
             ∧ Employee.name e ≠ "") →
     ∃ body, PostBatch body ∈ calls run).
Proof.
  intros Hsound items run.
  assert (∀ i, i ∈ payable items
               ↔ i ∈ items
                 ∧ (PayrollItem.status i = PENDING
                    ∨ (PayrollItem.status i = PROCESSING
                       ∧ PayrollItem.transaction_reference i = None)))
    as Hpay.
  { intros i. unfold payable. rewrite list_elem_of_filter. split.
    - intros [Hel Hin]. split; [done|].
      by apply (eligible_under_invariants i
                  (loaded_item_invariant s pid i Hsound Hin)).
    - intros [Hin Hst]. split; [|done].
      by apply (eligible_under_invariants i
                  (loaded_item_invariant s pid i Hsound Hin)). }
  split; [done|]. split.
  { intros i Hin Href [Hel _]%list_elem_of_filter.
    destruct (eligible_under_invariants i
                (loaded_item_invariant s pid i Hsound Hin)) as [_ Hnever].
    rewrite (Hnever Href) in Hel. done. }
  subst run. unfold processBulkPayroll. fold items.
  case_bool_decide as Hnil.
  { simpl. split; [lia|]. split; [|done].
    intros body Hin. by apply elem_of_nil in Hin. }
  set (s1 := PayrollModel.updateStatus s now pid PROCESSING None None).
  assert (Forall (PayrollItemModel.joined s1) (payable items)) as Hjoined.
  { apply list.Forall_forall. intros i [_ Hin]%list_elem_of_filter.
    apply list_elem_of_filter in Hin as [[_ Hj] _]. exact Hj. }
  destruct (buildTransfers_joined s1 now pid (payable items) [] Hjoined)
    as (s2 & new & Hb & _ & Hnew).
  rewrite Hb. simpl.
  pose proof (initiateBulkTransfer_calls net now c new)
    as (Hone & Hpost & Hsend). simpl in Hone, Hpost, Hsend.
  assert (calls
            (match initiateBulkTransfer net now c new with
             | (c1, calls, Threw msg) => mkRun s2 c1 calls (Threw msg)
             | (c1, calls, Ok response) =>
                 match response with
                 | Some resp =>
                     if requestSuccessful resp
                     then mkRun
                            (updatePayrollStats
                               (foldl (backfill (r_transactionList resp)
                                         now pid) s2 (payable items))
                               now pid) c1 calls (Ok ())
                     else mkRun s2 c1 calls
                            (Threw "Bulk transfer initiation failed")
                 | None =>
                     mkRun s2 c1 calls
                       (Threw "Bulk transfer initiation failed")
                 end
             end)
          = (initiateBulkTransfer net now c new).1.2) as ->.
  { destruct (initiateBulkTransfer net now c new) as [[c1 cs] [[resp|]|msg]];
      try done. simpl. by destruct (requestSuccessful resp). }
  split; [done|]. split.
  - intros body [_ ->]%Hpost. by apply (built_references s1 pid).
  - intros _ Hauth Hcc Hvalid. apply Hsend; try done.
    + intros ->. apply Forall2_nil_inv_r in Hnew. done.
    + apply (built_valid s1 pid (payable items)); [done|].
      intros i e Hin He. by apply Hvalid.
Qed.
End Eligibility.

Lemma submission_is_eligible_items_witness :
  let items := PayrollItemModel.findByPayrollId Sample.ledger 27 in
  Sample.item 53 27 3 PROCESSING None ∈ PayrollProcessor.payable items
  ∧ Sample.item 51 27 1 PROCESSING (Some "MNFY51")
    ∉ PayrollProcessor.payable items.
Proof.
  assert (references_sound Sample.ledger) as Hsound.
  { repeat constructor; done. }
  assert (PayrollItemModel.findByPayrollId Sample.ledger 27
          = [ Sample.item 51 27 1 PROCESSING (Some "MNFY51");
              Sample.item 52 27 2 PROCESSING (Some "MNFY52");
              Sample.item 53 27 3 PROCESSING None ]) as Hitems
    by (by vm_compute).
  destruct (submission_is_eligible_items Sample.network 1000 Sample.client
              Sample.ledger 27 Hsound) as (Hpay & Hnever & _).
  simpl. rewrite Hitems in Hpay, Hnever |- *. split.
  - apply Hpay. split; [|by right].
    do 2 apply list_elem_of_further. apply list_elem_of_here.
  - apply Hnever; [apply list_elem_of_here | done].
Defined.

(** On the sample ledger only item 53 is eligible, and it is the one
    submitted. *)
Lemma sample_submission :
  match
    PayrollProcessor.calls
      (PayrollProcessor.processBulkPayroll Sample.network 1000
         Sample.client Sample.ledger 27)
  with
  | [MonnifyClient.Login; MonnifyClient.PostBatch body] =>
      MonnifyClient.e_reference <$> MonnifyClient.transactionList body
      = ["PAYROLL_27_53"]
  | _ => False
  end.
Proof. by vm_compute. Qed.


(** * Further properties of the code *)

(** ** Notifications that are not applied *)

Section Ignored.
Import MonnifyWebhook Notification.
Variable Number : string → option Z.


(** X2.  The handler answers every request with status 200 and one of three
    bodies, and it never changes the [employees] table. *)
Theorem handler_answers_200 (s : Store) (now : Z) (req : Request) :
  let run := handler Number s now req in
  code run.2 = 200%nat
  ∧ text run.2 ∈ ["Ignored"; "Already processed"; "OK"]
  ∧ employees run.1 = employees s.
Proof.
  simpl. rewrite handler_correlation.
  destruct (correlation Number req) as [[payrollId itemId]|];
    [|by repeat split; [left]].
  destruct (eventData (body req)) as [data|]; [|by repeat split; [left]].
  destruct (PayrollItemModel.findById s itemId) as [item|];
    [|by repeat split; [left]].
  destruct (terminal (PayrollItem.status item)).
  { repeat split; [right; left]. }
  rewrite applyEvent_classify. simpl.
  split; [done|]. split; [do 2 right; left|].
  by destruct (classify _ data).
Qed.

(** X3.  An event that is neither a success nor a failure, for an item that
    is not finalized yet, changes no item, but the batch named by the
    reference is recomputed all the same. *)
Theorem unclassified_notification_recomputes_only (s : Store) (now : Z)
    (req : Request) (data : EventData) (payrollId itemId : Z)
    (item : PayrollItem.t) :
  eventData (body req) = Some data →
  classify (eventType (body req)) data = None →
  correlation Number req = Some (payrollId, itemId) →
  PayrollItemModel.findById s itemId = Some item →
  terminal (PayrollItem.status item) = false →
  handler Number s now req
  = (MonnifyWebhook.updatePayrollStats s now payrollId, mkResponse 200 "OK")
  ∧ payroll_items (handler Number s now req).1 = payroll_items s.
Proof.
  intros Hdata Hcl Hcor Hfind Hterm.
  rewrite handler_correlation, Hcor, Hdata, Hfind, Hterm.
  by rewrite applyEvent_classify, Hcl.
Qed.
End Ignored.


Lemma unclassified_notification_recomputes_only_witness :
  let req :=
    MonnifyWebhook.mkRequest None
      (MonnifyWebhook.mkBody (Some "DISBURSEMENT_QUEUED")
         (Some (MonnifyWebhook.mkEventData (Some "PAYROLL_99_51") None
                  None None))) in
  MonnifyWebhook.handler decimalNumber Sample.ledger 100 req
  = (MonnifyWebhook.updatePayrollStats Sample.ledger 100 99,
     MonnifyWebhook.mkResponse 200 "OK")
  ∧ payroll_items (MonnifyWebhook.handler decimalNumber Sample.ledger 100
                     req).1
    = payroll_items Sample.ledger.
Proof.
  apply (unclassified_notification_recomputes_only decimalNumber
           Sample.ledger 100 _
           (MonnifyWebhook.mkEventData (Some "PAYROLL_99_51") None None None)
           99 51 (Sample.item 51 27 1 PROCESSING (Some "MNFY51")));
    reflexivity.
Defined.

(** ** The correlation reference, written and read back *)

Lemma digit_value_pretty_N_char (d : N) :
  (d < 10)%N → digit_value (pretty_N_char d) = Some (Z.of_N d).
Proof.
  intros Hd.
  assert (d = 0 ∨ d = 1 ∨ d = 2 ∨ d = 3 ∨ d = 4 ∨ d = 5 ∨ d = 6 ∨ d = 7
          ∨ d = 8 ∨ d = 9)%N as Hcases by lia.
  repeat (destruct Hcases as [->|Hcases]; [done|]); by subst.
Qed.

(** Reading the digits that [pretty] writes for [x] in front of [s] shifts
    the accumulator by those digits. *)
Lemma decimal_from_pretty_N_go (x : N) :
  ∃ k : Z, 0 <= k ∧
    ∀ acc s,
      decimal_from acc (pretty_N_go x s)
      = decimal_from (acc * 10 ^ k + Z.of_N x) s.
Proof.
  induction (N.lt_wf_0 x) as [x _ IH].
  destruct (decide (x = 0%N)) as [->|Hx].
  { exists 0. split; [done|]. intros acc s.
    rewrite pretty_N_go_0. f_equal. lia. }
  destruct (IH (x `div` 10)%N) as (k & Hk & Hgo).
  { apply N.div_lt; lia. }
  exists (k + 1). split; [lia|]. intros acc s.
  rewrite pretty_N_go_step by lia. rewrite Hgo. simpl.
  rewrite digit_value_pretty_N_char by (apply N.mod_lt; lia).
  f_equal. rewrite Z.pow_add_r by lia.
  pose proof (N.div_mod x 10 ltac:(lia)) as Hdm.
  assert (Z.of_N x = 10 * Z.of_N (x `div` 10) + Z.of_N (x `mod` 10)) as ->
    by lia.
  lia.
Qed.

Lemma decimalNumber_pretty (z : Z) :
  0 <= z → decimalNumber (pretty z) = Some z.
Proof.
  intros Hz. destruct z as [|p|p]; [done| |lia].
  unfold decimalNumber, pretty, pretty_Z, pretty, pretty_positive, pretty,
    pretty_N.
  rewrite decide_False by done.
  destruct (decimal_from_pretty_N_go (N.pos p)) as (k & _ & ->).
  simpl; f_equal; lia.
Qed.

(** A string that splits into itself contains no underscore, and so ends
    the first part of whatever it is a prefix of. *)
Lemma split_on_prefix (a rest : string) :
  split_on "_" a = [a] →
  split_on "_" (a +:+ String "_" rest) = a :: split_on "_" rest.
Proof.
  induction a as [|c a IH]; simpl; [done|].
  case_bool_decide as Hc; [intros Heq; by simplify_eq|].
  destruct (split_on "_" a) as [|w ws] eqn:Ha; [intros Heq; by simplify_eq|].
  intros Heq. simplify_eq. by rewrite IH.
Qed.

Lemma split_on_digits (acc v : Z) (s : string) :
  decimal_from acc s = Some v → split_on "_" s = [s].
Proof.
  revert acc. induction s as [|c s IH]; intros acc Hs; simpl; [done|].
  simpl in Hs. destruct (digit_value c) as [d|] eqn:Hd; [|done].
  rewrite bool_decide_eq_false_2 by (by intros ->).
  by rewrite (IH _ Hs).
Qed.

Lemma payrollReference_parts (payrollId itemId : Z) :
  0 <= payrollId → 0 <= itemId →
  split_on "_" (payrollReference payrollId itemId)
  = ["PAYROLL"; pretty payrollId; pretty itemId].
Proof.
  intros Hp Hi.
  change (payrollReference payrollId itemId)
    with ("PAYROLL"
          +:+ String "_" (pretty payrollId +:+ String "_" (pretty itemId))).
  rewrite split_on_prefix by done.
  rewrite split_on_prefix
    by (by eapply split_on_digits, decimalNumber_pretty).
  by rewrite (split_on_digits 0 itemId) by (by apply decimalNumber_pretty).
Qed.

Section Correlation.
Import MonnifyWebhook Notification.

(** X4.  The reference that the queue worker gives to a transfer is read
    back by the notification receiver as the same batch id and item id
    (ids are not negative; [Number] on their decimal digits). *)
Theorem reference_round_trip (payrollId itemId : Z) (req : Request)
    (data : EventData) :
  0 <= payrollId → 0 <= itemId →
  eventData (body req) = Some data →
  reference data = Some (payrollReference payrollId itemId) →
  correlation decimalNumber req = Some (payrollId, itemId).
Proof.
  intros Hp Hi Hdata Href. unfold correlation. rewrite Hdata, Href.
  pose proof (payrollReference_parts payrollId itemId Hp Hi) as Hparts.
  assert (truthy (Some (payrollReference payrollId itemId)) = true) as ->
    by done.
  cbn [negb default from_option id]. rewrite Hparts. simpl.
  by rewrite !decimalNumber_pretty.
Qed.
End Correlation.

Lemma reference_round_trip_witness :
  Notification.correlation decimalNumber
    (Sample.paid (payrollReference 27 51)) = Some (27, 51).
Proof.
  apply (reference_round_trip 27 51 _
           (MonnifyWebhook.mkEventData (Some (payrollReference 27 51))
              (Some "MNFY51") None None)); done.
Defined.

(** ** Aggregate recompute: what it touches and what it decides *)

Lemma count_status_all st (items : list PayrollItem.t) :
  count_status st items = length items
  ↔ Forall (λ i, PayrollItem.status i = st) items.
Proof.
  unfold count_status. induction items as [|i items IH].
  { split; [constructor | done]. }
  rewrite filter_cons. pose proof (length_filter
    (λ i, PayrollItem.status i = st) items) as Hle.
  case_decide as Hi; simpl.
  - split.
    + intros [= Hlen]. constructor; [done | by apply IH].
    + intros [_ Hall]%list.Forall_cons. f_equal. by apply IH.
  - split; [lia|]. by intros [? _]%list.Forall_cons.
Qed.

Lemma count_status_some st (items : list PayrollItem.t) :
  (0 < count_status st items)%nat
  ↔ Exists (λ i, PayrollItem.status i = st) items.
Proof.
  unfold count_status. induction items as [|i items IH].
  { split; [simpl; lia | by intros ?%Exists_nil]. }
  rewrite filter_cons, List.Exists_cons.
  case_decide as Hi; simpl; [split; [by left | lia]|].
  rewrite IH. tauto.
Qed.

Lemma store_eq (s s' : Store) :
  employees s = employees s' → payrolls s = payrolls s' →
  payroll_items s = payroll_items s' → s = s'.
Proof. destruct s, s'. simpl. by intros -> -> ->. Qed.

Lemma findByPayrollId_ext (s s' : Store) (pid : Z) :
  payroll_items s = payroll_items s' → employees s = employees s' →
  PayrollItemModel.findByPayrollId s pid
  = PayrollItemModel.findByPayrollId s' pid.
Proof.
  destruct s, s'. unfold PayrollItemModel.findByPayrollId. simpl.
  by intros -> ->.
Qed.

(** X5.  The recompute writes the row of its batch only: items, employees
    and the rows of other batches stay as they are, and for an unknown batch
    id nothing changes at all.  Recomputing again over unchanged items
    yields the same status and counts (at the same instant, the same
    store). *)
Theorem recompute_frame_and_idempotence (s : Store) (now now' pid : Z) :
  let s1 := PayrollProcessor.updatePayrollStats s now pid in
  payroll_items s1 = payroll_items s
  ∧ employees s1 = employees s
  ∧ (∀ j, j ≠ pid → payrolls s1 !! j = payrolls s !! j)
  ∧ (payrolls s !! pid = None → s1 = s)
  ∧ PayrollProcessor.updatePayrollStats s1 now pid = s1
  ∧ (Payroll.status
       <$> payrolls (PayrollProcessor.updatePayrollStats s1 now' pid) !! pid)
    = (Payroll.status <$> payrolls s1 !! pid)
  ∧ (Payroll.processed_count
       <$> payrolls (PayrollProcessor.updatePayrollStats s1 now' pid) !! pid)
    = (Payroll.processed_count <$> payrolls s1 !! pid)
  ∧ (Payroll.failed_count
       <$> payrolls (PayrollProcessor.updatePayrollStats s1 now' pid) !! pid)
    = (Payroll.failed_count <$> payrolls s1 !! pid).
Proof.
  intros s1. subst s1.
  set (items := PayrollItemModel.findByPayrollId s pid).
  set (st := spec_aggregate (count_status COMPLETED items)
               (count_status FAILED items) (length items)).
  assert (∀ t s0, payroll_items s0 = payroll_items s →
                  employees s0 = employees s →
                  PayrollProcessor.updatePayrollStats s0 t pid
                  = PayrollModel.updateStatus s0 t pid st
                      (Some (count_status COMPLETED items))
                      (Some (count_status FAILED items))) as Hrec.
  { intros t s0 Hi He. rewrite updatePayrollStats_spec.
    by rewrite (findByPayrollId_ext s0 s pid Hi He). }
  rewrite (Hrec now s) by done.
  split; [done|]. split; [done|]. split.
  { intros j Hj. by rewrite payroll_lookup_updateStatus, decide_False. }
  split.
  { intros Hnone. apply store_eq; try done. simpl.
    apply map_eq. intros j. rewrite lookup_alter.
    case_decide; [subst; by rewrite Hnone | done]. }
  rewrite !Hrec by done. split.
  { apply store_eq; try done. simpl.
    apply map_eq. intros j.
    destruct (decide (pid = j)) as [<-|Hne].
    - rewrite !lookup_alter_eq.
      destruct (payrolls s !! pid) as [p|]; [|done]. simpl. f_equal.
      unfold PayrollModel.updated. simpl. by destruct (_ || _).
    - by rewrite !lookup_alter_ne. }
  rewrite !payroll_lookup_updateStatus, !decide_True by done.
  by destruct (payrolls s !! pid).
Qed.

(** X6.  What the recompute decides, in terms of the items loaded for the
    batch: COMPLETED exactly when every item is COMPLETED (so also for a
    batch without items), FAILED exactly when there is an item and every
    item is FAILED, PARTIALLY_COMPLETED exactly when some item is COMPLETED
    and some is not, and never PENDING. *)
Theorem recompute_decision (s : Store) (now pid : Z) (p : Payroll.t) :
  payrolls s !! pid = Some p →
  let items := PayrollItemModel.findByPayrollId s pid in
  ∃ p',
    payrolls (PayrollProcessor.updatePayrollStats s now pid) !! pid
    = Some p'
    ∧ (Payroll.status p' = COMPLETED
       ↔ Forall (λ i, PayrollItem.status i = COMPLETED) items)
    ∧ (Payroll.status p' = FAILED
       ↔ items ≠ [] ∧ Forall (λ i, PayrollItem.status i = FAILED) items)
    ∧ (Payroll.status p' = PARTIALLY_COMPLETED
       ↔ Exists (λ i, PayrollItem.status i = COMPLETED) items
         ∧ Exists (λ i, PayrollItem.status i ≠ COMPLETED) items)
    ∧ Payroll.status p' ≠ PENDING.
Proof.
  intros Hp items.
  unfold PayrollProcessor.updatePayrollStats. fold items.
  rewrite payroll_lookup_updateStatus, decide_True, Hp by done.
  eexists. split; [done|]. simpl.
  pose proof (count_status_all COMPLETED items) as Hc.
  pose proof (count_status_all FAILED items) as Hf.
  pose proof (count_status_some COMPLETED items) as Hsome.
  pose proof (count_completed_failed items) as Hle.
  assert (Exists (λ i, PayrollItem.status i ≠ COMPLETED) items
          ↔ ¬ Forall (λ i, PayrollItem.status i = COMPLETED) items) as Hex.
  { split.
    - apply (Exists_not_Forall (λ i, PayrollItem.status i = COMPLETED)).
    - apply (not_Forall_Exists (λ i, PayrollItem.status i = COMPLETED)). }
  destruct (decide (count_status COMPLETED items = length items))
    as [Hall|Hnall].
  { rewrite bool_decide_eq_true_2 by done.
    split; [split; [intros _; by apply Hc | done]|].
    split.
    { split; [done|]. intros [Hne Hfa]. apply Hf in Hfa. exfalso.
      destruct items; [done | simpl in *; lia]. }
    split; [|done].
    split; [done|]. intros [_ Hex2]. apply Hex in Hex2. exfalso.
    by apply Hex2, Hc. }
  rewrite bool_decide_eq_false_2 by done.
  destruct (decide (count_status FAILED items = length items))
    as [Hfall|Hnfall].
  { rewrite bool_decide_eq_true_2 by done.
    split; [split; [done | by intros Hx%Hc]|].
    split.
    { split; [|done]. intros _. split; [|by apply Hf].
      intros Hnil. apply Hnall. by rewrite Hnil. }
    split; [|done].
    split; [done|]. intros [Hex1%Hsome _]. exfalso. lia. }
  rewrite bool_decide_eq_false_2 by done.
  destruct (decide (0 < count_status COMPLETED items)%nat) as [Hpos|Hzero].
  - rewrite bool_decide_eq_true_2 by done.
    split; [split; [done | by intros Hx%Hc]|].
    split; [split; [done | by intros [_ Hx%Hf]]|].
    split; [|done].
    split; [|done]. intros _. split; [by apply Hsome|].
    apply Hex. by intros Hx%Hc.
  - rewrite bool_decide_eq_false_2 by done.
    split; [split; [done | by intros Hx%Hc]|].
    split; [split; [done | by intros [_ Hx%Hf]]|].
    split; [|done].
    split; [done|]. by intros [Hx%Hsome _].
Qed.

Lemma recompute_decision_witness :
  ∃ p',
    payrolls (PayrollProcessor.updatePayrollStats Sample.fresh 100 27) !! 27
    = Some p'
    ∧ Payroll.status p' = COMPLETED.
Proof.
  destruct (recompute_decision Sample.fresh 100 27
              (Sample.payroll 27 PROCESSING) eq_refl)
    as (p' & Hp' & Hcompleted & _).
  exists p'. split; [exact Hp'|]. apply Hcompleted. constructor.
Defined.

(** ** The reconciliation sweep: counters, frame, and a second sweep *)

Section SweepMore.
Import PayrollController Reconciliation.
Variable gateway : Gateway.

Lemma exclusive_filters_length {A} (P Q : A → Prop)
    `{!∀ x, Decision (P x)} `{!∀ x, Decision (Q x)} (l : list A) :
  (∀ x, P x → Q x → False) →
  (length (filter P l) + length (filter Q l) ≤ length l)%nat.
Proof.
  intros Hex. induction l as [|x l IH]; [done|].
  rewrite !filter_cons.
  destruct (decide (P x)) as [HP|HP], (decide (Q x)) as [HQ|HQ]; simpl;
    try lia.
  by destruct (Hex x).
Qed.

Lemma filter_none {A} (P : A → Prop) `{!∀ x, Decision (P x)} (l : list A) :
  Forall (λ x, ¬ P x) l → filter P l = [].
Proof.
  induction 1 as [|x l Hx _ IH]; [done|].
  by rewrite filter_cons, decide_False.
Qed.

(** X7.  In every summary the sweep returns, the number of updated items and
    the number of failed lookups together do not exceed the number of items
    examined, which is the number of loaded items holding a reference and is
    at least one. *)
Theorem reconcile_counts_bounded (now : Z) (s : Store) (pid : Z)
    (msg : string) (reconciled errors total : nat) :
  (reconcilePayroll gateway now s pid).2
  = Summary msg reconciled errors total →
  (reconciled + errors ≤ total)%nat
  ∧ total
    = length (itemsToReconcile (PayrollItemModel.findByPayrollId s pid))
  ∧ (1 ≤ total)%nat.
Proof.
  unfold reconcilePayroll.
  destruct (PayrollModel.findById s pid) as [p|]; [|done].
  case_bool_decide as Hnil; [done|]. cbn [snd].
  set (items := itemsToReconcile (PayrollItemModel.findByPayrollId s pid))
    in *.
  pose proof (sweep_effect gateway now items (mkSweep s 0 0))
    as (_ & _ & _ & Hu & He). simpl in Hu, He.
  intros [= _ <- <- <-]. rewrite Hu, He. split; [|split; [done|]].
  - apply exclusive_filters_length. intros it.
    by destruct (action gateway it).
  - destruct items; [done | simpl; lia].
Qed.

(** X8.  With unique item ids, the sweep of one batch leaves alone every
    item of another batch and every item that holds no reference; it never
    changes the [employees] table or the row of another batch. *)
Theorem reconcile_frame (now : Z) (s : Store) (pid : Z) (k : nat)
    (it : PayrollItem.t) :
  unique_ids s →
  payroll_items s !! k = Some it →
  PayrollItem.payroll_id it ≠ pid
  ∨ truthy (PayrollItem.transaction_reference it) = false →
  let s' := (reconcilePayroll gateway now s pid).1 in
  payroll_items s' !! k = Some it
  ∧ employees s' = employees s
  ∧ (∀ j, j ≠ pid → payrolls s' !! j = payrolls s !! j).
Proof.
  intros Hpk Hk Hout s'. subst s'. split; [|split].
  - rewrite (reconcile_row gateway now s pid k it Hpk Hk).
    rewrite decide_False; [done|]. intros [_ Hin].
    unfold itemsToReconcile, PayrollItemModel.findByPayrollId in Hin.
    rewrite !list_elem_of_filter in Hin.
    destruct Hout as [Hother|Href]; [tauto|].
    destruct Hin as [Htrue _]. congruence.
  - by destruct (reconcile_store gateway now s pid) as [-> _].
  - intros j Hj. unfold reconcilePayroll.
    destruct (PayrollModel.findById s pid) as [p|]; [|done].
    case_bool_decide; [done|]. cbn [fst].
    rewrite updatePayrollStats_controller, updatePayrollStats_spec.
    rewrite payroll_lookup_updateStatus, decide_False by done.
    by pose proof (sweep_effect gateway now
      (itemsToReconcile (PayrollItemModel.findByPayrollId s pid))
      (mkSweep s 0 0)) as (_ & -> & _).
Qed.

Lemma action_after_apply now it :
  is_finalize (action gateway (apply now (action gateway it) it)) = false
  ∧ is_failure (action gateway (apply now (action gateway it) it))
    = is_failure (action gateway it).
Proof.
  destruct (action gateway it) as [|st msg|] eqn:Ha; simpl;
    [by rewrite Ha | | by rewrite Ha].
  assert (action gateway
            (PayrollItemModel.updated now st
               (PayrollItem.transaction_reference it) msg it) = Leave)
    as ->; [|done].
  revert Ha. unfold action. simpl.
  assert ((if truthy (PayrollItem.transaction_reference it)
           then PayrollItem.transaction_reference it
           else PayrollItem.transaction_reference it)
          = PayrollItem.transaction_reference it) as ->
    by (by destruct (truthy _)).
  destruct (gateway _) as [tx|]; [|done].
  generalize (or_else (paymentStatus (reported tx)) (status (reported tx))).
  intros ps.
  destruct (decide (ps = Some "PAID")) as [->|Hpaid].
  - rewrite bool_decide_eq_true_2 by done.
    rewrite (bool_decide_eq_false_2 (Some "PAID" = Some "FAILED")) by done.
    simpl. case_bool_decide; simpl; [done|].
    intros [= <- _]. by rewrite bool_decide_eq_true_2.
  - rewrite (bool_decide_eq_false_2 (ps = Some "PAID")) by done. simpl.
    destruct (bool_decide (ps = Some "FAILED")); simpl; [|done].
    case_bool_decide; simpl; [done|].
    intros [= <- _]. by rewrite bool_decide_eq_true_2.
Qed.

Lemma sweep_row_noop now items row :
  Forall (λ item, is_finalize (action gateway item) = false) items →
  sweep_row gateway now items row = row.
Proof.
  induction 1 as [|item items Hitem _ IH]; [done|].
  change (sweep_row gateway now (item :: items) row)
    with (sweep_row gateway now items (touch gateway now item row)).
  assert (touch gateway now item row = row) as ->; [|done].
  unfold touch. case_bool_decide; [|done].
  by destruct (action gateway item).
Qed.

(** X9.  With unique item ids and unchanged gateway answers, a second sweep
    of the same batch finds the same items to examine, updates none of them,
    changes no item row, and counts the same lookup failures. *)
Theorem second_sweep_updates_nothing (now1 now2 : Z) (s : Store) (pid : Z)
    (msg : string) (reconciled errors total : nat) :
  unique_ids s →
  (reconcilePayroll gateway now1 s pid).2
  = Summary msg reconciled errors total →
  let s1 := (reconcilePayroll gateway now1 s pid).1 in
  (reconcilePayroll gateway now2 s1 pid).2 = Summary msg 0 errors total
  ∧ payroll_items (reconcilePayroll gateway now2 s1 pid).1
    = payroll_items s1.
Proof.
  intros Hpk Hsum s1.
  set (l := itemsToReconcile (PayrollItemModel.findByPayrollId s pid)).
  set (g := λ it, if decide (it ∈ l)
                  then apply now1 (action gateway it) it else it).
  assert (is_Some (payrolls s !! pid) ∧ l ≠ []) as [Hp Hl].
  { revert Hsum. unfold reconcilePayroll, PayrollModel.findById.
    destruct (payrolls s !! pid); [|done].
    fold l. case_bool_decide; [done|]. by split; [eexists|]. }
  assert (employees s1 = employees s) as Hemp.
  { unfold s1. by destruct (reconcile_store gateway now1 s pid) as [-> _]. }
  assert (payroll_items s1 = g <$> payroll_items s) as Hitems.
  { apply list_eq. intros k. rewrite list_lookup_fmap.
    destruct (payroll_items s !! k) as [it|] eqn:Hk.
    - unfold s1. rewrite (reconcile_row gateway now1 s pid k it Hpk Hk).
      simpl. f_equal. unfold g.
      destruct (decide (it ∈ l)) as [Hin|Hin].
      + by rewrite decide_True.
      + rewrite decide_False; [done | tauto].
    - unfold s1. destruct (reconcile_store gateway now1 s pid) as [_ ->].
      case_bool_decide; [by rewrite list_lookup_fmap, Hk | done]. }
  assert (∀ it, PayrollItem.payroll_id (g it) = PayrollItem.payroll_id it
                ∧ PayrollItem.employee_id (g it)
                  = PayrollItem.employee_id it
                ∧ PayrollItem.transaction_reference (g it)
                  = PayrollItem.transaction_reference it) as Hg.
  { intros it. unfold g. case_decide; [|done].
    unfold apply. destruct (action gateway it); try done. simpl.
    by destruct (truthy _). }
  assert (itemsToReconcile (PayrollItemModel.findByPayrollId s1 pid)
          = g <$> l) as Hl2.
  { rewrite (findByPayrollId_ext s1 (with_items s (g <$> payroll_items s))
               pid Hitems Hemp).
    unfold l, itemsToReconcile, PayrollItemModel.findByPayrollId. simpl.
    rewrite !filter_fmap_stable; [done| |].
    - intros it. destruct (Hg it) as (_ & _ & Hgr). by rewrite Hgr.
    - intros it. unfold PayrollItemModel.joined.
      destruct (Hg it) as (Hgp & Hge & _). by rewrite Hgp, Hge. }
  assert (Forall (λ item, is_finalize (action gateway item) = false)
            (g <$> l)) as Hquiet.
  { apply list.Forall_forall. intros it' (it & -> & Hin)%list_elem_of_fmap.
    unfold g. rewrite decide_True by done.
    apply action_after_apply. }
  assert (is_Some (payrolls s1 !! pid)) as [p1 Hp1].
  { unfold s1, reconcilePayroll, PayrollModel.findById.
    destruct Hp as [p Hp]. rewrite Hp. fold l.
    rewrite bool_decide_eq_false_2 by done. cbn [fst].
    rewrite updatePayrollStats_controller, updatePayrollStats_spec.
    rewrite payroll_lookup_updateStatus, decide_True by done.
    pose proof (sweep_effect gateway now1 l (mkSweep s 0 0))
      as (_ & -> & _). simpl. rewrite Hp. by eexists. }
  pose proof (sweep_effect gateway now2 (g <$> l) (mkSweep s1 0 0))
    as (_ & _ & Hi2 & Hu2 & He2). simpl in Hi2, Hu2, He2.
  assert (total = length l) as Htotal.
  { revert Hsum. unfold reconcilePayroll, PayrollModel.findById.
    destruct Hp as [p Hp]. rewrite Hp. fold l.
    rewrite bool_decide_eq_false_2 by done. cbn [snd].
    by intros [= _ _ _ <-]. }
  assert (errors
          = length (filter (λ i, is_failure (action gateway i) = true) l))
    as Herrors.
  { revert Hsum. unfold reconcilePayroll, PayrollModel.findById.
    destruct Hp as [p Hp]. rewrite Hp. fold l.
    rewrite bool_decide_eq_false_2 by done. cbn [snd].
    pose proof (sweep_effect gateway now1 l (mkSweep s 0 0))
      as (_ & _ & _ & _ & He1). simpl in He1. rewrite He1.
    by intros [= _ _ <- _]. }
  assert (msg = "Payroll reconciled successfully") as ->.
  { revert Hsum. unfold reconcilePayroll, PayrollModel.findById.
    destruct Hp as [p Hp]. rewrite Hp. fold l.
    rewrite bool_decide_eq_false_2 by done. by intros [= <- _ _ _]. }
  unfold reconcilePayroll, PayrollModel.findById. rewrite Hp1, Hl2.
  rewrite bool_decide_eq_false_2
    by (intros Hnil; apply fmap_nil_inv in Hnil; done).
  cbn [fst snd]. split.
  - rewrite Hu2, He2. f_equal.
    + rewrite filter_none; [done|].
      eapply list.Forall_impl; [exact Hquiet|]. simpl. by intros it ->.
    + rewrite Herrors, filter_fmap_stable, length_fmap; [done|].
      intros it. unfold g. case_decide; [|done].
      by destruct (action_after_apply now1 it) as [_ ->].
    + by rewrite length_fmap, Htotal.
  - change (payroll_items (updatePayrollStats ?x _ _))
      with (payroll_items x). rewrite Hi2.
    etrans; [|apply list_fmap_id]. apply list_fmap_ext.
    intros ? row _. simpl. by apply sweep_row_noop.
Qed.
End SweepMore.

Lemma sample_ledger_unique_ids : unique_ids Sample.ledger.
Proof. unfold unique_ids. apply (bool_decide_unpack _). by vm_compute. Defined.

Lemma reconcile_counts_bounded_witness :
  (1 + 1 ≤ 2)%nat
  ∧ 2%nat
    = length (PayrollController.itemsToReconcile
                (PayrollItemModel.findByPayrollId Sample.ledger 27))
  ∧ (1 ≤ 2)%nat.
Proof.
  apply (reconcile_counts_bounded Sample.only_51_paid 100 Sample.ledger 27
           "Payroll reconciled successfully" 1 1 2).
  reflexivity.
Defined.

Lemma reconcile_frame_witness :
  let s' :=
    (PayrollController.reconcilePayroll Sample.all_paid 100
       Sample.ledger 27).1 in
  payroll_items s' !! 2%nat = Some (Sample.item 53 27 3 PROCESSING None)
  ∧ employees s' = employees Sample.ledger
  ∧ (∀ j, j ≠ 27 → payrolls s' !! j = payrolls Sample.ledger !! j).
Proof.
  apply (reconcile_frame Sample.all_paid 100 Sample.ledger 27 2
           (Sample.item 53 27 3 PROCESSING None)).
  - apply sample_ledger_unique_ids.
  - reflexivity.
  - right. reflexivity.
Defined.

Lemma second_sweep_updates_nothing_witness :
  let s1 :=
    (PayrollController.reconcilePayroll Sample.only_51_paid 100
       Sample.ledger 27).1 in
  (PayrollController.reconcilePayroll Sample.only_51_paid 200 s1 27).2
  = PayrollController.Summary "Payroll reconciled successfully" 0 1 2
  ∧ payroll_items
      (PayrollController.reconcilePayroll Sample.only_51_paid 200 s1 27).1
    = payroll_items s1.
Proof.
  apply (second_sweep_updates_nothing Sample.only_51_paid 100 200
           Sample.ledger 27 "Payroll reconciled successfully" 1 1 2).
  - apply sample_ledger_unique_ids.
  - reflexivity.
Defined.

(** ** The queue worker, row by row *)

Section RowFold.
Import Rows.
Variable f : PayrollItem.t → PayrollItem.t → PayrollItem.t.
Hypothesis f_id : ∀ item row, PayrollItem.id (f item row) = PayrollItem.id row.

Lemma on_row_id item row :
  PayrollItem.id (on_row f item row) = PayrollItem.id row.
Proof. unfold on_row. by case_bool_decide. Qed.

Lemma row_fold_other items row :
  (∀ item, item ∈ items → PayrollItem.id item ≠ PayrollItem.id row) →
  row_fold f items row = row.
Proof.
  revert row. induction items as [|item items IH]; intros row Hne; [done|].
  unfold row_fold in *. simpl.
  assert (on_row f item row = row) as ->.
  { unfold on_row. rewrite bool_decide_eq_false_2; [done|].
    intros Heq. by apply (Hne item); [left|]. }
  apply IH. intros item' Hin. apply Hne. by right.
Qed.

(** With unique ids, a row is written by the iteration of its own item
    only. *)
Lemma row_fold_own items it row :
  NoDup items →
  PayrollItem.id row = PayrollItem.id it →
  (∀ item, item ∈ items →
           PayrollItem.id item = PayrollItem.id it → item = it) →
  row_fold f items row = if decide (it ∈ items) then f it row else row.
Proof.
  revert row. induction items as [|item items IH]; intros row Hnd Hrow Hown.
  { by rewrite decide_False by apply not_elem_of_nil. }
  pose proof (NoDup_cons_1_1 _ _ Hnd) as Hnotin.
  apply NoDup_cons_1_2 in Hnd.
  change (row_fold f (item :: items) row)
    with (row_fold f items (on_row f item row)).
  destruct (decide (item = it)) as [->|Hne].
  - rewrite decide_True by left.
    assert (on_row f it row = f it row) as ->.
    { unfold on_row. by rewrite bool_decide_eq_true_2. }
    apply row_fold_other. intros item' Hin Hid.
    assert (item' = it) as ->; [|done].
    apply Hown; [by right|]. by rewrite Hid, f_id.
  - assert (on_row f item row = row) as ->.
    { unfold on_row. rewrite bool_decide_eq_false_2; [done|].
      intros Heq. apply Hne. apply Hown; [left | congruence]. }
    rewrite IH; [|done|done|].
    + destruct (decide (it ∈ items)) as [Hin|Hin].
      * rewrite decide_True; [done | by right].
      * rewrite decide_False; [done|].
        intros [?|?]%elem_of_cons; congruence.
    + intros item' Hin. apply Hown. by right.
Qed.
End RowFold.

Section WorkerRows.
Import MonnifyClient PayrollProcessor Submission Rows.

Lemma update_as_on_row s now item st ref err :
  payroll_items
    (PayrollItemModel.updateStatus s now (PayrollItem.id item) st ref err)
  = on_row (λ _ row, PayrollItemModel.updated now st ref err row) item
      <$> payroll_items s.
Proof. done. Qed.

Lemma buildTransfers_rows s now payrollId items acc :
  Forall (PayrollItemModel.joined s) items →
  let s' := (buildTransfers s now payrollId items acc).1 in
  payroll_items s' = row_fold (marked now) items <$> payroll_items s
  ∧ payrolls s' = payrolls s
  ∧ employees s' = employees s.
Proof.
  revert s acc. induction items as [|item items IH]; intros s acc Hj.
  { simpl. split; [|done]. by rewrite list_fmap_id. }
  apply list.Forall_cons in Hj as [[e He] Hj]. simpl.
  unfold EmployeeModel.findById. rewrite He.
  destruct (IH (PayrollItemModel.updateStatus s now (PayrollItem.id item)
                  PROCESSING None None)
              (acc ++ [mkTransfer (PayrollItem.amount item)
                         (Employee.account_number e) (Employee.bank_code e)
                         (Employee.name e) "Payroll payment"
                         (payrollReference payrollId (PayrollItem.id item))])
              Hj) as (Hi & Hp & Hemp).
  simpl in Hi, Hp, Hemp. rewrite Hi, Hp, Hemp.
  split; [|done]. simpl. rewrite <-list_fmap_compose.
  by apply list_fmap_ext.
Qed.

Lemma backfill_rows results now payrollId items s :
  let s' := foldl (backfill results now payrollId) s items in
  payroll_items s' = row_fold (filled results now payrollId) items
                       <$> payroll_items s
  ∧ payrolls s' = payrolls s
  ∧ employees s' = employees s.
Proof.
  revert s. induction items as [|item items IH]; intros s.
  { simpl. split; [|done]. by rewrite list_fmap_id. }
  simpl. destruct (IH (backfill results now payrollId s item))
    as (Hi & Hp & Hemp). simpl in Hi, Hp, Hemp. rewrite Hi, Hp, Hemp.
  assert (payroll_items (backfill results now payrollId s item)
          = on_row (filled results now payrollId) item <$> payroll_items s
          ∧ payrolls (backfill results now payrollId s item) = payrolls s
          ∧ employees (backfill results now payrollId s item) = employees s)
    as (-> & -> & ->).
  { unfold backfill, filled, on_row.
    destruct (List.find _ results) as [m|].
    - destruct (truthy (r_transactionReference m)); [done|].
      split; [|done]. symmetry. etrans; [|apply list_fmap_id].
      apply list_fmap_ext. intros ???. by case_bool_decide.
    - split; [|done]. symmetry. etrans; [|apply list_fmap_id].
      apply list_fmap_ext. intros ???. by case_bool_decide. }
  split; [|done]. rewrite <-list_fmap_compose. by apply list_fmap_ext.
Qed.

Lemma payable_joined s pid now st pc fc :
  Forall (PayrollItemModel.joined
            (PayrollModel.updateStatus s now pid st pc fc))
         (payable (PayrollItemModel.findByPayrollId s pid)).
Proof.
  apply list.Forall_forall. intros i [_ Hin]%list_elem_of_filter.
  apply list_elem_of_filter in Hin as [[_ Hj] _]. exact Hj.
Qed.

(** What a successful [initiateBulkTransfer] returned is the gateway's
    answer to a batch request with one entry per transfer. *)
Lemma initiateBulkTransfer_ok net now c transfers c1 calls response :
  initiateBulkTransfer net now c transfers = (c1, calls, Ok response) →
  ∃ body,
    PostBatch body ∈ calls
    ∧ postBatch net body = Ok response
    ∧ e_reference <$> transactionList body = reference <$> transfers.
Proof.
  unfold initiateBulkTransfer.
  destruct (ensureAuthenticated net now c) as [[c0 calls0] [[]|msg]];
    [|done].
  case_bool_decide; [done|]. case_bool_decide; [done|].
  destruct (validateTransfers transfers); [done|].
  unfold clientPost.
  destruct (ensureAuthenticated net now c0) as [[c2 calls2] [[]|msg]];
    [|done].
  intros [= <- <- Hr]. eexists. split; [|split; [exact Hr|]].
  - rewrite !elem_of_app. right. right. apply list_elem_of_here.
  - unfold requestBody. simpl. rewrite <-list_fmap_compose.
    by apply list_fmap_ext.
Qed.

(** The shape of a run that had something to submit. *)
Lemma process_run net now c s pid :
  let pay := payable (PayrollItemModel.findByPayrollId s pid) in
  let run := processBulkPayroll net now c s pid in
  pay ≠ [] →
  ∃ s2,
    payroll_items s2 = row_fold (marked now) pay <$> payroll_items s
    ∧ employees s2 = employees s
    ∧ payrolls s2
      = payrolls (PayrollModel.updateStatus s now pid PROCESSING None None)
    ∧ ((∃ msg, outcome run = Threw msg ∧ store run = s2)
       ∨ (∃ resp body,
            outcome run = Ok ()
            ∧ requestSuccessful resp = true
            ∧ PostBatch body ∈ calls run
            ∧ postBatch net body = Ok (Some resp)
            ∧ e_reference <$> transactionList body
              = (λ i, payrollReference pid (PayrollItem.id i)) <$> pay
            ∧ store run
              = updatePayrollStats
                  (foldl (backfill (r_transactionList resp) now pid) s2 pay)
                  now pid)).
Proof.
  intros pay run Hpay. subst run. unfold processBulkPayroll. fold pay.
  rewrite bool_decide_eq_false_2 by done.
  set (s1 := PayrollModel.updateStatus s now pid PROCESSING None None).
  pose proof (payable_joined s pid now PROCESSING None None) as Hj.
  fold pay s1 in Hj.
  destruct (buildTransfers_joined s1 now pid pay [] Hj)
    as (s2 & new & Hb & _ & Hnew).
  pose proof (buildTransfers_rows s1 now pid pay [] Hj) as (Hi & Hp & He).
  rewrite Hb in Hi, Hp, He. simpl in Hi, Hp, He. rewrite Hb. simpl.
  exists s2. split; [done|]. split; [done|]. split; [done|].
  destruct (initiateBulkTransfer net now c new) as [[c1 calls] r] eqn:Hinit.
  destruct r as [[resp|]|msg].
  - destruct (initiateBulkTransfer_ok _ _ _ _ _ _ _ Hinit)
      as (body & Hin & Hpost & Hrefs).
    destruct (requestSuccessful resp) eqn:Hok.
    + right. exists resp, body. simpl. repeat split; try done.
      rewrite Hrefs. by apply (built_references s1 pid).
    + left. eexists. by repeat split.
  - left. eexists. by repeat split.
  - left. exists msg. by repeat split.
Qed.
End WorkerRows.

Section WorkerProperties.
Import MonnifyClient PayrollProcessor Submission Rows.

Lemma marked_id now item row :
  PayrollItem.id (marked now item row) = PayrollItem.id row.
Proof. done. Qed.

Lemma filled_id results now pid item row :
  PayrollItem.id (filled results now pid item row) = PayrollItem.id row.
Proof.
  unfold filled. destruct (List.find _ results) as [m|]; [|done].
  by destruct (truthy _).
Qed.

Lemma payable_of_store s pid item :
  item ∈ payable (PayrollItemModel.findByPayrollId s pid) →
  item ∈ payroll_items s.
Proof.
  unfold payable, PayrollItemModel.findByPayrollId.
  rewrite !list_elem_of_filter. tauto.
Qed.

Lemma payable_NoDup s pid :
  unique_ids s → NoDup (payable (PayrollItemModel.findByPayrollId s pid)).
Proof.
  intros Hpk. do 2 apply list.NoDup_filter. by eapply NoDup_fmap_1.
Qed.

(** X10.  When no loaded item is eligible (every item is finalized, or is
    PROCESSING and holds a reference; also when the batch has no items or
    does not exist), the invocation returns at once: no network call, no
    change to the store, not even to the batch row. *)
Theorem nothing_eligible_is_noop (net : Network) (now : Z) (c : t)
    (s : Store) (pid : Z) :
  (∀ it, it ∈ PayrollItemModel.findByPayrollId s pid →
         PayrollItem.status it ≠ PENDING
         ∧ (PayrollItem.status it = PROCESSING →
            truthy (PayrollItem.transaction_reference it) = true)) →
  processBulkPayroll net now c s pid = mkRun s c [] (Ok ()).
Proof.
  intros Hnone. unfold processBulkPayroll.
  rewrite bool_decide_eq_true_2; [done|].
  unfold payable. apply filter_none, list.Forall_forall.
  intros it Hin. destruct (Hnone it Hin) as [Hp Hr].
  unfold eligible. rewrite (bool_decide_eq_false_2 _ Hp). simpl.
  case_bool_decide as Hproc; [|done]. by rewrite (Hr Hproc).
Qed.

(** X11.  The first loop of the worker never fails on the items that
    [findByPayrollId] loaded: it builds one transfer per eligible item, in
    order, carrying the item's amount, the bank details and name of the
    item's employee, and the reference PAYROLL_{batch}_{item}. *)
Theorem worker_builds_one_transfer_per_item (s : Store) (now pid : Z) :
  let pay := payable (PayrollItemModel.findByPayrollId s pid) in
  ∃ s2 transfers,
    buildTransfers (PayrollModel.updateStatus s now pid PROCESSING None None)
      now pid pay []
    = (s2, Ok transfers)
    ∧ Forall2 (built s pid) pay transfers.
Proof.
  intros pay.
  destruct (buildTransfers_joined
              (PayrollModel.updateStatus s now pid PROCESSING None None)
              now pid pay [] (payable_joined s pid now PROCESSING None None))
    as (s2 & new & Hb & _ & Hnew).
  by exists s2, new.
Qed.

(** X12.  With unique item ids, an invocation writes eligible items only:
    every other row (a finalized item, an item of another batch) is left as
    it is.  An eligible item ends PROCESSING.  When the invocation throws,
    the item has only been marked (its reference is as before, so it stays
    eligible if it had none); when it returns, the item also holds the
    transaction reference of the first gateway result that carries its
    reference, if there is one and it is not empty. *)
Theorem worker_writes_eligible_items_only (net : Network) (now : Z) (c : t)
    (s : Store) (pid : Z) (k : nat) (it : PayrollItem.t) :
  unique_ids s →
  payroll_items s !! k = Some it →
  let pay := payable (PayrollItemModel.findByPayrollId s pid) in
  let run := processBulkPayroll net now c s pid in
  ∃ it',
    payroll_items (store run) !! k = Some it'
    ∧ (it ∉ pay → it' = it)
    ∧ (it ∈ pay →
       PayrollItem.status it' = PROCESSING
       ∧ (∀ msg, outcome run = Threw msg → it' = marked now it it)
       ∧ (outcome run = Ok () →
          ∃ resp body,
            PostBatch body ∈ calls run
            ∧ postBatch net body = Ok (Some resp)
            ∧ it' = filled (r_transactionList resp) now pid it
                      (marked now it it))).
Proof.
  intros Hpk Hk pay run.
  destruct (decide (pay = [])) as [Hnil|Hpay].
  { exists it. subst run. unfold processBulkPayroll. fold pay.
    rewrite bool_decide_eq_true_2 by done. simpl.
    split; [done|]. split; [done|]. rewrite Hnil.
    by intros ?%elem_of_nil. }
  assert (∀ row, PayrollItem.id row = PayrollItem.id it →
                 ∀ f, (∀ item r, PayrollItem.id (f item r) = PayrollItem.id r) →
                      row_fold f pay row
                      = if decide (it ∈ pay) then f it row else row) as Hown.
  { intros row Hrow f Hf. apply row_fold_own; try done.
    - by apply payable_NoDup.
    - intros item Hin Hid. apply (unique_ids_inj s); try done.
      + by eapply payable_of_store.
      + by eapply list_elem_of_lookup_2. }
  destruct (process_run net now c s pid Hpay)
    as (s2 & Hi2 & _ & _ & Hcases). fold pay run in Hi2, Hcases.
  assert (payroll_items s2 !! k
          = Some (if decide (it ∈ pay) then marked now it it else it))
    as Hk2.
  { rewrite Hi2, list_lookup_fmap, Hk. simpl. f_equal.
    by apply Hown. }
  destruct Hcases as [(msg & Hout & Hstore)
                     |(resp & body & Hout & Hok & Hin & Hpost & _ & Hstore)].
  - rewrite Hstore, Hk2. eexists. split; [done|].
    split; [intros Hnin; by rewrite decide_False|].
    intros Hin. rewrite decide_True by done.
    split; [done|]. split; [done|]. by rewrite Hout.
  - rewrite Hstore.
    change (payroll_items (updatePayrollStats ?x _ _))
      with (payroll_items x).
    destruct (backfill_rows (r_transactionList resp) now pid pay s2)
      as (-> & _ & _).
    rewrite list_lookup_fmap, Hk2.
    destruct (decide (it ∈ pay)) as [Hin'|Hnin]; cbn [fmap option_fmap option_map].
    + rewrite (Hown (marked now it it) eq_refl _
                 (filled_id (r_transactionList resp) now pid)).
      rewrite ?decide_True by done.
      eexists. split; [done|]. split; [done|]. intros _. split.
      * unfold filled. destruct (List.find _ _) as [m|]; [|done].
        by destruct (truthy _).
      * split; [by rewrite Hout|]. intros _. by exists resp, body.
    + rewrite (Hown it eq_refl _
                 (filled_id (r_transactionList resp) now pid)).
      rewrite ?decide_False by done.
      eexists. split; [done|]. by split.
Qed.
End WorkerProperties.

Lemma nothing_eligible_is_noop_witness :
  let s :=
    with_items Sample.ledger
      [ Sample.item 51 27 1 COMPLETED (Some "MNFY51");
        Sample.item 52 27 2 PROCESSING (Some "MNFY52") ] in
  PayrollProcessor.processBulkPayroll Sample.network 1000 Sample.client s 27
  = PayrollProcessor.mkRun s Sample.client [] (Ok ()).
Proof.
  apply nothing_eligible_is_noop.
  intros it Hin.
  apply list_elem_of_filter in Hin as [_ Hin].
  apply elem_of_cons in Hin as [->|Hin]; [done|].
  apply elem_of_cons in Hin as [->|Hin]; [done|].
  by apply elem_of_nil in Hin.
Defined.

Lemma worker_writes_eligible_items_only_witness :
  ∃ it',
    payroll_items
      (PayrollProcessor.store
         (PayrollProcessor.processBulkPayroll Sample.network 1000
            Sample.client Sample.ledger 27)) !! 0%nat = Some it'
    ∧ it' = Sample.item 51 27 1 PROCESSING (Some "MNFY51").
Proof.
  destruct (worker_writes_eligible_items_only Sample.network 1000
              Sample.client Sample.ledger 27 0
              (Sample.item 51 27 1 PROCESSING (Some "MNFY51"))
              sample_ledger_unique_ids eq_refl)
    as (it' & Hk & Hout & _).
  exists it'. split; [exact Hk|]. apply Hout.
  intros Hin. apply list_elem_of_filter in Hin as [Hel _]. done.
Defined.

Section Reinvocation.
Import MonnifyClient PayrollProcessor Submission Rows.

Lemma row_fold_keeps {B} (proj : PayrollItem.t → B)
    (f : PayrollItem.t → PayrollItem.t → PayrollItem.t) items row :
  (∀ item r, proj (f item r) = proj r) →
  proj (row_fold f items row) = proj row.
Proof.
  intros Hf. revert row. induction items as [|item items IH]; intros row;
    [done|].
  change (row_fold f (item :: items) row)
    with (row_fold f items (on_row f item row)).
  rewrite IH. unfold on_row. by case_bool_decide.
Qed.

Lemma filled_keeps {B} (proj : PayrollItem.t → B) results now pid :
  (∀ st ref err r,
     proj (PayrollItemModel.updated now st ref err r) = proj r) →
  ∀ item r, proj (filled results now pid item r) = proj r.
Proof.
  intros Hproj item r. unfold filled.
  destruct (List.find _ results) as [m|]; [|done].
  by destruct (truthy _).
Qed.

(** X13.  With unique item ids and a gateway that returns a transaction
    reference for every entry it is sent, an invocation that returned
    leaves no item eligible: invoking the worker again on the resulting
    store makes no network call and changes nothing. *)
Theorem reinvocation_submits_nothing (net : Network) (now now2 : Z) (c : t)
    (s : Store) (pid : Z) :
  unique_ids s →
  answers_every_entry net →
  let run1 := processBulkPayroll net now c s pid in
  outcome run1 = Ok () →
  processBulkPayroll net now2 (client run1) (store run1) pid
  = mkRun (store run1) (client run1) [] (Ok ()).
Proof.
  intros Hpk Hecho run1 Hok.
  set (items := PayrollItemModel.findByPayrollId s pid).
  set (pay := payable items).
  assert (payable (PayrollItemModel.findByPayrollId (store run1) pid) = [])
    as Hnone.
  2:{ unfold processBulkPayroll at 1. by rewrite Hnone. }
  destruct (decide (pay = [])) as [Hnil|Hpay].
  { assert (run1 = mkRun s c [] (Ok ())) as ->; [|done].
    subst run1. unfold processBulkPayroll. fold items pay.
    by rewrite bool_decide_eq_true_2. }
  destruct (process_run net now c s pid Hpay)
    as (s2 & Hi2 & He2 & _ & Hcases). fold items pay run1 in Hi2, Hcases.
  destruct Hcases as [(msg & Hout & _)
                     |(resp & body & _ & _ & _ & Hpost & Hrefs & Hstore)].
  { by rewrite Hout in Hok. }
  destruct (Hecho body) as (resp' & Hpost' & _ & Hfind).
  rewrite Hpost in Hpost'. injection Hpost' as <-.
  set (h := λ row, row_fold (filled (r_transactionList resp) now pid) pay
                     (row_fold (marked now) pay row)).
  destruct (backfill_rows (r_transactionList resp) now pid pay s2)
    as (Hi3 & _ & He3).
  assert (payroll_items (store run1) = h <$> payroll_items s) as Hitems.
  { rewrite Hstore.
    change (payroll_items (updatePayrollStats ?x _ _))
      with (payroll_items x).
    rewrite Hi3, Hi2, <-list_fmap_compose. done. }
  assert (employees (store run1) = employees s) as Hemp.
  { rewrite Hstore.
    change (employees (updatePayrollStats ?x _ _)) with (employees x).
    by rewrite He3, He2. }
  rewrite (findByPayrollId_ext (store run1) (with_items s (h <$> payroll_items s))
             pid Hitems Hemp).
  unfold PayrollItemModel.findByPayrollId. simpl.
  rewrite filter_fmap_stable.
  2:{ intros row. unfold PayrollItemModel.joined, h.
      rewrite !(row_fold_keeps PayrollItem.payroll_id),
              !(row_fold_keeps PayrollItem.employee_id); try done;
        by apply filled_keeps. }
  fold (PayrollItemModel.findByPayrollId s pid). fold items.
  unfold payable. apply filter_none, list.Forall_forall.
  intros row' (it & -> & Hin)%list_elem_of_fmap.
  assert (it ∈ payroll_items s) as Hrow.
  { unfold items, PayrollItemModel.findByPayrollId in Hin.
    apply list_elem_of_filter in Hin. tauto. }
  assert (∀ row f,
            PayrollItem.id row = PayrollItem.id it →
            (∀ item r, PayrollItem.id (f item r) = PayrollItem.id r) →
            row_fold f pay row
            = if decide (it ∈ pay) then f it row else row) as Hown.
  { intros row f Hid Hf. apply row_fold_own; try done.
    - by apply payable_NoDup.
    - intros item Hitem Hsame. apply (unique_ids_inj s); try done.
      by eapply payable_of_store. }
  unfold h. rewrite (Hown it (marked now) eq_refl (marked_id now)).
  destruct (decide (it ∈ pay)) as [Hinpay|Hnotpay].
  - rewrite (Hown (marked now it it) _ eq_refl
               (filled_id (r_transactionList resp) now pid)).
    rewrite ?decide_True by done.
    assert (payrollReference pid (PayrollItem.id it)
            ∈ e_reference <$> transactionList body) as Href.
    { rewrite Hrefs.
      by apply (list_elem_of_fmap_2
                  (λ i, payrollReference pid (PayrollItem.id i))). }
    apply list_elem_of_fmap in Href as (e & Heq & He).
    destruct (Hfind e He) as (m & Hm & Htx).
    unfold filled. rewrite Heq, Hm, Htx.
    unfold eligible. simpl. by rewrite !Htx.
  - rewrite (Hown it _ eq_refl
               (filled_id (r_transactionList resp) now pid)).
    rewrite ?decide_False by done.
    intros Hel. apply Hnotpay. unfold pay, payable.
    apply list_elem_of_filter. by split.
Qed.
End Reinvocation.

Lemma sample_network_answers_every_entry :
  Submission.answers_every_entry Sample.network.
Proof.
  intros body. eexists. split; [reflexivity|]. split; [reflexivity|].
  simpl. intros e He.
  induction (MonnifyClient.transactionList body) as [|e' l IH].
  { by apply elem_of_nil in He. }
  simpl. case_bool_decide as Heq.
  - eexists. split; [done|]. simpl.
    destruct (MonnifyClient.e_reference e'); done.
  - apply IH. apply elem_of_cons in He as [->|He]; [done|exact He].
Defined.

Lemma reinvocation_submits_nothing_witness :
  let run1 :=
    PayrollProcessor.processBulkPayroll Sample.network 1000 Sample.client
      Sample.ledger 27 in
  PayrollProcessor.processBulkPayroll Sample.network 2000
    (PayrollProcessor.client run1) (PayrollProcessor.store run1) 27
  = PayrollProcessor.mkRun (PayrollProcessor.store run1)
      (PayrollProcessor.client run1) [] (Ok ()).
Proof.
  apply (reinvocation_submits_nothing Sample.network 1000 2000
           Sample.client Sample.ledger 27).
  - apply sample_ledger_unique_ids.
  - apply sample_network_answers_every_entry.
  - reflexivity.
Defined.

(** ** The gateway client: token reuse and the requests it sends *)

Section Client.
Import MonnifyClient Submission.

(** X14.  After [ensureAuthenticated] succeeded, a client holding a
    non-empty token makes no further login while the clock is before
    [tokenExpiry], and logs in again from that instant on; a login sets
    [tokenExpiry] 23 hours ahead. *)
Theorem token_is_reused_until_expiry (net net' : Network) (now now' : Z)
    (c c1 : t) (calls : list NetCall) :
  ensureAuthenticated net now c = (c1, calls, Ok ()) →
  truthy (accessToken c1) = true →
  (calls = [Login] → tokenExpiry c1 = now + 82800000)
  ∧ now < tokenExpiry c1
  ∧ (now' < tokenExpiry c1 →
     ensureAuthenticated net' now' c1 = (c1, [], Ok ()))
  ∧ (tokenExpiry c1 <= now' →
     (ensureAuthenticated net' now' c1).1.2 = [Login]).
Proof.
  unfold ensureAuthenticated at 1. unfold authenticate.
  intros Hens Htok.
  assert ((calls = [Login] → tokenExpiry c1 = now + 82800000)
          ∧ now < tokenExpiry c1) as [Hlogin Hfresh].
  { destruct (negb (truthy (accessToken c))
              || bool_decide (tokenExpiry c <= now)) eqn:Hc.
    - destruct (login net) as [tok|]; [|done].
      injection Hens as <- <-. simpl. split; [done | lia].
    - injection Hens as <- <-. split; [done|].
      apply orb_false_iff in Hc as [_ Hexp].
      apply bool_decide_eq_false_1 in Hexp. lia. }
  split; [done|]. split; [done|]. split.
  - intros Hbefore. unfold ensureAuthenticated.
    rewrite Htok. simpl. by rewrite bool_decide_eq_false_2 by lia.
  - intros Hafter. unfold ensureAuthenticated, authenticate.
    rewrite Htok. simpl. rewrite bool_decide_eq_true_2 by done.
    by destruct (login net').
Qed.

Lemma validateTransfers_valid transfers :
  Forall (λ tr, (0 < amount tr)%Qc
                ∧ recipientAccountNumber tr ≠ ""
                ∧ recipientBankCode tr ≠ ""
                ∧ recipientName tr ≠ "") transfers →
  validateTransfers transfers = None.
Proof.
  induction 1 as [|tr transfers (Hamt & Hacc & Hbank & Hname) _ IH]; [done|].
  simpl. unfold validateTransfer.
  rewrite (bool_decide_eq_false_2 (amount tr = 0%Qc))
    by (intros Hz; by apply Qclt_not_eq in Hamt).
  rewrite (bool_decide_eq_false_2 (amount tr <= 0)%Qc)
    by (by apply Qclt_not_le).
  by rewrite !bool_decide_eq_false_2 by done.
Qed.

(** X15.  For a non-empty list of transfers that all have a positive
    amount, an account number, a bank code and a recipient name, with the
    contract code configured and authentication succeeding,
    [initiateBulkTransfer] sends exactly one batch request and returns the
    gateway's answer to it.  The request is debited to the contract code,
    asks the gateway to continue past entries it rejects, and lists one NGN
    entry per transfer, in order, with the transfer's amount, reference,
    narration, bank code and account number. *)
Theorem valid_batch_is_posted_once (net : Network) (now : Z) (c : t)
    (transfers : list Transfer) :
  transfers ≠ [] →
  contractCode c ≠ "" →
  Forall (λ tr, (0 < amount tr)%Qc
                ∧ recipientAccountNumber tr ≠ ""
                ∧ recipientBankCode tr ≠ ""
                ∧ recipientName tr ≠ "") transfers →
  (ensureAuthenticated net now c).2 = Ok () →
  let run := initiateBulkTransfer net now c transfers in
  ∃ body,
    filter (λ call, is_post call = true) run.1.2 = [PostBatch body]
    ∧ run.2 = postBatch net body
    ∧ sourceAccountNumber body = contractCode c
    ∧ onValidationFailure body = "CONTINUE"
    ∧ transactionList body
      = (λ tr, mkBatchEntry (amount tr) (reference tr) (narration tr)
                 (recipientBankCode tr) (recipientAccountNumber tr) "NGN")
          <$> transfers.
Proof.
  intros Hne Hcc Hvalid Hauth run. subst run.
  unfold initiateBulkTransfer.
  pose proof (ensureAuthenticated_calls net now c) as Hcalls.
  destruct (ensureAuthenticated net now c) as [[c1 calls] r] eqn:Hens.
  destruct Hcalls as (Hcode & Hc1 & _ & _).
  simpl in Hauth. subst r.
  rewrite bool_decide_eq_false_2 by done.
  rewrite Hcode, bool_decide_eq_false_2 by done.
  rewrite (validateTransfers_valid transfers Hvalid).
  unfold clientPost.
  destruct (ensureAuthenticated_again net now c c1 calls Hens)
    as (c2 & calls2 & Hens2).
  pose proof (ensureAuthenticated_calls net now c1) as Hcalls2.
  rewrite Hens2 in Hcalls2. rewrite Hens2. simpl.
  destruct Hcalls2 as (_ & Hc2 & _ & _).
  exists (requestBody now c1 transfers).
  split; [|by rewrite <-Hcode].
  rewrite !list.filter_app.
  by destruct Hc1 as [->| ->], Hc2 as [->| ->].
Qed.
End Client.

Lemma token_is_reused_until_expiry_witness :
  MonnifyClient.ensureAuthenticated Sample.offline 82800999
    (MonnifyClient.mk "7700112233" (Some "token") 82801000)
  = (MonnifyClient.mk "7700112233" (Some "token") 82801000, [], Ok ()).
Proof.
  destruct (token_is_reused_until_expiry Sample.network Sample.offline
              1000 82800999 Sample.client
              (MonnifyClient.mk "7700112233" (Some "token") 82801000)
              [MonnifyClient.Login] eq_refl eq_refl)
    as (_ & _ & Hreuse & _).
  apply Hreuse. reflexivity.
Defined.

Lemma valid_batch_is_posted_once_witness :
  ∃ body,
    filter (λ call, Submission.is_post call = true)
      (MonnifyClient.initiateBulkTransfer Sample.network 1000 Sample.client
         [Sample.transfer 200 "PAYROLL_27_51"]).1.2
    = [MonnifyClient.PostBatch body]
    ∧ MonnifyClient.e_reference <$> MonnifyClient.transactionList body
      = ["PAYROLL_27_51"].
Proof.
  destruct (valid_batch_is_posted_once Sample.network 1000 Sample.client
              [Sample.transfer 200 "PAYROLL_27_51"])
    as (body & Hcalls & _ & _ & _ & Hlist); try done.
  - constructor; [|constructor]. by repeat split.
  - exists body. split; [exact Hcalls|]. by rewrite Hlist.
Defined.

Section ClientRequests.
Import MonnifyClient MonnifyApi.
Context {Data : Type}.
Implicit Types (api : Endpoints Data) (c : t).

Lemma requests_auth (calls : list NetCall) : requests (Auth <$> calls) = [].
Proof. by induction calls. Qed.

Lemma requests_after_auth (calls : list NetCall) (more : list ApiCall) :
  requests ((Auth <$> calls) ++ more) = requests more.
Proof.
  pose proof (requests_auth calls) as Hnone. unfold requests in *.
  by rewrite list.filter_app, Hnone.
Qed.

Lemma viaClient_authenticated api now c c1 calls call answer :
  ensureAuthenticated (network api) now c = (c1, calls, Ok ()) →
  is_request call = true →
  requests (viaClient api now c1 call answer).1.2 = [call]
  ∧ (viaClient api now c1 call answer).2 = answer.
Proof.
  intros Hens Hcall. unfold viaClient.
  destruct (ensureAuthenticated_again _ _ _ _ _ Hens) as (c2 & calls2 & ->).
  simpl. rewrite requests_after_auth. unfold requests.
  rewrite list.filter_cons_True by done. done.
Qed.

Lemma ensureAuthenticated_threw api now c msg :
  (ensureAuthenticated (network api) now c).2 = Threw msg →
  msg = "Failed to authenticate with Monnify".
Proof.
  pose proof (ensureAuthenticated_calls (network api) now c) as Hcalls.
  destruct (ensureAuthenticated (network api) now c) as [[c1 calls] r].
  destruct Hcalls as (_ & _ & _ & [-> | ->]); simpl; congruence.
Qed.

(** X16.  [authorizeBulkTransfer] of the client sends the authorization
    request at most once: not at all when authentication fails (the error is
    then the authentication error, whatever the arguments), nor when the
    reference or the code is empty (it throws); with both present and
    authentication succeeding it sends exactly one request, carrying the
    reference and the code as given, and returns or throws what that
    request does. *)
Theorem authorization_request_needs_reference_and_code api now c
    (reference authorizationCode : string) :
  let run := authorizeBulkTransfer api now c reference authorizationCode in
  let auth := (ensureAuthenticated (network api) now c).2 in
  (auth ≠ Ok () →
     requests run.1.2 = []
     ∧ run.2 = Threw "Failed to authenticate with Monnify")
  ∧ (reference = "" ∨ authorizationCode = "" →
     requests run.1.2 = [] ∧ ∃ msg, run.2 = Threw msg)
  ∧ (auth = Ok () → reference ≠ "" → authorizationCode ≠ "" →
     requests run.1.2 = [ValidateOtp reference authorizationCode]
     ∧ run.2 = validateOtp api reference authorizationCode).
Proof.
  intros run auth. subst run auth. unfold authorizeBulkTransfer.
  pose proof (ensureAuthenticated_threw api now c) as Hmsg.
  destruct (ensureAuthenticated (network api) now c) as [[c1 calls] r] eqn:Hens.
  simpl in *. destruct r as [[]|msg].
  - split; [done|]. split.
    + intros Hempty. case_bool_decide as Href; simpl.
      { rewrite requests_auth. eauto. }
      case_bool_decide as Hcode; simpl.
      { rewrite requests_auth. eauto. }
      by destruct Hempty.
    + intros _ Href Hcode. rewrite !bool_decide_eq_false_2 by done.
      destruct (viaClient_authenticated api now c c1 calls
                  (ValidateOtp reference authorizationCode)
                  (validateOtp api reference authorizationCode) Hens eq_refl)
        as [Hreq Hans].
      destruct (viaClient _ _ _ _ _) as [[c2 calls2] r2]. simpl in *.
      by rewrite requests_after_auth.
  - rewrite (Hmsg msg eq_refl). simpl. rewrite requests_auth.
    split; [done|]. split; [eauto|done].
Qed.

(** X17.  [getBatchDetails] throws without sending its request when the
    batch reference is empty; [getTransactionStatus] has no such check and
    asks the gateway about whatever reference it is given.  Otherwise both
    send exactly one request, for the reference as given, once
    authentication succeeded, and none when it failed. *)
Theorem lookups_send_one_request api now c (reference : string) :
  let details := getBatchDetails api now c reference in
  let status := getTransactionStatus api now c reference in
  let auth := (ensureAuthenticated (network api) now c).2 in
  (auth ≠ Ok () →
     requests details.1.2 = [] ∧ requests status.1.2 = []
     ∧ details.2 = Threw "Failed to authenticate with Monnify"
     ∧ status.2 = Threw "Failed to authenticate with Monnify")
  ∧ (auth = Ok () →
     requests status.1.2 = [GetStatus reference]
     ∧ status.2 = transactionStatus api reference
     ∧ (reference = "" →
        requests details.1.2 = []
        ∧ details.2 = Threw "Batch reference is required")
     ∧ (reference ≠ "" →
        requests details.1.2 = [GetBatch reference]
        ∧ details.2 = batchDetails api reference)).
Proof.
  intros details status auth. subst details status auth.
  unfold getBatchDetails, getTransactionStatus.
  pose proof (ensureAuthenticated_threw api now c) as Hmsg.
  destruct (ensureAuthenticated (network api) now c) as [[c1 calls] r] eqn:Hens.
  simpl in *. destruct r as [[]|msg].
  - split; [done|]. intros _.
    destruct (viaClient_authenticated api now c c1 calls
                (GetStatus reference) (transactionStatus api reference)
                Hens eq_refl) as [Hreq Hans].
    destruct (viaClient api now c1 (GetStatus reference) _)
      as [[c2 calls2] r2]. simpl in *.
    rewrite requests_after_auth. split; [done|]. split; [done|]. split.
    + intros ->. simpl. by rewrite requests_auth.
    + intros Href. rewrite bool_decide_eq_false_2 by done.
      destruct (viaClient_authenticated api now c c1 calls
                  (GetBatch reference) (batchDetails api reference)
                  Hens eq_refl) as [Hreq' Hans'].
      destruct (viaClient api now c1 (GetBatch reference) _)
        as [[c3 calls3] r3]. simpl in *.
      by rewrite requests_after_auth.
  - rewrite (Hmsg msg eq_refl). simpl. rewrite requests_auth.
    split; [done|]. intros [=].
Qed.
End ClientRequests.

Lemma authorization_request_needs_reference_and_code_witness :
  MonnifyApi.requests
    (MonnifyApi.authorizeBulkTransfer SampleApi.endpoints 1000 Sample.client
       "BATCH_1000" "123456").1.2
  = [MonnifyApi.ValidateOtp "BATCH_1000" "123456"]
  ∧ MonnifyApi.requests
      (MonnifyApi.authorizeBulkTransfer SampleApi.endpoints 1000
         Sample.client "BATCH_1000" "").1.2
    = [].
Proof.
  split.
  - by apply (authorization_request_needs_reference_and_code
                SampleApi.endpoints 1000 Sample.client "BATCH_1000" "123456").
  - apply (authorization_request_needs_reference_and_code
             SampleApi.endpoints 1000 Sample.client "BATCH_1000" "").
    by right.
Defined.

Lemma lookups_send_one_request_witness :
  (MonnifyApi.getBatchDetails SampleApi.endpoints 1000 Sample.client
     "BATCH_1000").2
  = Ok "batch BATCH_1000"
  ∧ (MonnifyApi.getBatchDetails SampleApi.endpoints 1000 Sample.client "").2
    = Threw "Batch reference is required".
Proof.
  destruct (lookups_send_one_request SampleApi.endpoints 1000 Sample.client
              "BATCH_1000") as [_ Hsent].
  destruct (lookups_send_one_request SampleApi.endpoints 1000 Sample.client
              "") as [_ Hempty].
  split.
  - destruct (Hsent eq_refl) as (_ & _ & _ & Hsome).
    by destruct Hsome as [_ ->].
  - destruct (Hempty eq_refl) as (_ & _ & Hnone & _).
    by destruct (Hnone eq_refl) as [_ ->].
Defined.

(** ** Starting a batch and reading its status *)

Lemma findByPayrollId_fmap (s s' : Store) (h : PayrollItem.t → PayrollItem.t)
    (pid : Z) :
  payroll_items s' = h <$> payroll_items s →
  employees s' = employees s →
  (∀ row, PayrollItem.payroll_id (h row) = PayrollItem.payroll_id row) →
  (∀ row, PayrollItem.employee_id (h row) = PayrollItem.employee_id row) →
  PayrollItemModel.findByPayrollId s' pid
  = h <$> PayrollItemModel.findByPayrollId s pid.
Proof.
  intros Hitems Hemp Hpid Heid.
  rewrite (findByPayrollId_ext s' (with_items s (h <$> payroll_items s))
             pid Hitems Hemp).
  unfold PayrollItemModel.findByPayrollId. simpl.
  apply filter_fmap_stable.
  intros row. unfold PayrollItemModel.joined. simpl.
  by rewrite Hpid, Heid.
Qed.

Section WorkerStatus.
Import MonnifyClient PayrollProcessor Rows.

Lemma row_fold_status_stays (f : PayrollItem.t → PayrollItem.t → PayrollItem.t)
    (st : PayrollStatus) items row :
  (∀ item r, PayrollItem.status r = st → PayrollItem.status (f item r) = st) →
  PayrollItem.status row = st →
  PayrollItem.status (row_fold f items row) = st.
Proof.
  intros Hf. revert row. induction items as [|x items IH]; intros row Hrow.
  - done.
  - change (row_fold f (x :: items) row)
      with (row_fold f items (on_row f x row)).
    apply IH. unfold on_row. case_bool_decide; [by apply Hf | done].
Qed.

Lemma marked_in_flight now items it row :
  it ∈ items →
  PayrollItem.id row = PayrollItem.id it →
  PayrollItem.status (row_fold (marked now) items row) = PROCESSING.
Proof.
  revert row. induction items as [|x items IH]; intros row Hin Hid.
  - by apply elem_of_nil in Hin.
  - change (row_fold (marked now) (x :: items) row)
      with (row_fold (marked now) items (on_row (marked now) x row)).
    apply elem_of_cons in Hin as [<- | Hin].
    + apply (row_fold_status_stays (marked now) PROCESSING); [done|].
      unfold on_row. by rewrite bool_decide_eq_true_2.
    + apply IH; [done|]. by rewrite on_row_id.
Qed.

Lemma filled_in_flight results now pid item r :
  PayrollItem.status r = PROCESSING →
  PayrollItem.status (filled results now pid item r) = PROCESSING.
Proof.
  intros Hr. unfold filled. destruct (List.find _ _) as [m|]; [|done].
  by destruct (truthy _).
Qed.

(** X18.  An invocation of the worker that finds something to pay leaves
    the batch open, whatever the gateway does: afterwards the batch is
    PROCESSING or PARTIALLY_COMPLETED, never COMPLETED or FAILED, and it is
    PROCESSING with its counters untouched when the invocation threw. *)
Theorem run_leaves_batch_open (net : Network) (now : Z) (c : t) (s : Store)
    (pid : Z) (p : Payroll.t) :
  PayrollModel.findById s pid = Some p →
  payable (PayrollItemModel.findByPayrollId s pid) ≠ [] →
  let run := processBulkPayroll net now c s pid in
  ∃ p',
    PayrollModel.findById (store run) pid = Some p'
    ∧ (Payroll.status p' = PROCESSING
       ∨ Payroll.status p' = PARTIALLY_COMPLETED)
    ∧ (outcome run ≠ Ok () →
       Payroll.status p' = PROCESSING
       ∧ Payroll.processed_count p' = Payroll.processed_count p
       ∧ Payroll.failed_count p' = Payroll.failed_count p).
Proof.
  intros Hp Hpay run.
  set (pay := payable (PayrollItemModel.findByPayrollId s pid)) in *.
  destruct (process_run net now c s pid Hpay)
    as (s2 & Hi2 & He2 & Hp2 & Hcases). fold pay run in Hi2, Hcases.
  assert (payrolls s2 !! pid
          = Some (PayrollModel.updated now PROCESSING None None p)) as Hrow.
  { rewrite Hp2, payroll_lookup_updateStatus, decide_True by done.
    unfold PayrollModel.findById in Hp. by rewrite Hp. }
  destruct Hcases as [(msg & Hout & Hstore)
                     |(resp & body & Hout & _ & _ & _ & _ & Hstore)].
  - exists (PayrollModel.updated now PROCESSING None None p).
    unfold PayrollModel.findById. rewrite Hstore. split; [done|].
    split; [by left|]. done.
  - set (s3 := foldl (backfill (r_transactionList resp) now pid) s2 pay)
      in Hstore.
    destruct (backfill_rows (r_transactionList resp) now pid pay s2)
      as (Hi3 & Hp3 & He3). fold s3 in Hi3, Hp3, He3.
    set (h := λ row, row_fold (filled (r_transactionList resp) now pid) pay
                       (row_fold (marked now) pay row)).
    assert (PayrollItemModel.findByPayrollId s3 pid
            = h <$> PayrollItemModel.findByPayrollId s pid) as Hitems.
    { apply findByPayrollId_fmap.
      - by rewrite Hi3, Hi2, <-list_fmap_compose.
      - by rewrite He3, He2.
      - intros row. unfold h.
        rewrite !(row_fold_keeps PayrollItem.payroll_id); try done.
        by apply filled_keeps.
      - intros row. unfold h.
        rewrite !(row_fold_keeps PayrollItem.employee_id); try done.
        by apply filled_keeps. }
    assert (∃ row, row ∈ PayrollItemModel.findByPayrollId s3 pid
                   ∧ PayrollItem.status row = PROCESSING)
      as (row & Hin & Hst).
    { destruct pay as [|it pay'] eqn:Heq; [done|].
      assert (it ∈ pay) as Hit by (rewrite Heq; apply list_elem_of_here).
      exists (h it). split.
      - rewrite Hitems. apply list_elem_of_fmap_2.
        unfold pay, payable in Hit.
        apply list_elem_of_filter in Hit. tauto.
      - unfold h. rewrite <-Heq.
        apply (row_fold_status_stays _ PROCESSING).
        + intros item r. apply filled_in_flight.
        + by apply (marked_in_flight now pay it). }
    assert (∀ st, st ≠ PROCESSING →
              count_status st (PayrollItemModel.findByPayrollId s3 pid)
              ≠ length (PayrollItemModel.findByPayrollId s3 pid)) as Hnot.
    { intros st Hst' Hall. apply count_status_all in Hall.
      rewrite list.Forall_forall in Hall. specialize (Hall row Hin).
      congruence. }
    eexists. unfold PayrollModel.findById. rewrite Hstore.
    unfold updatePayrollStats.
    rewrite payroll_lookup_updateStatus, decide_True by done.
    rewrite Hp3, Hrow. simpl. split; [done|].
    rewrite !bool_decide_eq_false_2 by (by apply Hnot).
    split; [|by rewrite Hout]. case_bool_decide; [by right | by left].
Qed.

(** X19.  After an invocation of the worker that found something to pay
    and threw, [processPayroll] refuses the batch: it answers 400 with
    "Payroll already processing" and puts nothing on the queue. *)
Theorem failed_run_blocks_reprocessing (net : Network) (now : Z) (c : t)
    (s : Store) (pid : Z) (queue : list PayrollApi.Job) :
  is_Some (PayrollModel.findById s pid) →
  payable (PayrollItemModel.findByPayrollId s pid) ≠ [] →
  let run := processBulkPayroll net now c s pid in
  outcome run ≠ Ok () →
  PayrollApi.processPayroll (store run) queue pid
  = (queue, PayrollApi.ProcessError 400 "Payroll already processing").
Proof.
  intros [p Hp] Hpay run Hout.
  destruct (process_run net now c s pid Hpay)
    as (s2 & _ & _ & Hp2 & Hcases). fold run in Hcases.
  destruct Hcases as [(msg & _ & Hstore)|(resp & body & Hok & _)];
    [|by rewrite Hok in Hout].
  unfold PayrollApi.processPayroll, PayrollModel.findById.
  rewrite Hstore, Hp2, payroll_lookup_updateStatus, decide_True by done.
  unfold PayrollModel.findById in Hp. by rewrite Hp.
Qed.
End WorkerStatus.

Lemma run_leaves_batch_open_witness :
  ∃ p',
    PayrollModel.findById
      (PayrollProcessor.store
         (PayrollProcessor.processBulkPayroll Sample.network 1000
            Sample.client Sample.ledger 27)) 27 = Some p'
    ∧ (Payroll.status p' = PROCESSING
       ∨ Payroll.status p' = PARTIALLY_COMPLETED).
Proof.
  destruct (run_leaves_batch_open Sample.network 1000 Sample.client
              Sample.ledger 27 (Sample.payroll 27 PROCESSING))
    as (p' & Hp' & Hst & _); [done|done|].
  by exists p'.
Defined.

Lemma failed_run_blocks_reprocessing_witness :
  PayrollApi.processPayroll
    (PayrollProcessor.store
       (PayrollProcessor.processBulkPayroll Sample.offline 1000
          Sample.client Sample.fresh 99)) [] 99
  = ([], PayrollApi.ProcessError 400 "Payroll already processing").
Proof.
  by apply (failed_run_blocks_reprocessing Sample.offline 1000 Sample.client
              Sample.fresh 99 []).
Defined.

Section StatusSummary.
Import PayrollApi.

Lemma status_partition (items : list PayrollItem.t) :
  length items
  = (count_status COMPLETED items + count_status FAILED items
     + count_status PENDING items + count_status PROCESSING items
     + count_status PARTIALLY_COMPLETED items)%nat.
Proof.
  unfold count_status. induction items as [|it items IH]; [done|].
  rewrite !filter_cons. simpl.
  destruct (PayrollItem.status it);
    repeat (case_decide; try done); simpl; lia.
Qed.

(** X20.  The summary of [getPayrollStatus] counts every item of the batch
    once, except items whose status is partially_completed: [total] is the
    sum of the four counts and of the number of such items, and equals the
    sum of the four counts when no item of the store has that status. *)
Theorem status_summary_adds_up (s : Store) (id : Z) (payroll : Payroll.t)
    (items : list PayrollItem.t) (summary : StatusSummary) :
  getPayrollStatus s id = StatusData payroll items summary →
  total summary
  = (completed summary + failed summary + pending summary
     + processing summary + count_status PARTIALLY_COMPLETED items)%nat
  ∧ (Forall (λ it, PayrollItem.status it ≠ PARTIALLY_COMPLETED)
            (payroll_items s) →
     total summary
     = (completed summary + failed summary + pending summary
        + processing summary)%nat).
Proof.
  unfold getPayrollStatus.
  destruct (PayrollModel.findById s id) as [p|]; [|done].
  intros [= <- <- <-]. simpl.
  pose proof (status_partition
                (PayrollItemModel.findByPayrollId s (Payroll.id p))) as Hsum.
  split; [done|]. intros Hnone.
  assert (count_status PARTIALLY_COMPLETED
            (PayrollItemModel.findByPayrollId s (Payroll.id p)) = 0%nat)
    as Hzero; [|lia].
  unfold count_status. rewrite filter_none; [done|].
  apply list.Forall_forall. intros it Hin.
  rewrite list.Forall_forall in Hnone. apply Hnone.
  unfold PayrollItemModel.findByPayrollId in Hin.
  apply list_elem_of_filter in Hin. tauto.
Qed.

(** X21.  Reading a batch right after a recompute of its aggregate: the
    counters stored on the batch are the [completed] and [failed] counts of
    the summary, computed over the same items, and the stored status is the
    aggregate of these counts.  The batch row is assumed to be filed under
    its own id. *)
Theorem recompute_then_read (s : Store) (now id : Z) (p : Payroll.t) :
  PayrollModel.findById s id = Some p →
  Payroll.id p = id →
  ∃ p' summary,
    getPayrollStatus (PayrollController.updatePayrollStats s now id) id
    = StatusData p' (PayrollItemModel.findByPayrollId s id) summary
    ∧ Payroll.processed_count p' = completed summary
    ∧ Payroll.failed_count p' = failed summary
    ∧ Payroll.status p'
      = spec_aggregate (completed summary) (failed summary) (total summary).
Proof.
  intros Hp Hid. rewrite updatePayrollStats_controller.
  pose proof (updatePayrollStats_spec s now id) as Hspec. simpl in Hspec.
  rewrite Hspec. unfold getPayrollStatus, PayrollModel.findById.
  rewrite payroll_lookup_updateStatus, decide_True by done.
  unfold PayrollModel.findById in Hp. rewrite Hp. simpl. rewrite Hid.
  set (s' := PayrollModel.updateStatus s now id _ _ _).
  rewrite (findByPayrollId_ext s' s id) by done.
  eexists _, _. split; [done|]. done.
Qed.
End StatusSummary.

Lemma status_summary_adds_up_witness :
  ∃ summary,
    PayrollApi.total summary = 3%nat
    ∧ PayrollApi.total summary
      = (PayrollApi.completed summary + PayrollApi.failed summary
         + PayrollApi.pending summary + PayrollApi.processing summary)%nat.
Proof.
  eexists. split; [|
    apply (status_summary_adds_up Sample.settled 27 _ _ _ eq_refl);
    repeat constructor; done].
  reflexivity.
Defined.

Lemma recompute_then_read_witness :
  ∃ p' summary,
    PayrollApi.getPayrollStatus
      (PayrollController.updatePayrollStats Sample.settled 1000 27) 27
    = PayrollApi.StatusData p'
        (PayrollItemModel.findByPayrollId Sample.settled 27) summary
    ∧ Payroll.status p' = PARTIALLY_COMPLETED.
Proof.
  destruct (recompute_then_read Sample.settled 1000 27
              (Sample.payroll 27 PROCESSING) eq_refl eq_refl)
    as (p' & summary & Hread & _ & _ & Hst).
  exists p', summary. split; [exact Hread|].
  rewrite Hst. clear Hst. vm_compute in Hread.
  by injection Hread as <- <-.
Defined.

(** ** What no operation rewrites *)

Section LedgerFrame.
Import Ledger.

Lemma Forall2_compose {A} (R : A → A → Prop) (l1 l2 l3 : list A) :
  (∀ a b c, R a b → R b c → R a c) →
  Forall2 R l1 l2 → Forall2 R l2 l3 → Forall2 R l1 l3.
Proof.
  intros HR H12. revert l3.
  induction H12; intros l3 H23; inversion H23; subst; constructor; eauto.
Qed.

Lemma Forall2_fmap_self {A} (R : A → A → Prop) (f : A → A) (l : list A) :
  (∀ x, R x (f x)) → Forall2 R l (f <$> l).
Proof. intros HR. induction l; constructor; auto. Qed.

Lemma rewritten_refl row : rewritten row row.
Proof. unfold rewritten. tauto. Qed.

Lemma rewritten_trans a b c : rewritten a b → rewritten b c → rewritten a c.
Proof.
  unfold rewritten.
  intros (-> & -> & -> & -> & -> & Hab) (-> & -> & -> & -> & -> & Hbc).
  repeat split; try done.
  destruct Hbc as [-> | Hbc]; [done | by right].
Qed.

Lemma rewritten_updated now st ref err row :
  st ∈ [PROCESSING; COMPLETED; FAILED] →
  rewritten row (PayrollItemModel.updated now st ref err row).
Proof. intros Hst. unfold rewritten. simpl. tauto. Qed.

Lemma recounted_refl p : recounted p p.
Proof. unfold recounted. tauto. Qed.

Lemma recounted_trans a b c : recounted a b → recounted b c → recounted a c.
Proof.
  unfold recounted.
  by intros (-> & -> & -> & -> & ->) (-> & -> & -> & -> & ->).
Qed.

Lemma evolves_refl s : evolves s s.
Proof.
  split; [done|]. split.
  - apply Forall_Forall2_diag, list.Forall_forall. intros row _.
    apply rewritten_refl.
  - intros i. destruct (payrolls s !! i); constructor. apply recounted_refl.
Qed.

Lemma evolves_trans s1 s2 s3 : evolves s1 s2 → evolves s2 s3 → evolves s1 s3.
Proof.
  intros (He12 & Hi12 & Hp12) (He23 & Hi23 & Hp23).
  split; [congruence|]. split.
  - eapply Forall2_compose; [apply rewritten_trans|done|done].
  - intros i. specialize (Hp12 i). specialize (Hp23 i).
    destruct Hp12 as [a b Hab|]; inversion Hp23; subst; constructor.
    by eapply recounted_trans.
Qed.

Lemma evolves_item s now i st ref err :
  st ∈ [PROCESSING; COMPLETED; FAILED] →
  evolves s (PayrollItemModel.updateStatus s now i st ref err).
Proof.
  intros Hst. split; [done|]. split.
  - simpl. apply Forall2_fmap_self.
    intros row. simpl. case_bool_decide.
    + by apply rewritten_updated.
    + apply rewritten_refl.
  - intros j. simpl. destruct (payrolls s !! j); constructor.
    apply recounted_refl.
Qed.

Lemma evolves_payroll s now i st pc fc :
  evolves s (PayrollModel.updateStatus s now i st pc fc).
Proof.
  split; [done|]. split.
  - simpl. apply Forall_Forall2_diag, list.Forall_forall. intros row _.
    apply rewritten_refl.
  - intros j. rewrite payroll_lookup_updateStatus.
    destruct (decide (i = j)), (payrolls s !! j); constructor;
      try apply recounted_refl.
    unfold Ledger.recounted. simpl. tauto.
Qed.

Lemma evolves_stats s now pid :
  evolves s (PayrollProcessor.updatePayrollStats s now pid).
Proof. unfold PayrollProcessor.updatePayrollStats. apply evolves_payroll. Qed.

Lemma evolves_foldl {A B} (proj : B → Store) (step : B → A → B)
    (items : list A) (b : B) :
  (∀ b x, evolves (proj b) (proj (step b x))) →
  evolves (proj b) (proj (foldl step b items)).
Proof.
  intros Hstep. revert b. induction items as [|x items IH]; intros b.
  - apply evolves_refl.
  - simpl. eapply evolves_trans; [apply Hstep | apply IH].
Qed.

Lemma evolves_buildTransfers s now pid items acc :
  evolves s (PayrollProcessor.buildTransfers s now pid items acc).1.
Proof.
  revert s acc. induction items as [|item items IH]; intros s acc.
  - apply evolves_refl.
  - simpl. destruct (EmployeeModel.findById s _); [|apply evolves_refl].
    eapply evolves_trans; [|apply IH].
    apply evolves_item. set_solver.
Qed.

Lemma evolves_backfill results now pid s item :
  evolves s (PayrollProcessor.backfill results now pid s item).
Proof.
  unfold PayrollProcessor.backfill.
  destruct (List.find _ _) as [m|]; [|apply evolves_refl].
  destruct (truthy _); [|apply evolves_refl].
  apply evolves_item. set_solver.
Qed.

Lemma evolves_reconcileItem gateway now w item :
  evolves (PayrollController.store w)
    (PayrollController.store
       (PayrollController.reconcileItem gateway now w item)).
Proof.
  rewrite reconcileItem_action.
  destruct (Reconciliation.action gateway item) as [| st msg |] eqn:Hact;
    simpl; try apply evolves_refl.
  apply evolves_item.
  unfold Reconciliation.action in Hact.
  destruct (gateway _); [|done].
  repeat (destruct (_ && _) in Hact; [injection Hact as <- _; set_solver|]).
  done.
Qed.

Lemma evolves_attachReference results now pid acc item :
  evolves acc.1
    (BulkAuthorization.attachReference results now pid acc item).1.
Proof.
  unfold BulkAuthorization.attachReference.
  destruct (List.find _ _) as [m|]; [|apply evolves_refl].
  destruct (truthy _); [|apply evolves_refl].
  destruct (negb _); [|apply evolves_refl].
  apply evolves_item. set_solver.
Qed.

Lemma evolves_reconcileAuthorized gateway now acc item :
  evolves acc.1
    (BulkAuthorization.reconcileAuthorized gateway now acc item).1.
Proof.
  unfold BulkAuthorization.reconcileAuthorized.
  destruct (gateway _); [|apply evolves_refl].
  repeat (destruct (_ && _); [apply evolves_item; set_solver|]).
  apply evolves_refl.
Qed.

Lemma evolves_followUp {Data} this (client : BulkAuthorization.Client Data)
    now s pid details :
  evolves s (BulkAuthorization.followUp this client now s pid details).1.1.
Proof.
  unfold BulkAuthorization.followUp.
  set (results := match BulkAuthorization.transactionList _ with
                  | Some l => l
                  | None => _
                  end).
  set (items := PayrollItemModel.findByPayrollId s pid).
  pose proof (evolves_foldl fst
                (BulkAuthorization.attachReference results now pid)
                items (s, 0%nat)
                (evolves_attachReference results now pid)) as H1.
  destruct (foldl (BulkAuthorization.attachReference results now pid) _ _)
    as [s1 n1].
  pose proof (evolves_foldl fst
                (BulkAuthorization.reconcileAuthorized
                   (BulkAuthorization.getTransactionStatus client) now)
                (PayrollController.itemsToReconcile items) (s1, 0%nat)
                (evolves_reconcileAuthorized _ now)) as H2.
  destruct (foldl (BulkAuthorization.reconcileAuthorized _ now) _ _)
    as [s2 n2].
  simpl in *.
  assert (evolves s s2) as Hs2.
  { eapply evolves_trans; [exact H1 | exact H2]. }
  destruct this; simpl; [|done].
  eapply evolves_trans; [exact Hs2 | apply evolves_stats].
Qed.

(** X22.  The notification receiver, the reconciler (with either
    receiver), the queue worker and the authorization endpoint never add,
    remove or reorder a row, never
    touch an employee, and leave the identity of every item (id, batch,
    employee, amount, creation time) and of every batch (id, period, total
    amount, number of employees, creation time) as it was.  A status they
    write on an item is PROCESSING, COMPLETED or FAILED: no item is ever
    put back to PENDING or made PARTIALLY_COMPLETED. *)
Theorem operations_rewrite_status_columns_only :
  (∀ Number s now req,
     evolves s (MonnifyWebhook.handler Number s now req).1)
  ∧ (∀ gateway now s id,
       evolves s (PayrollController.reconcilePayroll gateway now s id).1)
  ∧ (∀ net now c s pid,
       evolves s
         (PayrollProcessor.store
            (PayrollProcessor.processBulkPayroll net now c s pid)))
  ∧ (∀ Data this (client : BulkAuthorization.Client Data) now s body,
       evolves s
         (BulkAuthorization.authorizeBulkTransfer this client now s body).1)
  ∧ (∀ this typeError gateway now s id,
       evolves s
         (ReconcileHandler.reconcilePayroll this typeError gateway now s
            id).1).
Proof.
  split; [|split; [|split; [|split]]].
  - intros Number s now req. unfold MonnifyWebhook.handler.
    repeat (case_match; try apply evolves_refl).
    unfold MonnifyWebhook.applyEvent. simpl.
    rewrite updatePayrollStats_webhook.
    eapply evolves_trans; [|apply evolves_stats].
    repeat (case_match; try apply evolves_refl);
      apply evolves_item; set_solver.
  - intros gateway now s id. unfold PayrollController.reconcilePayroll.
    repeat (case_match; try apply evolves_refl). simpl.
    rewrite updatePayrollStats_controller.
    eapply evolves_trans; [|apply evolves_stats].
    apply (evolves_foldl PayrollController.store).
    intros w item. apply evolves_reconcileItem.
  - intros net now c s pid. unfold PayrollProcessor.processBulkPayroll.
    case_bool_decide; [apply evolves_refl|].
    pose proof (evolves_buildTransfers
                  (PayrollModel.updateStatus s now pid PROCESSING None None)
                  now pid
                  (PayrollProcessor.payable
                     (PayrollItemModel.findByPayrollId s pid)) []) as Hb.
    destruct (PayrollProcessor.buildTransfers _ _ _ _ _) as [s2 r].
    simpl in Hb.
    assert (evolves s s2) as Hs2.
    { eapply evolves_trans; [apply evolves_payroll | exact Hb]. }
    destruct r as [transfers|msg]; [|done].
    destruct (MonnifyClient.initiateBulkTransfer _ _ _ _) as [[c1 calls] r].
    destruct r as [[resp|]|msg]; try done.
    destruct (MonnifyClient.requestSuccessful resp); [|done]. simpl.
    eapply evolves_trans; [exact Hs2|].
    eapply evolves_trans; [|apply evolves_stats].
    apply (evolves_foldl id). intros b x. apply evolves_backfill.
  - intros Data this client now s body.
    unfold BulkAuthorization.authorizeBulkTransfer.
    destruct (negb (truthy (BulkAuthorization.reference body)));
      [apply evolves_refl|].
    destruct (negb (truthy (BulkAuthorization.authorizationCode body)));
      [apply evolves_refl|].
    destruct (BulkAuthorization.authorize client _ _) as [data|msg];
      [|apply evolves_refl].
    destruct (BulkAuthorization.payrollId body) as [pid|];
      [|apply evolves_refl].
    case_bool_decide; [apply evolves_refl|].
    destruct (BulkAuthorization.getBatchDetails client _) as [details|];
      [|apply evolves_refl].
    pose proof (evolves_followUp this client now s pid details) as Hf.
    destruct (BulkAuthorization.followUp this client now s pid details)
      as [[s' bu] k].
    done.
  - intros this typeError gateway now s id.
    unfold ReconcileHandler.reconcilePayroll.
    destruct (PayrollModel.findById s id); [|apply evolves_refl].
    case_bool_decide; [apply evolves_refl|].
    assert (evolves s
              (PayrollController.store
                 (foldl (PayrollController.reconcileItem gateway now)
                    (PayrollController.mkSweep s 0 0)
                    (PayrollController.itemsToReconcile
                       (PayrollItemModel.findByPayrollId s id))))) as Hw.
    { apply (evolves_foldl PayrollController.store
               (PayrollController.reconcileItem gateway now) _
               (PayrollController.mkSweep s 0 0)).
      intros w item. apply evolves_reconcileItem. }
    destruct this; simpl; [|done].
    rewrite updatePayrollStats_controller.
    eapply evolves_trans; [exact Hw | apply evolves_stats].
Qed.
End LedgerFrame.

(** ** Authorizing a batch *)

Section Authorization.
Import PayrollController Reconciliation Rows BulkAuthorization.
Context {Data : Type}.
Implicit Types (client : Client Data) (body : Body).

Lemma attachReference_newReference results now pid acc item :
  attachReference results now pid acc item
  = match newReference results pid item with
    | Some ref =>
        (PayrollItemModel.updateStatus acc.1 now (PayrollItem.id item)
           PROCESSING (Some ref) None,
         S acc.2)
    | None => acc
    end.
Proof.
  unfold attachReference, newReference.
  destruct (List.find _ _) as [m|]; [|done].
  destruct (MonnifyClient.r_transactionReference m) as [ref|] eqn:Href;
    [|done].
  destruct (truthy (Some ref)); [|done]. simpl.
  by destruct (negb _).
Qed.

Lemma attached_id results now pid item row :
  PayrollItem.id (attached results now pid item row) = PayrollItem.id row.
Proof. unfold attached. by destruct (newReference _ _ _). Qed.

Lemma attachReference_effect results now pid items acc :
  let acc' := foldl (attachReference results now pid) acc items in
  payroll_items acc'.1
  = row_fold (attached results now pid) items <$> payroll_items acc.1
  ∧ payrolls acc'.1 = payrolls acc.1
  ∧ employees acc'.1 = employees acc.1
  ∧ acc'.2
    = (acc.2
       + length (filter (λ item, is_Some (newReference results pid item))
                        items))%nat.
Proof.
  revert acc. induction items as [|item items IH]; intros acc; simpl.
  - rewrite list_fmap_id. repeat split; try done; lia.
  - destruct (IH (attachReference results now pid acc item))
      as (Hi & Hp & He & Hn).
    rewrite Hi, Hp, He, Hn. clear IH Hi Hp He Hn.
    rewrite attachReference_newReference, filter_cons.
    change (row_fold (attached results now pid) (item :: items))
      with (λ row, row_fold (attached results now pid) items
                     (on_row (attached results now pid) item row)).
    unfold on_row, attached.
    destruct (newReference results pid item) as [ref|] eqn:Hnew.
    + rewrite decide_True by done. simpl.
      rewrite <-list_fmap_compose. repeat split; try done; lia.
    + rewrite decide_False by (by intros [? [=]]). simpl.
      repeat split; try done; try lia. apply list_fmap_ext.
      intros _ row _. simpl. by case_bool_decide.
Qed.

Lemma reconcileAuthorized_action gateway now acc item :
  reconcileAuthorized gateway now acc item
  = match action gateway item with
    | Finalize st msg =>
        (PayrollItemModel.updateStatus acc.1 now (PayrollItem.id item) st
           (PayrollItem.transaction_reference item) msg,
         S acc.2)
    | _ => acc
    end.
Proof.
  unfold reconcileAuthorized, action, reported.
  destruct (gateway _) as [tx|]; [|done].
  destruct (_ && _); [done|]. by destruct (_ && _).
Qed.

Lemma reconcileAuthorized_sweep gateway now items acc e :
  let w := foldl (reconcileItem gateway now) (mkSweep acc.1 acc.2 e) items in
  foldl (reconcileAuthorized gateway now) acc items = (store w, updated w).
Proof.
  revert acc e. induction items as [|item items IH]; intros [s n] e; simpl.
  - done.
  - rewrite reconcileAuthorized_action, reconcileItem_action.
    destruct (action gateway item) as [| st msg |]; simpl; apply IH.
Qed.

Lemma findByPayrollId_NoDup s pid :
  unique_ids s → NoDup (PayrollItemModel.findByPayrollId s pid).
Proof. intros Hpk. apply list.NoDup_filter. by eapply NoDup_fmap_1. Qed.

Lemma findByPayrollId_of_store s pid item :
  item ∈ PayrollItemModel.findByPayrollId s pid → item ∈ payroll_items s.
Proof.
  unfold PayrollItemModel.findByPayrollId.
  intros Hin%list_elem_of_filter. tauto.
Qed.

Lemma followUp_listed this client now s pid details :
  let items := PayrollItemModel.findByPayrollId s pid in
  let recon := itemsToReconcile items in
  let gateway := getTransactionStatus client in
  let out := followUp this client now s pid details in
  payroll_items out.1.1
  = (λ row, sweep_row gateway now recon
              (row_fold (attached (listed details) now pid) items row))
      <$> payroll_items s
  ∧ out.1.2
    = mkBatchUpdate
        (length (filter (λ item,
                           is_Some (newReference (listed details) pid item))
                        items))
        (length (listed details))
  ∧ out.2
    = match this with
      | OnClass =>
          Some (length (filter (λ i, is_finalize (action gateway i) = true)
                               recon))
      | Undefined => None
      end
  ∧ (this = Undefined → payrolls out.1.1 = payrolls s).
Proof.
  intros items recon gateway out. subst out. unfold followUp.
  fold items. fold recon.
  change (match transactionList _ with
          | Some l => l
          | None => _
          end) with (listed details).
  destruct (attachReference_effect (listed details) now pid items (s, 0%nat))
    as (Hi1 & Hp1 & _ & Hn1).
  destruct (foldl (attachReference (listed details) now pid) _ items)
    as [s1 n1]. simpl in Hi1, Hp1, Hn1.
  pose proof (reconcileAuthorized_sweep (getTransactionStatus client) now
                recon (s1, 0%nat) 0%nat) as Hsweep.
  simpl in Hsweep. fold gateway in Hsweep. fold gateway. rewrite Hsweep.
  destruct (sweep_effect gateway now recon (mkSweep s1 0 0))
    as (_ & Hp2 & Hi2 & Hn2 & _).
  simpl in Hp2, Hi2, Hn2.
  destruct this; simpl.
  - change (payroll_items (updatePayrollStats ?x _ _)) with (payroll_items x).
    rewrite Hi2, Hi1, <-list_fmap_compose, Hn1, Hn2. done.
  - rewrite Hi2, Hi1, <-list_fmap_compose, Hn1, Hp2, Hp1. done.
Qed.

(** X23.  The follow-up of an authorization, for a request that names a
    batch, once the gateway has authorized and returned the batch details.
    With unique item ids, an item of the batch that already had a gateway
    reference is reconciled against the gateway as the reconciler does; an
    item of the batch without one is given the transaction reference of the
    first listed transaction that carries its correlation reference and is
    put to PROCESSING, whatever its status was, without being looked up;
    every other row is left as it is.  The answer counts the references
    stored and, when the method was called on its class, the items
    finalized; called with an undefined receiver it reports no
    reconciliation and the batch rows are as they were. *)
Theorem authorization_follow_up (this : Receiver) client (now : Z)
    (s : Store) body (pid : Z) (details : BatchDetails) (data : Data) :
  unique_ids s →
  truthy (reference body) = true →
  truthy (authorizationCode body) = true →
  authorize client (default "" (reference body))
    (default "" (authorizationCode body)) = Ok data →
  payrollId body = Some pid →
  pid ≠ 0 →
  getBatchDetails client (default "" (reference body)) = Some details →
  let items := PayrollItemModel.findByPayrollId s pid in
  let gateway := getTransactionStatus client in
  let run := authorizeBulkTransfer this client now s body in
  (∀ k it,
     payroll_items s !! k = Some it →
     payroll_items run.1 !! k
     = Some (if decide (it ∈ items)
             then if truthy (PayrollItem.transaction_reference it)
                  then apply now (action gateway it) it
                  else attached (listed details) now pid it it
             else it))
  ∧ run.2
    = Authorized "Bulk transfer authorized successfully" data
        (Some (mkBatchUpdate
                 (length
                    (filter (λ item,
                               is_Some
                                 (newReference (listed details) pid item))
                            items))
                 (length (listed details))))
        (match this with
         | OnClass =>
             Some (length
                     (filter (λ i, is_finalize (action gateway i) = true)
                             (itemsToReconcile items)))
         | Undefined => None
         end)
  ∧ (this = Undefined → payrolls run.1 = payrolls s).
Proof.
  intros Hpk Href Hcode Hauth Hpid Hnz Hdetails items gateway run.
  subst run. unfold authorizeBulkTransfer.
  rewrite Href, Hcode, Hauth, Hpid. simpl.
  rewrite bool_decide_eq_false_2, Hdetails by done.
  destruct (followUp_listed this client now s pid details)
    as (Hrows & Hbu & Hn & Hp).
  fold items gateway in Hrows, Hbu, Hn.
  destruct (followUp this client now s pid details) as [[s' bu] n].
  simpl in *. subst bu n. split; [|done].
  intros k it Hk. rewrite Hrows, list_lookup_fmap, Hk. simpl. f_equal.
  assert (it ∈ payroll_items s) as Hrow by (by eapply list_elem_of_lookup_2).
  assert (∀ item, item ∈ items →
                  PayrollItem.id item = PayrollItem.id it → item = it)
    as Hsame.
  { intros item Hin Hid. apply (unique_ids_inj s); try done.
    by eapply findByPayrollId_of_store. }
  assert (∀ item row, item ∈ itemsToReconcile items →
                      PayrollItem.id row = PayrollItem.id it →
                      PayrollItem.id item = PayrollItem.id row → item = it)
    as Hswept.
  { intros item row Hin Hid Heq. apply Hsame; [|congruence].
    unfold itemsToReconcile in Hin. apply list_elem_of_filter in Hin. tauto. }
  destruct (decide (it ∈ items)) as [Hin|Hnin].
  - rewrite (row_fold_own _ (attached_id (listed details) now pid)
               items it it) by (try done; by apply findByPayrollId_NoDup).
    rewrite decide_True by done.
    destruct (truthy (PayrollItem.transaction_reference it)) eqn:Htr.
    + assert (attached (listed details) now pid it it = it) as ->.
      { unfold attached, newReference. rewrite Htr.
        destruct (List.find _ _) as [m|]; [|done].
        by rewrite andb_false_r. }
      rewrite sweep_row_own.
      * rewrite decide_True; [done|].
        unfold itemsToReconcile. apply list_elem_of_filter. by split.
      * by apply swept_items_NoDup.
      * intros item Hitem Hid. by eapply (Hswept item it).
    + apply sweep_row_other. intros item Hitem Hid.
      assert (item = it) as ->.
      { eapply (Hswept item); [done| |done]. apply attached_id. }
      unfold itemsToReconcile in Hitem.
      apply list_elem_of_filter in Hitem as [Hhas _]. congruence.
  - rewrite row_fold_other.
    + apply sweep_row_other. intros item Hitem Hid.
      assert (item = it) as -> by (by eapply (Hswept item it)).
      unfold itemsToReconcile in Hitem.
      apply list_elem_of_filter in Hitem. tauto.
    + intros item Hitem Hid. apply Hnin.
      by rewrite <-(Hsame item Hitem Hid).
Qed.

(** X24.  The verdict of [authorizeBulkTransfer] is that of the gateway's
    authorization alone.  Without a reference or a code the answer is a 400
    and when the gateway refuses it is a 500, both with the store as it
    was.  Otherwise the answer is the success message with the gateway's
    data, whatever the receiver is and whatever the batch details and the
    status lookups return; and without a batch id in the request, or when
    the batch details cannot be fetched, the store is as it was and the
    answer reports neither a batch update nor a reconciliation. *)
Theorem authorization_verdict (this : Receiver) client (now : Z) (s : Store)
    body :
  let run := authorizeBulkTransfer this client now s body in
  let asked :=
    authorize client (default "" (reference body))
      (default "" (authorizationCode body)) in
  (truthy (reference body) = false ∨ truthy (authorizationCode body) = false →
     run.1 = s ∧ ∃ error, run.2 = Failure 400 error)
  ∧ (truthy (reference body) = true →
     truthy (authorizationCode body) = true →
     (∀ msg, asked = Threw msg →
        run.1 = s ∧ ∃ error, run.2 = Failure 500 error ∧ error ≠ "")
     ∧ (∀ data, asked = Ok data →
          (∃ batchUpdate reconciliation,
             run.2 = Authorized "Bulk transfer authorized successfully" data
                       batchUpdate reconciliation
             ∧ (batchUpdate = None → reconciliation = None ∧ run.1 = s))
          ∧ (payrollId body = None ∨ payrollId body = Some 0
             ∨ getBatchDetails client (default "" (reference body)) = None →
             run = (s, Authorized "Bulk transfer authorized successfully"
                         data None None)))).
Proof.
  intros run asked. subst run asked. unfold authorizeBulkTransfer.
  destruct (truthy (reference body)) eqn:Href; simpl.
  2:{ split; [eauto|done]. }
  destruct (truthy (authorizationCode body)) eqn:Hcode; simpl.
  2:{ split; [eauto|done]. }
  split; [by intros [|]|]. intros _ _. split.
  - intros msg ->. split; [done|]. eexists. split; [done|].
    by case_bool_decide.
  - intros data ->. split.
    + destruct (payrollId body) as [pid|]; [|by eexists _, _].
      case_bool_decide; [by eexists _, _|].
      destruct (getBatchDetails client _) as [details|]; [|by eexists _, _].
      destruct (followUp this client now s pid details) as [[s' bu] n].
      eexists _, _. simpl. split; [done|]. done.
    + intros [-> | [-> | ->]]; try done.
      * destruct (payrollId body) as [pid|]; [|done].
        by case_bool_decide.
Qed.
End Authorization.

Lemma authorization_follow_up_witness :
  (PayrollItem.status <$>
     payroll_items
       (BulkAuthorization.authorizeBulkTransfer OnClass
          SampleAuthorization.client 1000 Sample.ledger
          SampleAuthorization.body).1)
  = [COMPLETED; COMPLETED; PROCESSING].
Proof.
  destruct (authorization_follow_up OnClass SampleAuthorization.client 1000
              Sample.ledger SampleAuthorization.body 27
              (BulkAuthorization.mkBatchDetails
                 (Some (BulkAuthorization.mkBatchBody
                          (Some [ MonnifyClient.mkTxEntry
                                    (Some "PAYROLL_27_51") (Some "MNFY_51");
                                  MonnifyClient.mkTxEntry
                                    (Some "PAYROLL_27_53") (Some "MNFY_53") ])
                          None))
                 (BulkAuthorization.mkBatchBody None None))
              "authorized BATCH_1000")
    as [Hrows _];
    [apply sample_ledger_unique_ids|done|done|done|done|done|done|].
  apply list_eq. intros [|[|[|k]]]; rewrite list_lookup_fmap.
  - by rewrite (Hrows 0%nat _ eq_refl).
  - by rewrite (Hrows 1%nat _ eq_refl).
  - by rewrite (Hrows 2%nat _ eq_refl).
  - reflexivity.
Defined.

Lemma authorization_verdict_witness :
  (BulkAuthorization.authorizeBulkTransfer Undefined
     SampleAuthorization.client 1000 Sample.ledger
     (BulkAuthorization.mkBody (Some "BATCH_1000") None (Some 27))).1
  = Sample.ledger.
Proof.
  apply (authorization_verdict Undefined SampleAuthorization.client 1000
           Sample.ledger
           (BulkAuthorization.mkBody (Some "BATCH_1000") None (Some 27))).
  by right.
Defined.

(** ** The reconciler called without its class *)

Section UnboundReconcile.
Import PayrollController ReconcileHandler.

(** X25.  [reconcilePayroll] and its receiver.  Called on its class, the
    handler is [PayrollController.reconcilePayroll].  Called with an
    undefined receiver it makes the same item writes, but whenever the
    batch exists and has an item holding a reference it leaves the batch
    row as it was (the aggregate is not recomputed) and answers 500 instead
    of the summary; in the other cases it answers as on its class. *)
Theorem reconcile_without_receiver (typeError : string) (gateway : Gateway)
    (now : Z) (s : Store) (id : Z) :
  let bound := PayrollController.reconcilePayroll gateway now s id in
  let unbound :=
    ReconcileHandler.reconcilePayroll Undefined typeError gateway now s id in
  ReconcileHandler.reconcilePayroll OnClass typeError gateway now s id
  = (bound.1, Json bound.2)
  ∧ payroll_items unbound.1 = payroll_items bound.1
  ∧ employees unbound.1 = employees s
  ∧ payrolls unbound.1 = payrolls s
  ∧ (is_Some (PayrollModel.findById s id)
     ∧ itemsToReconcile (PayrollItemModel.findByPayrollId s id) ≠ [] →
     ∃ error, unbound.2 = ServerError error ∧ error ≠ "")
  ∧ (PayrollModel.findById s id = None
     ∨ itemsToReconcile (PayrollItemModel.findByPayrollId s id) = [] →
     unbound = (s, Json bound.2)).
Proof.
  intros bound unbound. subst bound unbound.
  unfold ReconcileHandler.reconcilePayroll, PayrollController.reconcilePayroll.
  destruct (PayrollModel.findById s id) as [p|].
  2:{ simpl. repeat split; try done. by intros [[? [=]] _]. }
  case_bool_decide as Hnil.
  { simpl. repeat split; try done. by intros [_ ?]. }
  pose proof (sweep_effect gateway now
                (itemsToReconcile (PayrollItemModel.findByPayrollId s id))
                (mkSweep s 0 0)) as (He & Hp & _).
  simpl in *. repeat split; try done.
  - intros _. eexists. split; [done|]. by case_bool_decide.
  - by intros [|].
Qed.
End UnboundReconcile.

Lemma reconcile_without_receiver_witness :
  ∃ error,
    (ReconcileHandler.reconcilePayroll Undefined
       "Cannot read properties of undefined" Sample.all_paid 1000
       Sample.ledger 27).2
    = ReconcileHandler.ServerError error.
Proof.
  destruct (reconcile_without_receiver "Cannot read properties of undefined"
              Sample.all_paid 1000 Sample.ledger 27)
    as (_ & _ & _ & _ & Herr & _).
  destruct Herr as (error & Herr & _); [by split; [eexists|]|].
  by exists error.
Defined.

(** ** A batch whose items are all notified *)

Lemma length_filter_ext {A} (P Q : A → Prop) `{!∀ x, Decision (P x)}
    `{!∀ x, Decision (Q x)} (l : list A) :
  (∀ x, x ∈ l → (P x ↔ Q x)) →
  length (filter P l) = length (filter Q l).
Proof.
  induction l as [|x l IH]; intros Hext; [done|].
  rewrite !filter_cons.
  assert (P x ↔ Q x) as Hx by (apply Hext, list_elem_of_here).
  assert (length (filter P l) = length (filter Q l)) as Hl.
  { apply IH. intros y Hy. by apply Hext, list_elem_of_further. }
  destruct (decide (P x)), (decide (Q x)); simpl; try tauto; by rewrite Hl.
Qed.

Lemma length_filter_fmap {A B} (f : A → B) (P : B → Prop)
    `{!∀ y, Decision (P y)} (l : list A) :
  length (filter P (f <$> l)) = length (filter (λ x, P (f x)) l).
Proof.
  induction l as [|x l IH]; [done|].
  rewrite fmap_cons, !filter_cons.
  destruct (decide (P (f x))); simpl; by rewrite IH.
Qed.

Lemma Forall2_fmap_in {A} (R : A → A → Prop) (f : A → A) (l : list A) :
  (∀ x, x ∈ l → R x (f x)) → Forall2 R l (f <$> l).
Proof.
  induction l as [|x l IH]; intros HR; constructor.
  - apply HR, list_elem_of_here.
  - apply IH. intros y Hy. by apply HR, list_elem_of_further.
Qed.

Section NotifiedBatch.
Import MonnifyWebhook Notification Delivery.

Lemma findById_of_batch s pid it :
  unique_ids s →
  it ∈ PayrollItemModel.findByPayrollId s pid →
  PayrollItemModel.findById s (PayrollItem.id it) = Some it.
Proof.
  intros Hpk Hin.
  unfold PayrollItemModel.findByPayrollId in Hin.
  apply list_elem_of_filter in Hin as [[_ Hjoin] Hrow].
  destruct (PayrollItemModel.findById s (PayrollItem.id it)) as [x|] eqn:Hx.
  - apply findById_Some in Hx as [Hxin Hid]. f_equal.
    by apply (unique_ids_inj s).
  - unfold PayrollItemModel.findById in Hx. apply head_None in Hx.
    assert (it ∈ filter (λ r, PayrollItem.id r = PayrollItem.id it
                              ∧ PayrollItemModel.joined s r)
                        (payroll_items s)) as Hit
      by (by apply list_elem_of_filter).
    rewrite Hx in Hit. by apply elem_of_nil in Hit.
Qed.

Lemma handler_notified s now req pid it :
  unique_ids s → 0 <= pid → 0 <= PayrollItem.id it →
  it ∈ PayrollItemModel.findByPayrollId s pid →
  terminal (PayrollItem.status it) = false →
  notifies pid it req →
  ∃ data st,
    eventData (body req) = Some data
    ∧ classify (eventType (body req)) data = Some st
    ∧ (handler decimalNumber s now req).1
      = PayrollProcessor.updatePayrollStats
          (PayrollItemModel.updateStatus s now (PayrollItem.id it) st
             (transactionReference data) (message st data))
          now pid.
Proof.
  intros Hpk Hpid Hid Hin Hterm (data & Hdata & Href & [st Hst]).
  exists data, st. split; [done|]. split; [done|].
  assert (correlation decimalNumber req = Some (pid, PayrollItem.id it))
    as Hcorr.
  { unfold correlation. rewrite Hdata, Href.
    pose proof (payrollReference_parts pid (PayrollItem.id it) Hpid Hid)
      as Hparts.
    assert (truthy (Some (payrollReference pid (PayrollItem.id it))) = true)
      as -> by done.
    cbn [negb default from_option id]. rewrite Hparts. simpl.
    by rewrite !decimalNumber_pretty. }
  rewrite handler_correlation, Hcorr, Hdata.
  rewrite (findById_of_batch s pid it Hpk Hin), Hterm.
  rewrite applyEvent_classify, Hst. simpl.
  by rewrite updatePayrollStats_webhook.
Qed.

Lemma settled_keeps event row :
  PayrollItem.id (settled event row) = PayrollItem.id row
  ∧ PayrollItem.payroll_id (settled event row) = PayrollItem.payroll_id row
  ∧ PayrollItem.employee_id (settled event row)
    = PayrollItem.employee_id row.
Proof.
  unfold settled. destruct (eventData _) as [data|]; [|done].
  by destruct (classify _ _).
Qed.

Lemma deliver_notified s pid (event : PayrollItem.t → Z * Request) done_ :
  unique_ids s → 0 <= pid →
  (∀ it, it ∈ PayrollItemModel.findByPayrollId s pid →
         0 <= PayrollItem.id it
         ∧ terminal (PayrollItem.status it) = false
         ∧ notifies pid it (event it).2) →
  NoDup done_ →
  (∀ it, it ∈ done_ → it ∈ PayrollItemModel.findByPayrollId s pid) →
  let sk := deliver decimalNumber s (event <$> done_) in
  payroll_items sk
  = (λ row, if decide (row ∈ done_) then settled event row else row)
      <$> payroll_items s
  ∧ employees sk = employees s
  ∧ (is_Some (payrolls s !! pid) → is_Some (payrolls sk !! pid))
  ∧ (done_ ≠ [] →
     ∀ p', payrolls sk !! pid = Some p' →
       let batch := PayrollItemModel.findByPayrollId sk pid in
       Payroll.status p'
       = spec_aggregate (count_status COMPLETED batch)
           (count_status FAILED batch) (length batch)
       ∧ Payroll.processed_count p' = count_status COMPLETED batch
       ∧ Payroll.failed_count p' = count_status FAILED batch).
Proof.
  intros Hpk Hpid Hitems.
  induction done_ as [|it done_ IH] using rev_ind; intros Hnd Hsub sk.
  - subst sk. simpl. split; [|done].
    rewrite <-(list_fmap_id (payroll_items s)) at 1.
    apply list_fmap_ext. intros _ row _. by simpl.
  - apply list.NoDup_app in Hnd as (Hnd & Hnot & _).
    assert (it ∉ done_) as Hfresh.
    { intros Hin. apply (Hnot it Hin). apply list_elem_of_here. }
    assert (it ∈ PayrollItemModel.findByPayrollId s pid) as Hit.
    { apply Hsub, elem_of_app. right. apply list_elem_of_here. }
    destruct (Hitems it Hit) as (Hid & Hterm & Hnote).
    destruct (IH Hnd) as (Hi & He & Hp & _).
    { intros x Hx. apply Hsub, elem_of_app. by left. }
    clear IH.
    set (g := λ row, if decide (row ∈ done_) then settled event row
                     else row) in *.
    assert (∀ row, PayrollItem.id (g row) = PayrollItem.id row
                   ∧ PayrollItem.payroll_id (g row)
                     = PayrollItem.payroll_id row
                   ∧ PayrollItem.employee_id (g row)
                     = PayrollItem.employee_id row) as Hg.
    { intros row. unfold g. case_decide; [apply settled_keeps | done]. }
    subst sk. unfold deliver. rewrite fmap_app, foldl_app. simpl.
    fold (deliver decimalNumber s (event <$> done_)).
    set (sk := deliver decimalNumber s (event <$> done_)) in *.
    assert (unique_ids sk) as Hpk'.
    { unfold unique_ids. rewrite Hi, <-list_fmap_compose.
      erewrite list_fmap_ext; [exact Hpk|].
      intros _ row _. simpl. apply Hg. }
    assert (PayrollItemModel.findByPayrollId sk pid
            = g <$> PayrollItemModel.findByPayrollId s pid) as Hbatch.
    { apply findByPayrollId_fmap; try done; intros row; apply Hg. }
    assert (it ∈ PayrollItemModel.findByPayrollId sk pid) as Hit'.
    { rewrite Hbatch.
      replace it with (g it) at 1 by (unfold g; by rewrite decide_False).
      by apply list_elem_of_fmap_2. }
    destruct (handler_notified sk (event it).1 (event it).2 pid it
                Hpk' Hpid Hid Hit' Hterm Hnote)
      as (data & st & Hdata & Hst & ->).
    set (s1 := PayrollItemModel.updateStatus sk (event it).1
                 (PayrollItem.id it) st (transactionReference data)
                 (message st data)).
    split; [|split; [|split]].
    + change (payroll_items (PayrollProcessor.updatePayrollStats s1 _ _))
        with (payroll_items s1).
      unfold s1. simpl. rewrite Hi, <-list_fmap_compose.
      apply list_fmap_ext. intros k row Hk. simpl.
      destruct (Hg row) as (-> & _ & _).
      assert (row ∈ payroll_items s) as Hrow
        by (by eapply list_elem_of_lookup_2).
      case_bool_decide as Hsame.
      * assert (row = it) as ->.
        { apply (unique_ids_inj s); try done.
          by eapply findByPayrollId_of_store. }
        unfold g. rewrite decide_False by done.
        rewrite decide_True by (apply elem_of_app; right;
                                apply list_elem_of_here).
        unfold settled. by rewrite Hdata, Hst.
      * unfold g. destruct (decide (row ∈ done_)) as [Hin|Hin].
        -- rewrite decide_True; [done|]. apply elem_of_app. by left.
        -- rewrite decide_False; [done|].
           intros [?|Hlast%list_elem_of_singleton]%elem_of_app; [done|].
           by subst.
    + done.
    + intros Hsome. specialize (Hp Hsome).
      pose proof (updatePayrollStats_spec s1 (event it).1 pid) as Hspec.
      simpl in Hspec. rewrite Hspec.
      rewrite payroll_lookup_updateStatus, decide_True by done.
      by apply fmap_is_Some.
    + intros _ p'.
      pose proof (updatePayrollStats_spec s1 (event it).1 pid) as Hspec.
      simpl in Hspec. rewrite Hspec.
      rewrite payroll_lookup_updateStatus, decide_True by done.
      set (s2 := PayrollModel.updateStatus s1 _ _ _ _ _).
      rewrite (findByPayrollId_ext s2 s1 pid) by done.
      destruct (payrolls s1 !! pid) as [p|]; [|done].
      by intros [= <-].
Qed.

(** X26.  With unique item ids, none of them negative, a batch whose items
    are all neither COMPLETED nor FAILED, and for each of its items a
    success or failure notification carrying the reference the worker gave
    to its transfer: once the notifications have been served one after the
    other, in whatever order and whatever else they carry, every item of
    the batch has the status its notification reported, the rows outside
    the batch are as they were, and the batch row holds the number of
    successes, the number of failures and their aggregate status: COMPLETED
    when every notification was a success. *)
Theorem notified_batch_settles (s : Store) (pid : Z)
    (event : PayrollItem.t → Z * Request) (order : list PayrollItem.t) :
  unique_ids s →
  0 <= pid →
  let items := PayrollItemModel.findByPayrollId s pid in
  items ≠ [] →
  (∀ it, it ∈ items →
         0 <= PayrollItem.id it
         ∧ terminal (PayrollItem.status it) = false
         ∧ notifies pid it (event it).2) →
  order ≡ₚ items →
  let s' := deliver decimalNumber s (event <$> order) in
  let successes :=
    length (filter (λ it, outcome (event it).2 = Some COMPLETED) items) in
  let failures :=
    length (filter (λ it, outcome (event it).2 = Some FAILED) items) in
  Forall2 (λ it it', PayrollItem.id it' = PayrollItem.id it
                     ∧ outcome (event it).2 = Some (PayrollItem.status it'))
          items (PayrollItemModel.findByPayrollId s' pid)
  ∧ (∀ k row, payroll_items s !! k = Some row → row ∉ items →
              payroll_items s' !! k = Some row)
  ∧ (successes + failures = length items)%nat
  ∧ (∀ p, PayrollModel.findById s pid = Some p →
       ∃ p', PayrollModel.findById s' pid = Some p'
             ∧ Payroll.status p'
               = spec_aggregate successes failures (length items)
             ∧ Payroll.processed_count p' = successes
             ∧ Payroll.failed_count p' = failures
             ∧ (failures = 0%nat → Payroll.status p' = COMPLETED)).
Proof.
  intros Hpk Hpid items Hne Hitems Hperm s' successes failures.
  assert (∀ it, it ∈ order ↔ it ∈ items) as Hmem.
  { intros it. by rewrite Hperm. }
  destruct (deliver_notified s pid event order Hpk Hpid Hitems)
    as (Hi & He & Hp & Hagg).
  { rewrite Hperm. by apply findByPayrollId_NoDup. }
  { intros it. apply Hmem. }
  fold s' in Hi, He, Hp, Hagg.
  set (g := λ row, if decide (row ∈ order) then settled event row
                   else row) in *.
  assert (PayrollItemModel.findByPayrollId s' pid = g <$> items) as Hbatch.
  { apply findByPayrollId_fmap; try done; intros row; unfold g;
      case_decide; try done; apply settled_keeps. }
  assert (∀ it, it ∈ items →
            PayrollItem.id (g it) = PayrollItem.id it
            ∧ outcome (event it).2 = Some (PayrollItem.status (g it))
            ∧ terminal (PayrollItem.status (g it)) = true) as Hout.
  { intros it Hin. unfold g. rewrite decide_True by (by apply Hmem).
    destruct (Hitems it Hin) as (_ & _ & data & Hdata & _ & [st Hst]).
    unfold settled, outcome. rewrite Hdata. simpl. rewrite Hst. simpl.
    split; [done|]. split; [done|]. by eapply classify_terminal. }
  assert (∀ st, count_status st (PayrollItemModel.findByPayrollId s' pid)
                = length (filter (λ it, outcome (event it).2 = Some st)
                                 items)) as Hcount.
  { intros st. unfold count_status. rewrite Hbatch, length_filter_fmap.
    apply length_filter_ext. intros it Hin.
    destruct (Hout it Hin) as (_ & -> & _). split; congruence. }
  assert (successes + failures = length items)%nat as Hsum.
  { pose proof (status_partition (PayrollItemModel.findByPayrollId s' pid))
      as Hpart.
    rewrite (Hcount COMPLETED), (Hcount FAILED), (Hcount PENDING),
      (Hcount PROCESSING), (Hcount PARTIALLY_COMPLETED) in Hpart.
    fold successes failures in Hpart.
    rewrite Hbatch, length_fmap in Hpart.
    assert (∀ st, terminal st = false →
              length (filter (λ it, outcome (event it).2 = Some st) items)
              = 0%nat) as Hzero.
    { intros st Hst. rewrite filter_none; [done|].
      apply list.Forall_forall. intros it Hin Heq.
      destruct (Hout it Hin) as (_ & Hgiven & Hterm).
      rewrite Heq in Hgiven. injection Hgiven as ->. congruence. }
    rewrite (Hzero PENDING), (Hzero PROCESSING),
      (Hzero PARTIALLY_COMPLETED) in Hpart by done.
    lia. }
  split; [|split; [|split; [done|]]].
  - rewrite Hbatch. apply Forall2_fmap_in. intros it Hin.
    by destruct (Hout it Hin) as (? & ? & _).
  - intros k row Hk Hrow. rewrite Hi, list_lookup_fmap, Hk. simpl.
    unfold g. rewrite decide_False; [done|]. by rewrite Hmem.
  - intros p Hfind. unfold PayrollModel.findById in *.
    destruct Hp as [p' Hp']; [by eexists|].
    exists p'. split; [done|].
    destruct (Hagg) with (p' := p') as (Hst & Hc & Hf); [|done|].
    { intros ->. apply Permutation_nil_l in Hperm. by apply Hne. }
    rewrite (Hcount COMPLETED) in Hst, Hc.
    rewrite (Hcount FAILED) in Hst, Hf.
    fold successes failures in Hst, Hc, Hf.
    rewrite Hbatch, length_fmap in Hst.
    split; [done|]. split; [done|]. split; [done|].
    intros Hnone. rewrite Hst. unfold spec_aggregate.
    rewrite bool_decide_eq_true_2; [done | lia].
Qed.
End NotifiedBatch.

Lemma notified_batch_settles_witness :
  ∃ p',
    PayrollModel.findById
      (Delivery.deliver decimalNumber Sample.ledger
         ((λ it, (1000, Sample.paid (payrollReference 27 (PayrollItem.id it))))
            <$> PayrollItemModel.findByPayrollId Sample.ledger 27))
      27 = Some p'
    ∧ Payroll.status p' = COMPLETED.
Proof.
  destruct (notified_batch_settles Sample.ledger 27
              (λ it, (1000, Sample.paid (payrollReference 27 (PayrollItem.id it))))
              (PayrollItemModel.findByPayrollId Sample.ledger 27))
    as (_ & _ & _ & Hrow).
  - apply sample_ledger_unique_ids.
  - lia.
  - done.
  - intros it Hin. vm_compute in Hin.
    repeat (apply elem_of_cons in Hin as [->|Hin]);
      [..|by apply elem_of_nil in Hin];
      (split; [simpl; lia|]); (split; [done|]);
      eexists; (split; [done|]); (split; [done|]); by eexists.
  - done.
  - destruct (Hrow (Sample.payroll 27 PROCESSING) eq_refl)
      as (p' & Hp' & _ & _ & _ & Hdone).
    exists p'. split; [exact Hp'|]. by apply Hdone.
Defined.

(** ** Generated employee ids *)

Section EmployeeIds.
Import EmployeeCode.

Lemma all_digits_decimal (s : string) (acc : Z) :
  all_digits s = true ↔ is_Some (decimal_from acc s).
Proof.
  revert acc. induction s as [|c s IH]; intros acc; simpl.
  - split; [by eexists | done].
  - destruct (digit_value c) as [d|]; simpl.
    + apply IH.
    + split; [done | by intros [? [=]]].
Qed.

Lemma decimal_from_nonneg (s : string) (acc v : Z) :
  0 <= acc → decimal_from acc s = Some v → 0 <= v.
Proof.
  revert acc. induction s as [|c s IH]; intros acc Hacc; simpl.
  - intros [= <-]. done.
  - unfold digit_value. case_bool_decide as Hc; [|done].
    apply IH. lia.
Qed.

Lemma decimal_from_zeros (n : nat) (s : string) :
  decimal_from 0 (repeat_char n "0" +:+ s) = decimal_from 0 s.
Proof. induction n as [|n IH]; [done|]. simpl. exact IH. Qed.

Lemma padStart_number (z : Z) :
  0 <= z → decimalNumber (padStart 3 "0" (pretty z)) = Some z.
Proof.
  intros Hz. unfold decimalNumber, padStart.
  rewrite decimal_from_zeros. by apply decimalNumber_pretty.
Qed.

Lemma padStart_nonempty (s : string) : padStart 3 "0" s ≠ "".
Proof.
  unfold padStart. destruct s as [|c s]; [done|].
  by destruct (repeat_char _ _).
Qed.

Lemma top_spec (rows : list string) :
  match top rows with
  | None => rows = []
  | Some best =>
      best ∈ rows
      ∧ ∀ r, r ∈ rows →
             default 0 (as_integer r) <= default 0 (as_integer best)
  end.
Proof.
  induction rows as [|x rows IH]; simpl; [done|].
  destruct (top rows) as [best|].
  - destruct IH as [Hin Hmax]. case_bool_decide as Hle.
    + split; [apply list_elem_of_here|].
      intros r [->|Hr]%elem_of_cons; [lia|].
      specialize (Hmax r Hr). lia.
    + split; [by apply list_elem_of_further|].
      intros r [->|Hr]%elem_of_cons; [lia | by apply Hmax].
  - subst rows. split; [apply list_elem_of_here|].
    intros r [->|Hr]%elem_of_cons; [lia | by apply elem_of_nil in Hr].
Qed.

Lemma generated_selected (z : Z) :
  0 <= z → selected ("EMP" +:+ padStart 3 "0" (pretty z)) = true.
Proof.
  intros Hz. unfold selected.
  pose proof (padStart_nonempty (pretty z)) as Hne.
  pose proof (padStart_number z Hz) as Hnum.
  set (x := padStart 3 "0" (pretty z)) in *.
  change (substring_from 3 ("EMP" +:+ x)) with x.
  assert (String.prefix "EMP" ("EMP" +:+ x) = true) as ->
    by (by destruct x).
  change (String.length ("EMP" +:+ x)) with (S (S (S (String.length x)))).
  rewrite (bool_decide_eq_false_2 _ Hne).
  rewrite (bool_decide_eq_true_2 (4 ≤ _)%nat)
    by (destruct x; [done | simpl; lia]).
  simpl. apply (all_digits_decimal _ 0). unfold decimalNumber in Hnum.
  by rewrite Hnum.
Qed.

(** X27.  The employee id that [generateEmployeeId] returns is not the
    [employee_id] of any row of the table, and is itself of the form that
    the next call will take into account; the function returns an id
    whenever the numbers of the rows of that form fit the INTEGER type; and
    it returns EMP001 when no row has that form. *)
Theorem generated_employee_id_is_fresh (employee_ids : list string) :
  let rows := filter (λ employee_id, selected employee_id = true)
                     employee_ids in
  (∀ new, generateEmployeeId employee_ids = Some new →
          (new ∉ employee_ids) ∧ selected new = true)
  ∧ (Forall (λ employee_id, is_Some (as_integer employee_id)) rows →
     is_Some (generateEmployeeId employee_ids))
  ∧ (rows = [] → generateEmployeeId employee_ids = Some "EMP001").
Proof.
  intros rows. unfold generateEmployeeId. fold rows.
  split; [|split].
  - intros new. case_bool_decide as Hfit; [|done].
    pose proof (top_spec rows) as Htop.
    destruct (top rows) as [lastId|].
    + destruct Htop as [Hlast Hmax].
      assert (selected lastId = true) as Hsel.
      { unfold rows in Hlast. apply list_elem_of_filter in Hlast. tauto. }
      assert (is_Some (decimalNumber (substring_from 3 lastId)))
        as [v Hv].
      { apply all_digits_decimal. unfold selected in Hsel.
        apply andb_true_iff in Hsel. tauto. }
      rewrite Hv. intros [= <-].
      assert (0 <= v) as Hpos by (by eapply (decimal_from_nonneg _ 0)).
      split; [|apply generated_selected; lia].
      intros Hin.
      assert ("EMP" +:+ padStart 3 "0" (pretty (v + 1)) ∈ rows) as Hrow.
      { apply list_elem_of_filter. split; [|done].
        apply generated_selected. lia. }
      rewrite list.Forall_forall in Hfit.
      destruct (Hfit _ Hrow) as [k Hk]. destruct (Hfit _ Hlast) as [k' Hk'].
      specialize (Hmax _ Hrow). rewrite Hk, Hk' in Hmax. simpl in Hmax.
      unfold as_integer in Hk, Hk'. rewrite Hv in Hk'.
      change (substring_from 3 ("EMP" +:+ ?x)) with x in Hk.
      rewrite padStart_number in Hk by lia.
      repeat case_bool_decide; simplify_eq. lia.
    + intros [= <-]. split; [|done]. intros Hin.
      assert ("EMP001" ∈ rows) as Hrow
        by (by apply list_elem_of_filter).
      rewrite Htop in Hrow. by apply elem_of_nil in Hrow.
  - intros Hfit. rewrite bool_decide_eq_true_2 by done.
    destruct (top rows); [|by eexists].
    destruct (decimalNumber _); by eexists.
  - intros ->. by rewrite bool_decide_eq_true_2 by constructor.
Qed.
End EmployeeIds.

Lemma generated_employee_id_is_fresh_witness :
  EmployeeCode.generateEmployeeId ["EMP007"; "EMP12"; "TMP900"; "EMPx"]
  = Some "EMP013"
  ∧ "EMP013" ∉ ["EMP007"; "EMP12"; "TMP900"; "EMPx"].
Proof.
  split; [reflexivity|].
  by apply (generated_employee_id_is_fresh
              ["EMP007"; "EMP12"; "TMP900"; "EMPx"]).
Defined.

(** ** The reference column stays as the code writes it *)

(** Every write of the four operations goes through
    [PayrollItemModel.updateStatus], with a status other than PENDING, or
    through [PayrollModel.updateStatus]: a property of the store that these
    two keep is kept by the operations. *)
Section WritesGoThroughUpdateStatus.
Variable P : Store → Prop.
Hypothesis P_item :
  ∀ s now i st ref err,
    st ∈ [PROCESSING; COMPLETED; FAILED] → P s →
    P (PayrollItemModel.updateStatus s now i st ref err).
Hypothesis P_payroll :
  ∀ s now i st pc fc, P s → P (PayrollModel.updateStatus s now i st pc fc).

Lemma kept_stats s now pid :
  P s → P (PayrollProcessor.updatePayrollStats s now pid).
Proof. unfold PayrollProcessor.updatePayrollStats. apply P_payroll. Qed.

Lemma kept_foldl {A B} (proj : B → Store) (step : B → A → B)
    (items : list A) (b : B) :
  (∀ b x, P (proj b) → P (proj (step b x))) →
  P (proj b) → P (proj (foldl step b items)).
Proof.
  intros Hstep. revert b. induction items as [|x items IH]; intros b Hb.
  - done.
  - simpl. apply IH. by apply Hstep.
Qed.

Lemma kept_buildTransfers s now pid items acc :
  P s → P (PayrollProcessor.buildTransfers s now pid items acc).1.
Proof.
  revert s acc. induction items as [|item items IH]; intros s acc Hs.
  - done.
  - simpl. destruct (EmployeeModel.findById s _); [|done].
    apply IH, P_item; [set_solver | done].
Qed.

Lemma kept_backfill results now pid s item :
  P s → P (PayrollProcessor.backfill results now pid s item).
Proof.
  intros Hs. unfold PayrollProcessor.backfill.
  destruct (List.find _ _) as [m|]; [|done].
  destruct (truthy _); [|done].
  apply P_item; [set_solver | done].
Qed.

Lemma kept_reconcileItem gateway now w item :
  P (PayrollController.store w) →
  P (PayrollController.store
       (PayrollController.reconcileItem gateway now w item)).
Proof.
  intros Hw. unfold PayrollController.reconcileItem.
  destruct (gateway _); [|done].
  repeat (destruct (_ && _); [apply P_item; [set_solver | done]|]).
  done.
Qed.

Lemma kept_attachReference results now pid acc item :
  P acc.1 → P (BulkAuthorization.attachReference results now pid acc item).1.
Proof.
  intros Hacc. unfold BulkAuthorization.attachReference.
  destruct (List.find _ _) as [m|]; [|done].
  destruct (truthy _); [|done].
  destruct (negb _); [|done].
  apply P_item; [set_solver | done].
Qed.

Lemma kept_reconcileAuthorized gateway now acc item :
  P acc.1 →
  P (BulkAuthorization.reconcileAuthorized gateway now acc item).1.
Proof.
  intros Hacc. unfold BulkAuthorization.reconcileAuthorized.
  destruct (gateway _); [|done].
  repeat (destruct (_ && _); [apply P_item; [set_solver | done]|]).
  done.
Qed.

Lemma kept_by_operations (s : Store) :
  P s →
  (∀ Number now req, P (MonnifyWebhook.handler Number s now req).1)
  ∧ (∀ this typeError gateway now id,
       P (ReconcileHandler.reconcilePayroll this typeError gateway now s
            id).1)
  ∧ (∀ net now c pid,
       P (PayrollProcessor.store
            (PayrollProcessor.processBulkPayroll net now c s pid)))
  ∧ (∀ Data this (client : BulkAuthorization.Client Data) now body,
       P (BulkAuthorization.authorizeBulkTransfer this client now s body).1).
Proof.
  intros Hs. split; [|split; [|split]].
  - intros Number now req. unfold MonnifyWebhook.handler.
    repeat (case_match; try done).
    unfold MonnifyWebhook.applyEvent. simpl.
    rewrite updatePayrollStats_webhook. apply kept_stats.
    repeat (case_match; try done); (apply P_item; [set_solver | done]).
  - intros this typeError gateway now id.
    unfold ReconcileHandler.reconcilePayroll.
    destruct (PayrollModel.findById s id); [|done].
    case_bool_decide; [done|].
    assert (P (PayrollController.store
                 (foldl (PayrollController.reconcileItem gateway now)
                    (PayrollController.mkSweep s 0 0)
                    (PayrollController.itemsToReconcile
                       (PayrollItemModel.findByPayrollId s id))))) as Hw.
    { apply (kept_foldl PayrollController.store
               (PayrollController.reconcileItem gateway now) _
               (PayrollController.mkSweep s 0 0)); [|done].
      intros w item. apply kept_reconcileItem. }
    destruct this; simpl; [|done].
    rewrite updatePayrollStats_controller. by apply kept_stats.
  - intros net now c pid. unfold PayrollProcessor.processBulkPayroll.
    case_bool_decide; [done|].
    pose proof (kept_buildTransfers
                  (PayrollModel.updateStatus s now pid PROCESSING None None)
                  now pid
                  (PayrollProcessor.payable
                     (PayrollItemModel.findByPayrollId s pid)) []
                  (P_payroll _ _ _ _ _ _ Hs)) as Hb.
    destruct (PayrollProcessor.buildTransfers _ _ _ _ _) as [s2 r].
    simpl in Hb. destruct r as [transfers|msg]; [|done].
    destruct (MonnifyClient.initiateBulkTransfer _ _ _ _) as [[c1 calls] r].
    destruct r as [[resp|]|msg]; try done.
    destruct (MonnifyClient.requestSuccessful resp); [|done]. simpl.
    apply kept_stats. apply (kept_foldl id); [|done].
    intros b x. apply kept_backfill.
  - intros Data this client now body.
    unfold BulkAuthorization.authorizeBulkTransfer.
    destruct (negb (truthy (BulkAuthorization.reference body))); [done|].
    destruct (negb (truthy (BulkAuthorization.authorizationCode body)));
      [done|].
    destruct (BulkAuthorization.authorize client _ _) as [data|msg]; [|done].
    destruct (BulkAuthorization.payrollId body) as [pid|]; [|done].
    case_bool_decide; [done|].
    destruct (BulkAuthorization.getBatchDetails client _) as [details|];
      [|done].
    unfold BulkAuthorization.followUp.
    set (results := match BulkAuthorization.transactionList _ with
                    | Some l => l
                    | None => _
                    end).
    set (items := PayrollItemModel.findByPayrollId s pid).
    pose proof (kept_foldl fst
                  (BulkAuthorization.attachReference results now pid)
                  items (s, 0%nat)
                  (kept_attachReference results now pid) Hs) as H1.
    destruct (foldl (BulkAuthorization.attachReference results now pid) _ _)
      as [s1 n1].
    pose proof (kept_foldl fst
                  (BulkAuthorization.reconcileAuthorized
                     (BulkAuthorization.getTransactionStatus client) now)
                  (PayrollController.itemsToReconcile items) (s1, 0%nat)
                  (kept_reconcileAuthorized _ now) H1) as H2.
    destruct (foldl (BulkAuthorization.reconcileAuthorized _ now) _ _)
      as [s2 n2].
    simpl in *. destruct this; simpl; [|done].
    rewrite updatePayrollStats_controller. by apply kept_stats.
Qed.
End WritesGoThroughUpdateStatus.

Lemma reference_invariant_updated now st ref err row :
  st ≠ PENDING →
  reference_invariant row →
  reference_invariant (PayrollItemModel.updated now st ref err row).
Proof.
  intros Hst [_ Hempty]. split; [done|]. simpl.
  destruct ref as [r|]; simpl; [|done].
  case_bool_decide as Hr; simpl; [done | congruence].
Qed.

(** The operations keep the reference column as the code writes it: on a
    store in which no PENDING item holds a reference and no stored reference
    is empty, the notification receiver, the reconciler, the queue worker
    and the authorization endpoint leave a store of the same kind. *)
Lemma references_sound_kept (s : Store) :
  references_sound s →
  (∀ Number now req,
     references_sound (MonnifyWebhook.handler Number s now req).1)
  ∧ (∀ this typeError gateway now id,
       references_sound
         (ReconcileHandler.reconcilePayroll this typeError gateway now s
            id).1)
  ∧ (∀ net now c pid,
       references_sound
         (PayrollProcessor.store
            (PayrollProcessor.processBulkPayroll net now c s pid)))
  ∧ (∀ Data this (client : BulkAuthorization.Client Data) now body,
       references_sound
         (BulkAuthorization.authorizeBulkTransfer this client now s body).1).
Proof.
  apply kept_by_operations.
  - intros s0 now i st ref err Hst Hs0. unfold references_sound in *.
    simpl. apply Forall_fmap. eapply list.Forall_impl; [exact Hs0|].
    intros row Hrow. simpl. case_bool_decide; [|done].
    apply reference_invariant_updated; [|done].
    intros ->.
    repeat (apply elem_of_cons in Hst as [Hst|Hst]; [done|]).
    by apply elem_of_nil in Hst.
  - intros s0 now i st pc fc Hs0. exact Hs0.
Qed.
